(** * HARVEY backend: session-scoped tool orchestration

    A shallow embedding of the chat controller, the Gemini service, the
    tool orchestration service and the file manager of the HARVEY backend,
    together with the properties of the turn protocol, the dispatcher,
    the per-session pricing context and the session reaper.

    Conventions of the embedding:
    - A JavaScript string is held as the bytes of its UTF-8 encoding (a
      Rocq string); [length] and [substring] count UTF-16 code units, as
      in the source, and [Buffer.byteLength] counts bytes; [toLowerCase]
      acts on the ASCII letters.
    - A JavaScript number is held as the text [String(n)] gives for it:
      the code passes numbers on and prints them, and never computes
      with them.
    - [Date] values are integers (milliseconds since the epoch); the time
      at which a request is served is the parameter [now] of its handler.
    - A JavaScript [Map] is a [gmap]; arrays are lists; object literals
      received from outside are association lists.
    - Exceptions are explicit: a computation returns an [Outcome] and the
      state it leaves behind (a thrown exception does not undo writes).
    - External collaborators (the language model, the analysis and the
      transformation services, the YAML and URL parsers, the id generator)
      are the fields of an environment record [Collaborators].
    - A request handler runs to completion before the next one starts:
      the interleaving of handlers at their [await]s is not modelled.
    - The file system holds regular files and directories, each under the
      path it was written with (two spellings of one path are not
      identified). The uploads directory always exists: the constructor
      of [FileManager] creates it and nothing in the backend removes a
      directory. Reading, writing, unlinking and listing fail as [fs]
      does: [ENOENT], [ENOTDIR], [EISDIR].
    - The process holds two [ChatController] instances: the one
      [chatRoutes.ts] builds and binds the routes to, and the one
      [server.ts] builds and hands to the scheduler. The request handlers
      are those of the first. *)

From Stdlib Require Import ZArith Lia Ascii String.
From stdpp Require Import gmap strings list fin_maps pretty sorting.

Local Open Scope string_scope.
Local Open Scope Z_scope.
Local Open Scope list_scope.
Local Set Warnings "-register-all".

(** ** JavaScript strings *)

Module JsString.

Definition newline : ascii := Ascii.ascii_of_nat 10.

Definition lowerAscii (c : ascii) : ascii :=
  let n := Ascii.nat_of_ascii c in
  if ((65 <=? n)%nat && (n <=? 90)%nat)%bool
  then Ascii.ascii_of_nat (n + 32) else c.

Fixpoint toLowerCase (s : string) : string :=
  match s with
  | EmptyString => EmptyString
  | String c r => String (lowerAscii c) (toLowerCase r)
  end.

(** [s.startsWith(p)] *)
Fixpoint startsWith (s p : string) : bool :=
  match p, s with
  | EmptyString, _ => true
  | String _ _, EmptyString => false
  | String a p', String b s' => Ascii.eqb a b && startsWith s' p'
  end.

(** [s.includes(sub)] *)
Fixpoint includes (s sub : string) : bool :=
  startsWith s sub ||
  match s with
  | EmptyString => false
  | String _ r => includes r sub
  end.

(** [s.endsWith(suf)]: some suffix of [s] is [suf]. *)
Fixpoint endsWith (s suf : string) : bool :=
  String.eqb s suf ||
  match s with
  | EmptyString => false
  | String _ r => endsWith r suf
  end.

(** [s.split('\n')] *)
Fixpoint splitLines (s : string) : list string :=
  match s with
  | EmptyString => [EmptyString]
  | String c r =>
      if Ascii.eqb c newline then EmptyString :: splitLines r
      else match splitLines r with
           | l :: ls => String c l :: ls
           | [] => [String c EmptyString]
           end
  end.

(** [l.join(sep)] *)
Fixpoint join (sep : string) (l : list string) : string :=
  match l with
  | [] => EmptyString
  | [x] => x
  | x :: rest => x +:+ sep +:+ join sep rest
  end.

(** The UTF-16 code units of the character that a byte of UTF-8 starts:
    none for a continuation byte, two for the lead byte of a four-byte
    character (which UTF-16 writes as a surrogate pair). *)
Definition utf16Units (c : ascii) : nat :=
  let n := Ascii.nat_of_ascii c in
  if (n <? 128)%nat then 1%nat
  else if (n <? 192)%nat then 0%nat
  else if (n <? 240)%nat then 1%nat
  else 2%nat.

(** [s.length] *)
Fixpoint utf16Length (s : string) : nat :=
  match s with
  | EmptyString => 0%nat
  | String c r => (utf16Units c + utf16Length r)%nat
  end.

(** The high surrogate of the four-byte character that starts with [b0]
    and goes on with [r], as the three bytes that hold a lone surrogate. *)
Definition highSurrogate (b0 : ascii) (r : string) : string :=
  match r with
  | String b1 (String b2 _) =>
      let top := ((Ascii.nat_of_ascii b0 mod 8) * 256 +
                  (Ascii.nat_of_ascii b1 mod 64) * 4 +
                  (Ascii.nat_of_ascii b2 mod 64) / 16)%nat in
      let surrogate := (216 * 256 + (top - 64))%nat in
      String (Ascii.ascii_of_nat 237)
        (String (Ascii.ascii_of_nat (128 + (surrogate / 64) mod 64))
           (String (Ascii.ascii_of_nat (128 + surrogate mod 64)) EmptyString))
  | _ => EmptyString
  end.

(** The first [n] code units of [s]; [copying] holds while the bytes of a
    character that was taken are being copied. A pair that [n] cuts in two
    leaves its high surrogate. *)
Fixpoint utf16Take (copying : bool) (n : nat) (s : string) : string :=
  match s with
  | EmptyString => EmptyString
  | String c r =>
      match utf16Units c, n with
      | O, _ => if copying then String c (utf16Take true n r) else EmptyString
      | _, O => EmptyString
      | S O, S n' => String c (utf16Take true n' r)
      | _, S O => highSurrogate c r
      | _, S (S n') => String c (utf16Take true n' r)
      end
  end.

(** [s.substring(0, n)] *)
Definition substring0 (n : nat) (s : string) : string := utf16Take false n s.

(** [s.replace(pat, '')]: the first occurrence of [pat] is removed. *)
Fixpoint removeFirst (pat s : string) : string :=
  if startsWith s pat then String.substring (String.length pat) (String.length s) s
  else match s with
       | EmptyString => EmptyString
       | String c r => String c (removeFirst pat r)
       end.

(** [s.split('_')] *)
Fixpoint splitOn (sep : ascii) (s : string) : list string :=
  match s with
  | EmptyString => [EmptyString]
  | String c r =>
      if Ascii.eqb c sep then EmptyString :: splitOn sep r
      else match splitOn sep r with
           | l :: ls => String c l :: ls
           | [] => [String c EmptyString]
           end
  end.

End JsString.

(** ** JavaScript values *)

(** The JSON values that reach the backend in tool arguments and in the
    answers of the collaborators. *)
Inductive JsValue : Type :=
| JUndefined
| JNull
| JBool (b : bool)
| JNumber (text : string)     (* a number, as [String(n)] prints it *)
| JString (s : string)
| JArray (items : list JsValue)
| JObject (fields : list (string * JsValue)).

(** [!!v] *)
Definition truthy (v : JsValue) : bool :=
  match v with
  | JUndefined | JNull => false
  | JBool b => b
  | JNumber t => negb (String.eqb t "0") && negb (String.eqb t "NaN")
  | JString s => negb (String.eqb s "")
  | JArray _ | JObject _ => true
  end.

(** The text a template literal produces for [${v}]. *)
Fixpoint jsToString (v : JsValue) : string :=
  match v with
  | JUndefined => "undefined"
  | JNull => "null"
  | JBool true => "true"
  | JBool false => "false"
  | JNumber t => t
  | JString s => s
  | JArray items =>
      let element x :=
        match x with
        | JUndefined | JNull => ""
        | _ => jsToString x
        end in
      (fix joined (l : list JsValue) : string :=
         match l with
         | [] => ""
         | [x] => element x
         | x :: rest => element x +:+ "," +:+ joined rest
         end) items
  | JObject _ => "[object Object]"
  end.

(** Property read [obj.key] on an object literal; absent keys read as
    [undefined]. *)
Fixpoint getProp (key : string) (fields : list (string * JsValue)) : JsValue :=
  match fields with
  | [] => JUndefined
  | (k, v) :: rest => if String.eqb k key then v else getProp key rest
  end.

(** A computation either returns or throws an [Error] with a message. *)
Inductive Outcome (A : Type) : Type :=
| Returned (a : A)
| Threw (message : string).
Arguments Returned {A} a.
Arguments Threw {A} message.

(** ** Data model ([chat.types.ts]) *)

Record FunctionCall := {
  fc_name : string;
  fc_arguments : list (string * JsValue)
}.

Inductive FileStatus := uploaded | processing | analyzed | error_status.

Record SessionFile := {
  sf_id : string;
  sf_fileId : string;
  sf_originalName : string;
  sf_filename : string;
  sf_path : string;
  sf_size : Z;
  sf_uploadedAt : Z;
  sf_status : FileStatus
}.

Inductive JobStatus := pending | running | completed | failed.

Record SessionJob := {
  job_id : string;
  job_status : JobStatus;
  job_createdAt : Z
}.

Record SessionTransformationTask := {
  task_id : string;
  task_status : JobStatus;
  task_createdAt : Z
}.

Record PricingContext := {
  pc_content : string;
  pc_fileName : string;
  pc_fileId : string
}.

Inductive Role := user | model | tool.

Record FunctionResponse := {
  fr_name : string;
  fr_response : JsValue
}.

(** A message part carries optional fields, as in the source; which payload
    a part holds is read off the fields that are present. *)
Record MessagePart := {
  text : option string;
  functionCall : option FunctionCall;
  functionResponse : option FunctionResponse
}.

Definition textPart (s : string) : MessagePart :=
  {| text := Some s; functionCall := None; functionResponse := None |}.
Definition functionCallPart (fc : FunctionCall) : MessagePart :=
  {| text := None; functionCall := Some fc; functionResponse := None |}.
Definition functionResponsePart (fr : FunctionResponse) : MessagePart :=
  {| text := None; functionCall := None; functionResponse := Some fr |}.

Record ChatMessage := {
  role : Role;
  parts : list MessagePart
}.

Record Usage := {
  promptTokens : Z;
  completionTokens : Z;
  totalTokens : Z
}.

Record GeminiChatResponse := {
  gcr_content : string;
  gcr_functionCalls : option (list FunctionCall);
  gcr_usage : Usage
}.

Record ChatSession := {
  id : string;
  sessionId : string;
  createdAt : Z;
  lastActivity : Z;
  messages : list ChatMessage;
  files : list SessionFile;
  jobs : list SessionJob;
  activeJobs : list SessionJob;
  transformationTasks : list SessionTransformationTask;
  pricingContext : option PricingContext
}.

Definition set_lastActivity (t : Z) (s : ChatSession) : ChatSession :=
  {| id := id s; sessionId := sessionId s; createdAt := createdAt s;
     lastActivity := t; messages := messages s; files := files s;
     jobs := jobs s; activeJobs := activeJobs s;
     transformationTasks := transformationTasks s;
     pricingContext := pricingContext s |}.

Definition set_messages (ms : list ChatMessage) (s : ChatSession) : ChatSession :=
  {| id := id s; sessionId := sessionId s; createdAt := createdAt s;
     lastActivity := lastActivity s; messages := ms; files := files s;
     jobs := jobs s; activeJobs := activeJobs s;
     transformationTasks := transformationTasks s;
     pricingContext := pricingContext s |}.

Definition set_files (fs : list SessionFile) (s : ChatSession) : ChatSession :=
  {| id := id s; sessionId := sessionId s; createdAt := createdAt s;
     lastActivity := lastActivity s; messages := messages s; files := fs;
     jobs := jobs s; activeJobs := activeJobs s;
     transformationTasks := transformationTasks s;
     pricingContext := pricingContext s |}.

Definition set_activeJobs (js : list SessionJob) (s : ChatSession) : ChatSession :=
  {| id := id s; sessionId := sessionId s; createdAt := createdAt s;
     lastActivity := lastActivity s; messages := messages s; files := files s;
     jobs := jobs s; activeJobs := js;
     transformationTasks := transformationTasks s;
     pricingContext := pricingContext s |}.

Definition set_pricingContext (pc : option PricingContext) (s : ChatSession) : ChatSession :=
  {| id := id s; sessionId := sessionId s; createdAt := createdAt s;
     lastActivity := lastActivity s; messages := messages s; files := files s;
     jobs := jobs s; activeJobs := activeJobs s;
     transformationTasks := transformationTasks s;
     pricingContext := pc |}.

(** [session.messages.push(m)] *)
Definition push_message (m : ChatMessage) (s : ChatSession) : ChatSession :=
  set_messages (messages s ++ [m]) s.

(** [session.files.push(f)] *)
Definition push_file (f : SessionFile) (s : ChatSession) : ChatSession :=
  set_files (files s ++ [f]) s.

(** ** The process state *)

(** A regular file: its bytes and its modification time. *)
Record FileData := {
  content : string;
  mtime : Z
}.

(** A directory, as [stat] shows it. *)
Record DirData := {
  dir_size : Z;
  dir_mtime : Z
}.

(** A configured model is determined by the two arguments its system prompt
    was built from ([getSystemPrompt(pricingContent, pricingFileName)]). *)
Record GenerativeModel := {
  promptPricingContent : option string;
  promptPricingFileName : option string
}.

(** The document [getSystemPrompt] embeds under "CURRENT PRICING FILE
    CONTEXT": the section is present when [pricingContent] is truthy, and
    names the file when [pricingFileName] is truthy. *)
Definition currentPricingSection (m : GenerativeModel) : option (string * option string) :=
  match promptPricingContent m with
  | Some c =>
      if String.eqb c "" then None
      else Some (c, match promptPricingFileName m with
                    | Some n => if String.eqb n "" then None else Some n
                    | None => None
                    end)
  | None => None
  end.

(** The mutable fields of a [GeminiService] instance, with the URL table
    of the [ToolOrchestrationService] it owns. *)
Record GeminiService := {
  gs_model : GenerativeModel;
  currentPricingContent : option string;
  currentPricingFileName : option string;
  taskUrlMap : gmap string string
}.

(** The state of the backend process. *)
Record World := {
  sessions : gmap string ChatSession;
                     (* [sessions] of the ChatController of chatRoutes.ts *)
  serverSessions : gmap string ChatSession;
                     (* [sessions] of the ChatController of server.ts *)
  geminiService : GeminiService;           (* ChatController.geminiService *)
  moduleGeminiService : GeminiService;     (* the exported [geminiService] *)
  controllerTaskUrlMap : gmap string string;
                     (* ChatController.toolOrchestrationService.taskUrlMap *)
  disk : gmap string FileData;             (* the regular files *)
  uploadsDirectory : DirData;              (* the uploads directory *)
  directories : gmap string DirData;       (* the other directories *)
  uuidCount : nat                          (* ids drawn so far *)
}.

Definition set_sessions (m : gmap string ChatSession) (w : World) : World :=
  {| sessions := m; serverSessions := serverSessions w;
     geminiService := geminiService w;
     moduleGeminiService := moduleGeminiService w;
     controllerTaskUrlMap := controllerTaskUrlMap w;
     disk := disk w; uploadsDirectory := uploadsDirectory w;
     directories := directories w; uuidCount := uuidCount w |}.

Definition set_serverSessions (m : gmap string ChatSession) (w : World) : World :=
  {| sessions := sessions w; serverSessions := m;
     geminiService := geminiService w;
     moduleGeminiService := moduleGeminiService w;
     controllerTaskUrlMap := controllerTaskUrlMap w;
     disk := disk w; uploadsDirectory := uploadsDirectory w;
     directories := directories w; uuidCount := uuidCount w |}.

Definition set_geminiService (g : GeminiService) (w : World) : World :=
  {| sessions := sessions w; serverSessions := serverSessions w;
     geminiService := g;
     moduleGeminiService := moduleGeminiService w;
     controllerTaskUrlMap := controllerTaskUrlMap w;
     disk := disk w; uploadsDirectory := uploadsDirectory w;
     directories := directories w; uuidCount := uuidCount w |}.

Definition set_moduleGeminiService (g : GeminiService) (w : World) : World :=
  {| sessions := sessions w; serverSessions := serverSessions w;
     geminiService := geminiService w;
     moduleGeminiService := g;
     controllerTaskUrlMap := controllerTaskUrlMap w;
     disk := disk w; uploadsDirectory := uploadsDirectory w;
     directories := directories w; uuidCount := uuidCount w |}.

Definition set_controllerTaskUrlMap (m : gmap string string) (w : World) : World :=
  {| sessions := sessions w; serverSessions := serverSessions w;
     geminiService := geminiService w;
     moduleGeminiService := moduleGeminiService w;
     controllerTaskUrlMap := m;
     disk := disk w; uploadsDirectory := uploadsDirectory w;
     directories := directories w; uuidCount := uuidCount w |}.

Definition set_disk (d : gmap string FileData) (w : World) : World :=
  {| sessions := sessions w; serverSessions := serverSessions w;
     geminiService := geminiService w;
     moduleGeminiService := moduleGeminiService w;
     controllerTaskUrlMap := controllerTaskUrlMap w;
     disk := d; uploadsDirectory := uploadsDirectory w;
     directories := directories w; uuidCount := uuidCount w |}.

Definition set_uploadsDirectory (d : DirData) (w : World) : World :=
  {| sessions := sessions w; serverSessions := serverSessions w;
     geminiService := geminiService w;
     moduleGeminiService := moduleGeminiService w;
     controllerTaskUrlMap := controllerTaskUrlMap w;
     disk := disk w; uploadsDirectory := d;
     directories := directories w; uuidCount := uuidCount w |}.

Definition set_directories (m : gmap string DirData) (w : World) : World :=
  {| sessions := sessions w; serverSessions := serverSessions w;
     geminiService := geminiService w;
     moduleGeminiService := moduleGeminiService w;
     controllerTaskUrlMap := controllerTaskUrlMap w;
     disk := disk w; uploadsDirectory := uploadsDirectory w;
     directories := m; uuidCount := uuidCount w |}.

Definition set_uuidCount (n : nat) (w : World) : World :=
  {| sessions := sessions w; serverSessions := serverSessions w;
     geminiService := geminiService w;
     moduleGeminiService := moduleGeminiService w;
     controllerTaskUrlMap := controllerTaskUrlMap w;
     disk := disk w; uploadsDirectory := uploadsDirectory w;
     directories := directories w; uuidCount := n |}.

(** Session [sid] is mutated in place; an absent session stays absent. *)
Definition update_session (sid : string) (f : ChatSession → ChatSession) (w : World) : World :=
  set_sessions (alter f sid (sessions w)) w.

(** ** Computations over the process state *)

Definition M (A : Type) : Type := World → Outcome A * World.

Global Instance M_ret : MRet M := λ A a w, (Returned a, w).

Global Instance M_bind : MBind M := λ A B k m w,
  match m w with
  | (Returned a, w') => k a w'
  | (Threw e, w') => (Threw e, w')
  end.

(** [throw new Error(msg)] *)
Definition throw {A} (msg : string) : M A := λ w, (Threw msg, w).

(** [try { body } catch (error) { handler(error.message) }] *)
Definition tryCatch {A} (body : M A) (handler : string → M A) : M A := λ w,
  match body w with
  | (Returned a, w') => (Returned a, w')
  | (Threw e, w') => handler e w'
  end.

Definition gets {A} (f : World → A) : M A := λ w, (Returned (f w), w).
Definition modify (f : World → World) : M unit := λ w, (Returned tt, f w).

(** A pure computation that may throw. *)
Definition liftOutcome {A} (o : Outcome A) : M A := λ w, (o, w).

(** ** External collaborators *)

(** The content sent to the language model. *)
Inductive Part :=
| PText (t : string)
| PFunctionCall (name : string) (args : list (string * JsValue))
| PFunctionResponse (name : string) (response : JsValue).

Record Content := {
  c_role : string;
  c_parts : list Part
}.

Record GeminiFunctionCall := {
  gfc_name : string;
  gfc_args : option (list (string * JsValue))
}.

Record GenerateContentResponse := {
  resp_functionCalls : option (list GeminiFunctionCall);  (* response.functionCalls() *)
  resp_text : Outcome string;                             (* response.text() *)
  resp_usageMetadata : option Usage
}.

Inductive TaskStatus := PENDING | RUNNING | COMPLETED | FAILED.

Record TransformResponse := {
  tr_task_id : string;
  tr_status : string;
  tr_message : string
}.

Record TransformationResult := {
  t_status : TaskStatus;
  t_yamlContent : option string;
  t_error : option string;
  t_canBeUsedForAnalysis : option bool
}.

(** What [yaml.load] makes of a document. *)
Inductive YamlValue :=
| YamlScalar                         (* a string, number, boolean or null *)
| YamlMapping (keys : list string).  (* an object, with its own keys *)

Record Collaborators := {
  (** the n-th identifier [uuidv4()] draws *)
  uuidv4 : nat → string;
  (** [model.generateContent({contents})] *)
  generateContent : GenerativeModel → list Content → Outcome GenerateContentResponse;
  (** [yaml.load(content)] *)
  yamlLoad : string → Outcome YamlValue;
  (** [new URL(s).hostname] *)
  urlHostname : string → Outcome string;
  (** whether [TRANSFORMATION_API_BASE_URL] is configured, so that the
      transformation client could be constructed *)
  transformationConfigured : bool;
  (** [AnalysisAPIClient] *)
  getSummary : string → Outcome JsValue;
  startAnalysisJob : string → JsValue → JsValue → JsValue → JsValue → JsValue → Outcome JsValue;
  getJobStatus : JsValue → Outcome JsValue;
  (** [TransformationAPIClient] *)
  startTransformation : string → JsValue → JsValue → Outcome TransformResponse;
  getTransformationStatus : string → Outcome TransformationResult
}.

(** The object literals the handlers build. *)
Definition jsOfOptionString (o : option string) : JsValue :=
  match o with
  | Some s => JString s
  | None => JUndefined
  end.

(** The numbers the backend itself produces are lengths, sizes and times:
    integers, printed in decimal. *)
Definition jsOfNat (n : nat) : JsValue := JNumber (pretty n).
Definition jsOfZ (z : Z) : JsValue := JNumber (pretty z).

(** [v.key] for an arbitrary value: reading a property of [undefined] or
    [null] throws a [TypeError]. *)
Definition readProp (v : JsValue) (key : string) : Outcome JsValue :=
  match v with
  | JObject fields => Returned (getProp key fields)
  | JUndefined =>
      Threw ("Cannot read properties of undefined (reading '" +:+ key +:+ "')")
  | JNull =>
      Threw ("Cannot read properties of null (reading '" +:+ key +:+ "')")
  | _ => Returned JUndefined
  end.

(** [a === b] when [b] is a string held by the backend. *)
Definition strictEqString (a : JsValue) (b : string) : bool :=
  match a with
  | JString s => String.eqb s b
  | _ => false
  end.

(** ** Paths ([path], POSIX) *)

(** The segments [path.normalize] keeps: empty segments and [.] are
    dropped, and [..] removes the segment before it, or is kept when
    there is none to remove and the path is relative. [kept] holds the
    segments kept so far, the last one first. *)
Fixpoint normalizeSegments (allowAboveRoot : bool) (kept segments : list string)
    : list string :=
  match segments with
  | [] => reverse kept
  | segment :: rest =>
      if String.eqb segment "" || String.eqb segment "." then
        normalizeSegments allowAboveRoot kept rest
      else if String.eqb segment ".." then
        match kept with
        | previous :: before =>
            if String.eqb previous ".." then
              normalizeSegments allowAboveRoot
                (if allowAboveRoot then ".." :: kept else kept) rest
            else normalizeSegments allowAboveRoot before rest
        | [] =>
            normalizeSegments allowAboveRoot
              (if allowAboveRoot then [".."] else []) rest
        end
      else normalizeSegments allowAboveRoot (segment :: kept) rest
  end.

Definition isAbsolute (p : string) : bool := JsString.startsWith p "/".

Definition pathSegments (p : string) : list string :=
  normalizeSegments (negb (isAbsolute p)) [] (JsString.splitOn "/" p).

(** [path.normalize(p)] *)
Definition normalize (p : string) : string :=
  if String.eqb p "" then "."
  else
    let body := JsString.join "/" (pathSegments p) in
    let trailingSeparator := JsString.endsWith p "/" in
    if String.eqb body "" then
      if isAbsolute p then "/" else if trailingSeparator then "./" else "."
    else
      (if isAbsolute p then "/" else "") +:+ body +:+
      (if trailingSeparator then "/" else "").

(** [path.join(dir, name)]: the non-empty arguments, joined and normalised. *)
Definition pathJoin (dir name : string) : string :=
  if String.eqb dir "" then
    if String.eqb name "" then "." else normalize name
  else if String.eqb name "" then normalize dir
  else normalize (dir +:+ "/" +:+ name).

(** The directory that holds the entry [p]. *)
Definition parentDirectory (p : string) : string :=
  match reverse (pathSegments p) with
  | _ :: (_ :: _) as before =>
      (if isAbsolute p then "/" else "") +:+ JsString.join "/" (reverse before)
  | _ => if isAbsolute p then "/" else "."
  end.

(** [path.basename(p)]: the last non-empty segment. *)
Definition basename (p : string) : string :=
  default "" (last (filter (λ seg, seg ≠ "") (JsString.splitOn "/" p))).

(** [config.uploadsDir] *)
Definition uploadsDir : string := "./uploads".

(** The path under which the entries of the uploads directory are held. *)
Definition uploadsPath : string := normalize uploadsDir.

(** ** The file system *)

Record MulterFile := {
  originalname : string;
  mf_path : string;
  mf_size : Z
}.

(** [Buffer.byteLength(s, 'utf8')] *)
Definition byteLength (s : string) : Z := Z.of_nat (String.length s).

(** What [fs.statSync] reports of an entry. *)
Record Stats := {
  st_size : Z;
  st_mtime : Z;
  st_isDirectory : bool
}.

Definition directoryAt (p : string) (w : World) : option DirData :=
  if String.eqb p uploadsPath then Some (uploadsDirectory w)
  else directories w !! p.

(** The entry at [p], if any. *)
Definition statOf (p : string) (w : World) : option Stats :=
  match disk w !! p with
  | Some f =>
      Some {| st_size := byteLength (content f); st_mtime := mtime f;
              st_isDirectory := false |}
  | None =>
      match directoryAt p w with
      | Some d =>
          Some {| st_size := dir_size d; st_mtime := dir_mtime d;
                  st_isDirectory := true |}
      | None => None
      end
  end.

Definition statSync (p : string) : M Stats := λ w,
  match statOf p w with
  | Some stats => (Returned stats, w)
  | None => (Threw ("ENOENT: no such file or directory, stat '" +:+ p +:+ "'"), w)
  end.

Definition existsSync (p : string) : M bool :=
  gets (λ w, bool_decide (is_Some (statOf p w))).

Definition readFileSync (p : string) : M string := λ w,
  match disk w !! p with
  | Some f => (Returned (content f), w)
  | None =>
      match directoryAt p w with
      | Some _ => (Threw "EISDIR: illegal operation on a directory, read", w)
      | None =>
          (Threw ("ENOENT: no such file or directory, open '" +:+ p +:+ "'"), w)
      end
  end.

(** Adding an entry to a directory, or removing one, sets the directory's
    modification time. *)
Definition touchDirectory (d : string) (now : Z) (w : World) : World :=
  let touched (x : DirData) := {| dir_size := dir_size x; dir_mtime := now |} in
  if String.eqb d uploadsPath then
    set_uploadsDirectory (touched (uploadsDirectory w)) w
  else set_directories (alter touched d (directories w)) w.

(** [fs.writeFileSync(p, data, 'utf8')]: an existing file is overwritten;
    a new one needs its directory. *)
Definition writeFileSync (p data : string) (now : Z) : M unit := λ w,
  let written := set_disk (<[p := {| content := data; mtime := now |}]> (disk w)) w in
  match disk w !! p with
  | Some _ => (Returned tt, written)
  | None =>
      match directoryAt p w with
      | Some _ =>
          (Threw ("EISDIR: illegal operation on a directory, open '" +:+ p +:+ "'"), w)
      | None =>
          match directoryAt (parentDirectory p) w with
          | Some _ => (Returned tt, touchDirectory (parentDirectory p) now written)
          | None =>
              if bool_decide (is_Some (disk w !! parentDirectory p)) then
                (Threw ("ENOTDIR: not a directory, open '" +:+ p +:+ "'"), w)
              else
                (Threw ("ENOENT: no such file or directory, open '" +:+ p +:+ "'"), w)
          end
      end
  end.

(** [fs.unlinkSync(p)] *)
Definition unlinkSync (p : string) (now : Z) : M unit := λ w,
  match disk w !! p with
  | Some _ =>
      (Returned tt, touchDirectory (parentDirectory p) now
                      (set_disk (delete p (disk w)) w))
  | None =>
      match directoryAt p w with
      | Some _ =>
          (Threw ("EISDIR: illegal operation on a directory, unlink '" +:+ p +:+ "'"), w)
      | None =>
          (Threw ("ENOENT: no such file or directory, unlink '" +:+ p +:+ "'"), w)
      end
  end.

(** The name under which [dir] lists the entry held at path [p], if [p]
    is directly in [dir]. *)
Definition nameIn (dir p : string) : option string :=
  let prefix := normalize dir +:+ "/" in
  if JsString.startsWith p prefix then
    let name := String.substring (String.length prefix) (String.length p) p in
    if (String.eqb name "" || JsString.includes name "/" ||
        String.eqb name "." || String.eqb name "..")%bool
    then None else Some name
  else None.

(** [fs.readdirSync(dir)]: the names of the files and directories directly
    in [dir], in the order the directory enumerates them. *)
Definition readdirSync (dir : string) (w : World) : list string :=
  omap (nameIn dir) (elements (dom (disk w) ∪ dom (directories w))).

(** ** FileManager *)

Section FileManager.
Context (env : Collaborators).

(** [uuidv4()] *)
Definition drawUuid : M string := λ w,
  (Returned (uuidv4 env (uuidCount w)), set_uuidCount (S (uuidCount w)) w).

Definition saveUploadedFile (file : MulterFile) (now : Z) : M SessionFile :=
  fileId ← drawUuid;
  found ← gets (statOf (mf_path file));
  match found with
  | Some stats =>
      if String.eqb (mf_path file) "" then
        throw "Archivo no encontrado o no fue guardado correctamente por multer"
      else
        mret {| sf_id := fileId; sf_fileId := fileId;
                sf_originalName := originalname file;
                sf_filename := basename (mf_path file);
                sf_path := mf_path file;
                sf_size := if Z.eqb (mf_size file) 0
                           then st_size stats else mf_size file;
                sf_uploadedAt := now;
                sf_status := uploaded |}
  | None =>
      throw "Archivo no encontrado o no fue guardado correctamente por multer"
  end.

Definition saveTransformationResult
    (taskId yamlContent originalUrl : string) (now : Z) : M SessionFile :=
  fileId ← drawUuid;
  let fileName := "transformation_" +:+ taskId +:+ "_" +:+ fileId +:+ ".yaml" in
  let filePath := pathJoin uploadsDir fileName in
  _ ← writeFileSync filePath yamlContent now;
  hostname ← liftOutcome (urlHostname env originalUrl);
  mret {| sf_id := fileId; sf_fileId := fileId;
          sf_originalName := "pricing_from_" +:+ hostname +:+ ".yaml";
          sf_filename := fileName;
          sf_path := filePath;
          sf_size := byteLength yamlContent;
          sf_uploadedAt := now;
          sf_status := uploaded |}.

Record YamlValidation := {
  isValid : bool;
  validationError : option string
}.

Definition validateYamlFile (filePath : string) : M YamlValidation :=
  tryCatch
    (data ← readFileSync filePath;
     parsed ← liftOutcome (yamlLoad env data);
     match parsed with
     | YamlScalar =>
         mret {| isValid := false; validationError := Some "Invalid YAML structure" |}
     | YamlMapping keys =>
         if bool_decide ("saasName" ∈ keys) then
           if bool_decide ("plans" ∈ keys) then
             mret {| isValid := true; validationError := None |}
           else
             mret {| isValid := false;
                     validationError := Some "Missing required field: plans" |}
         else
           mret {| isValid := false;
                   validationError := Some "Missing required field: saasName" |}
     end)
    (λ message, mret {| isValid := false; validationError := Some message |}).

(** [deleteFile]; [now] is the time of the call, which the file system
    records on the directory. *)
Definition deleteFile (filePath : string) (now : Z) : M unit :=
  tryCatch
    (existsSync filePath ≫= λ found : bool,
     if found then unlinkSync filePath now else mret tt)
    (λ message, throw ("Failed to delete file: Error: " +:+ message)).

(** Stable insertion for [sort((a, b) => b.uploadedAt - a.uploadedAt)]. *)
Fixpoint insertByUploadedAt (x : SessionFile) (l : list SessionFile) : list SessionFile :=
  match l with
  | [] => [x]
  | y :: rest =>
      if sf_uploadedAt y <=? sf_uploadedAt x then x :: y :: rest
      else y :: insertByUploadedAt x rest
  end.

Definition sortByUploadedAtDesc (l : list SessionFile) : list SessionFile :=
  foldr insertByUploadedAt [] l.

(** The body of the loop of [getTransformationFiles], for one name of the
    listing. *)
Definition transformationFileOf (w : World) (file : string)
    : option SessionFile :=
  if JsString.startsWith file "transformation_" then
    let filePath := pathJoin uploadsDir file in
    match statOf filePath w with
    | Some stats =>
        let nameParts : list string := JsString.splitOn "_" file in
        let fileId :=
          match nameParts !! 2%nat with
          | Some part =>
              if String.eqb part "" then "unknown"
              else JsString.removeFirst ".yaml" part
          | None => "unknown"
          end in
        Some {| sf_id := fileId; sf_fileId := fileId;
                sf_originalName := file; sf_filename := file;
                sf_path := filePath;
                sf_size := st_size stats;
                sf_uploadedAt := st_mtime stats;
                sf_status := uploaded |}
    | None => None
    end
  else None.

(** [getTransformationFiles]; [statSync] finds every name the listing
    gives, so the [catch] is never entered. *)
Definition getTransformationFiles : M (list SessionFile) :=
  gets (λ w,
    sortByUploadedAtDesc
      (omap (transformationFileOf w) (readdirSync uploadsDir w))).

End FileManager.

(** ** GeminiService: the shared model configuration *)

(** [initializeModel] and [createModelWithSessionContext] build the same
    configuration from their two arguments. *)
Definition createModelWithSessionContext
    (pricingContent pricingFileName : option string) : GenerativeModel :=
  {| promptPricingContent := pricingContent;
     promptPricingFileName := pricingFileName |}.

Definition initializeModel (pricingContent pricingFileName : option string)
    (g : GeminiService) : GeminiService :=
  {| gs_model := createModelWithSessionContext pricingContent pricingFileName;
     currentPricingContent := currentPricingContent g;
     currentPricingFileName := currentPricingFileName g;
     taskUrlMap := taskUrlMap g |}.

(** [GeminiService.updatePricingContext] *)
Definition gemini_updatePricingContext
    (pricingContent : string) (pricingFileName : option string)
    (g : GeminiService) : GeminiService :=
  initializeModel (Some pricingContent) pricingFileName
    {| gs_model := gs_model g;
       currentPricingContent := Some pricingContent;
       currentPricingFileName := pricingFileName;
       taskUrlMap := taskUrlMap g |}.

(** [GeminiService.clearPricingContext] *)
Definition gemini_clearPricingContext (g : GeminiService) : GeminiService :=
  initializeModel None None
    {| gs_model := gs_model g;
       currentPricingContent := None;
       currentPricingFileName := None;
       taskUrlMap := taskUrlMap g |}.

Definition set_taskUrlMap (m : gmap string string) (g : GeminiService) : GeminiService :=
  {| gs_model := gs_model g;
     currentPricingContent := currentPricingContent g;
     currentPricingFileName := currentPricingFileName g;
     taskUrlMap := m |}.

(** ** ToolOrchestrationService *)

(** The two instances that serve requests: the one owned by the
    controller's [GeminiService], and the controller's own. *)
Inductive Orchestrator := OfGeminiService | OfController.

(** The two [ChatController] instances of the process: the one the router
    builds and binds every route to ([chatRoutes.ts]), and the one
    [server.ts] builds and constructs the scheduler with. *)
Inductive Controller := RoutedController | ServerController.

Definition getTaskUrlMap (self : Orchestrator) (w : World) : gmap string string :=
  match self with
  | OfGeminiService => taskUrlMap (geminiService w)
  | OfController => controllerTaskUrlMap w
  end.

Definition putTaskUrlMap (self : Orchestrator) (m : gmap string string) (w : World) : World :=
  match self with
  | OfGeminiService => set_geminiService (set_taskUrlMap m (geminiService w)) w
  | OfController => set_controllerTaskUrlMap m w
  end.

(** What callers pass as [currentSessionFiles]: the [Map] built by
    [sendMessage], or the [files] array of a whole session. *)
Inductive SessionFiles :=
| FilesMap (m : gmap string SessionFile)
| FilesArray (l : list SessionFile).

(** [currentSessionFiles.get(key)] *)
Definition filesGet (fs : SessionFiles) (key : JsValue) : M (option SessionFile) :=
  match fs with
  | FilesMap m =>
      mret match key with
           | JString k => m !! k
           | _ => None
           end
  | FilesArray _ => throw "currentSessionFiles.get is not a function"
  end.

(** [currentSessionFiles.has(key)] *)
Definition filesHas (fs : SessionFiles) (key : JsValue) : M bool :=
  match fs with
  | FilesMap m =>
      mret match key with
           | JString k => bool_decide (is_Some (m !! k))
           | _ => false
           end
  | FilesArray _ => throw "currentSessionFiles.has is not a function"
  end.

Definition errorResult (message : string) : JsValue :=
  JObject [("error", JBool true); ("message", JString message)].

Definition sessionFileToJs (f : SessionFile) : JsValue :=
  JObject [("id", JString (sf_id f)); ("fileId", JString (sf_fileId f));
           ("originalName", JString (sf_originalName f));
           ("filename", JString (sf_filename f));
           ("path", JString (sf_path f));
           ("size", jsOfZ (sf_size f));
           ("uploadedAt", jsOfZ (sf_uploadedAt f));
           ("status", JString "uploaded")].

Definition taskStatusName (s : TaskStatus) : string :=
  match s with
  | PENDING => "PENDING"
  | RUNNING => "RUNNING"
  | COMPLETED => "COMPLETED"
  | FAILED => "FAILED"
  end.

Definition transformationResultFields (r : TransformationResult)
    : list (string * JsValue) :=
  [("status", JString (taskStatusName (t_status r)));
   ("yamlContent", jsOfOptionString (t_yamlContent r));
   ("error", jsOfOptionString (t_error r));
   ("canBeUsedForAnalysis",
      match t_canBeUsedForAnalysis r with
      | Some b => JBool b
      | None => JUndefined
      end)].

(** [{...a, ...b}]: the properties of [b] override those of [a]. *)
Definition spread (a b : list (string * JsValue)) : list (string * JsValue) :=
  (b ++ filter (λ kv, kv.1 ∉ b.*1) a)%list.

Section ToolOrchestrationService.
Context (env : Collaborators).

Definition getAvailableTransformationFiles : M (list SessionFile) :=
  tryCatch (getTransformationFiles) (λ _, mret []).

Definition fileNotFoundMessage (pricingFileId : JsValue) : string :=
  "File with ID " +:+ jsToString pricingFileId +:+
  " not found in current session or transformation files. Please upload a pricing YAML file or complete a transformation first.".

(** The resolution of a file id, written out in both file-taking
    handlers: the session's files first, the transformation files next. *)
Definition resolveSessionFile
    (currentSessionFiles : SessionFiles) (pricingFileId : JsValue)
    : M (option SessionFile) :=
  inSession ← filesGet currentSessionFiles pricingFileId;
  match inSession with
  | Some f => mret (Some f)
  | None =>
      transformationFiles ← getAvailableTransformationFiles;
      mret (List.find (λ file, strictEqString pricingFileId (sf_id file))
                      transformationFiles)
  end.

(** [handleGetPricingSummary] once the file is resolved. *)
Definition summarizeFile
    (pricingFileId : JsValue) (currentSessionFiles : SessionFiles)
    (sessionFile : SessionFile) : M JsValue :=
  let filePath := sf_path sessionFile in
  validation ← validateYamlFile env filePath;
  if negb (isValid validation) then
    mret (errorResult ("Invalid YAML file: " +:+
                       jsToString (jsOfOptionString (validationError validation))))
  else
    tryCatch
      (summary ← liftOutcome (getSummary env filePath);
       fromSession ← filesHas currentSessionFiles pricingFileId;
       mret (JObject
         [("success", JBool true);
          ("data", summary);
          ("fileName", JString (sf_originalName sessionFile));
          ("fileSource",
             JString (if (fromSession : bool) then "session" else "transformation"));
          ("message", JString "Pricing summary generated successfully")]))
      (λ message,
         mret (errorResult ("Failed to get pricing summary: " +:+ message))).

Definition handleGetPricingSummary
    (args : list (string * JsValue)) (currentSessionFiles : SessionFiles) : M JsValue :=
  let pricingFileId := getProp "pricingFileId" args in
  if negb (truthy pricingFileId) then
    mret (errorResult "Missing required parameter: pricingFileId")
  else
    resolved ← resolveSessionFile currentSessionFiles pricingFileId;
    match resolved with
    | None => mret (errorResult (fileNotFoundMessage pricingFileId))
    | Some sessionFile => summarizeFile pricingFileId currentSessionFiles sessionFile
    end.

Definition validOperations : list string :=
  ["validate"; "optimal"; "subscriptions"; "filter"].

(** [validOperations.includes(operation)] *)
Definition isValidOperation (operation : JsValue) : bool :=
  existsb (strictEqString operation) validOperations.

(** [handleStartPricingAnalysisJob] once the file is resolved. *)
Definition startJobOnFile
    (args : list (string * JsValue)) (currentSessionFiles : SessionFiles)
    (sessionFile : SessionFile) : M JsValue :=
  let pricingFileId := getProp "pricingFileId" args in
  let operation := getProp "operation" args in
  let solver := getProp "solver" args in
  let filters := getProp "filters" args in
  let objective := getProp "objective" args in
  let jobSpecificPayload := getProp "jobSpecificPayload" args in
  if negb (isValidOperation operation) then
    mret (errorResult ("Invalid operation type. Must be one of: " +:+
                       JsString.join ", " validOperations))
  else
    tryCatch
      (jobResponse ← liftOutcome
         (startAnalysisJob env (sf_path sessionFile) operation solver
            filters objective jobSpecificPayload);
       fromSession ← filesHas currentSessionFiles pricingFileId;
       jobId ← liftOutcome (readProp jobResponse "jobId");
       mret (JObject
         [("success", JBool true);
          ("data", jobResponse);
          ("fileName", JString (sf_originalName sessionFile));
          ("fileSource",
             JString (if (fromSession : bool) then "session" else "transformation"));
          ("message", JString ("Analysis job started successfully. Job ID: " +:+
                               jsToString jobId))]))
      (λ message,
         mret (errorResult ("Failed to start analysis job: " +:+ message))).

Definition handleStartPricingAnalysisJob
    (args : list (string * JsValue)) (currentSessionFiles : SessionFiles) : M JsValue :=
  let pricingFileId := getProp "pricingFileId" args in
  let operation := getProp "operation" args in
  let solver := getProp "solver" args in
  if negb (truthy pricingFileId) || negb (truthy operation) || negb (truthy solver) then
    mret (errorResult
      "Missing required parameters: pricingFileId, operation, and solver are required")
  else
    resolved ← resolveSessionFile currentSessionFiles pricingFileId;
    match resolved with
    | None => mret (errorResult (fileNotFoundMessage pricingFileId))
    | Some sessionFile => startJobOnFile args currentSessionFiles sessionFile
    end.

Definition handleGetPricingAnalysisJobStatus (args : list (string * JsValue)) : M JsValue :=
  let jobId := getProp "jobId" args in
  if negb (truthy jobId) then
    mret (errorResult "Missing required parameter: jobId")
  else
    tryCatch
      (jobStatus ← liftOutcome (getJobStatus env jobId);
       mret (JObject
         [("success", JBool true);
          ("data", jobStatus);
          ("message", JString ("Job status retrieved for " +:+ jsToString jobId))]))
      (λ message, mret (errorResult ("Failed to get job status: " +:+ message))).

Definition handleInitiatePricingPageTransformation
    (self : Orchestrator) (args : list (string * JsValue)) : M JsValue :=
  let url := getProp "url" args in
  let model := getProp "model" args in
  let max_tries := getProp "max_tries" args in
  if negb (truthy url) then
    mret (errorResult "Missing required parameter: url")
  else if negb (transformationConfigured env) then
    mret (errorResult
      "Transformation service is not available. Please contact the administrator.")
  else
    match urlHostname env (jsToString url) with
    | Threw _ =>
        mret (errorResult "Invalid URL format. Please provide a valid HTTP/HTTPS URL.")
    | Returned _ =>
        tryCatch
          (transformResponse ← liftOutcome
             (startTransformation env (jsToString url) model max_tries);
           _ ← modify (λ w, putTaskUrlMap self
                  (<[tr_task_id transformResponse := jsToString url]>
                     (getTaskUrlMap self w)) w);
           mret (JObject
             [("success", JBool true);
              ("data", JObject [("task_id", JString (tr_task_id transformResponse));
                                ("status", JString (tr_status transformResponse));
                                ("message", JString (tr_message transformResponse))]);
              ("message", JString ("Transformation started for " +:+ jsToString url +:+
                                   ". Task ID: " +:+ tr_task_id transformResponse +:+
                                   ". This process may take a few minutes."))]))
          (λ message,
             mret (errorResult ("Failed to start transformation: " +:+ message)))
    end.

(** [this.taskUrlMap.get(taskId)] *)
Definition taskUrlMapGet (self : Orchestrator) (taskId : JsValue) : M (option string) :=
  gets (λ w, match taskId with
             | JString k => getTaskUrlMap self w !! k
             | _ => None
             end).

(** [this.taskUrlMap.delete(taskId)] *)
Definition taskUrlMapDelete (self : Orchestrator) (taskId : JsValue) : M unit :=
  modify (λ w, match taskId with
               | JString k => putTaskUrlMap self (delete k (getTaskUrlMap self w)) w
               | _ => w
               end).

Definition yamlPreviewFields (yamlContent : string) : list (string * JsValue) :=
  [("yamlContentPreview", JString (JsString.substring0 200 yamlContent +:+ "..."));
   ("yamlSize", jsOfNat (JsString.utf16Length yamlContent));
   ("canBeUsedForAnalysis", JBool true)].

Definition handleGetTransformationTaskStatus
    (self : Orchestrator) (args : list (string * JsValue)) (now : Z) : M JsValue :=
  let taskId := getProp "taskId" args in
  if negb (truthy taskId) then
    mret (errorResult "Missing required parameter: taskId")
  else if negb (transformationConfigured env) then
    mret (errorResult "Transformation service is not available.")
  else
    tryCatch
      (transformationResult ← liftOutcome
         (getTransformationStatus env (jsToString taskId));
       saved ← match t_status transformationResult,
                     t_yamlContent transformationResult with
               | COMPLETED, Some yamlContent =>
                   if String.eqb yamlContent "" then mret ([], None)
                   else
                     tryCatch
                       (stored ← taskUrlMapGet self taskId;
                        let originalUrl :=
                          match stored with
                          | Some u => if String.eqb u ""
                                      then "transformation-" +:+ jsToString taskId
                                      else u
                          | None => "transformation-" +:+ jsToString taskId
                          end in
                        savedFileInfo ← saveTransformationResult env
                          (jsToString taskId) yamlContent originalUrl now;
                        _ ← taskUrlMapDelete self taskId;
                        _ ← modify (λ w, set_moduleGeminiService
                               (gemini_updatePricingContext yamlContent
                                  (Some (sf_originalName savedFileInfo))
                                  (moduleGeminiService w)) w);
                        mret ((yamlPreviewFields yamlContent ++
                               [("savedFile",
                                   JObject [("fileId", JString (sf_id savedFileInfo));
                                            ("fileName", JString (sf_originalName savedFileInfo));
                                            ("path", JString (sf_path savedFileInfo))]);
                                ("contextAutoUpdated", JBool true)])%list,
                              Some savedFileInfo))
                       (λ message,
                          mret ((yamlPreviewFields yamlContent ++
                                 [("saveError", JString ("Failed to save file: " +:+ message));
                                  ("contextAutoUpdated", JBool false)])%list,
                                None))
               | _, _ => mret ([], None)
               end;
       let additionalInfo : list (string * JsValue) := saved.1 in
       let savedFileInfo : option SessionFile := saved.2 in
       mret (JObject
         [("success", JBool true);
          ("data", JObject (spread (spread (transformationResultFields transformationResult)
                                           additionalInfo)
                                   [("taskId", taskId)]));
          ("message", JString
             match t_status transformationResult with
             | COMPLETED =>
                 "Transformation completed for " +:+ jsToString taskId +:+
                 match savedFileInfo with
                 | Some _ => ". File saved and automatically set as pricing context for this conversation."
                 | None => ""
                 end
             | _ => "Transformation task status retrieved for " +:+ jsToString taskId
             end)]))
      (λ message,
         mret (errorResult ("Failed to get transformation status: " +:+ message))).

Definition handleGetPricingStrategyAdvice (args : list (string * JsValue)) : M JsValue :=
  let topic := getProp "topic" args in
  if negb (truthy topic) then
    throw "Topic is required for pricing strategy advice"
  else
    mret (JObject
      [("success", JBool true);
       ("adviceRequested", JBool true);
       ("topic", topic);
       ("message", JString ("Generating pricing strategy advice for topic: " +:+
                            jsToString topic +:+ ". The AI will provide this directly."))]).

Definition handleGetAvailableTransformationFiles (args : list (string * JsValue))
    : M JsValue :=
  tryCatch
    (transformationFiles ← getAvailableTransformationFiles;
     mret (JObject
       [("success", JBool true);
        ("data", JObject [("files", JArray (sessionFileToJs <$> transformationFiles));
                          ("count", jsOfNat (length transformationFiles))]);
        ("message", JString ("Found " +:+ pretty (length transformationFiles) +:+
                             " transformation file(s) available for analysis"))]))
    (λ message,
       mret (errorResult ("Failed to get transformation files: " +:+ message))).

(** The dispatcher: a [switch] on the name, inside a [try] whose [catch]
    rethrows. *)
Definition handleToolCall
    (self : Orchestrator) (functionCall : FunctionCall)
    (currentSessionFiles : SessionFiles) (now : Z) : M JsValue :=
  let args := fc_arguments functionCall in
  let name := fc_name functionCall in
  tryCatch
    (if String.eqb name "getPricingSummary" then
       handleGetPricingSummary args currentSessionFiles
     else if String.eqb name "startPricingAnalysisJob" then
       handleStartPricingAnalysisJob args currentSessionFiles
     else if String.eqb name "getPricingAnalysisJobStatus" then
       handleGetPricingAnalysisJobStatus args
     else if String.eqb name "initiatePricingPageTransformation" then
       handleInitiatePricingPageTransformation self args
     else if String.eqb name "getTransformationTaskStatus" then
       handleGetTransformationTaskStatus self args now
     else if String.eqb name "getPricingStrategyAdvice" then
       handleGetPricingStrategyAdvice args
     else if String.eqb name "getAvailableTransformationFiles" then
       handleGetAvailableTransformationFiles args
     else
       throw ("Unknown function call: " +:+ name))
    (λ message, throw message).

(** The [session] argument of [executeFunctionCalls]: the context object
    [sendMessage] builds, or a whole session. *)
Record SessionContext := {
  ctx_sessionId : string;
  ctx_files : gmap string SessionFile;
  ctx_pricingContext : option PricingContext
}.

Inductive ToolSession :=
| ContextObject (c : SessionContext)
| WholeSession (s : ChatSession).

(** [session.files || new Map()]: both are objects, hence truthy. *)
Definition sessionFilesOf (session : ToolSession) : SessionFiles :=
  match session with
  | ContextObject c => FilesMap (ctx_files c)
  | WholeSession s => FilesArray (files s)
  end.

Fixpoint executeFunctionCalls
    (self : Orchestrator) (functionCalls : list FunctionCall)
    (session : ToolSession) (now : Z) : M (list JsValue) :=
  match functionCalls with
  | [] => mret []
  | funcCall :: rest =>
      result ← handleToolCall self funcCall (sessionFilesOf session) now;
      results ← executeFunctionCalls self rest session now;
      mret (result :: results)
  end.

End ToolOrchestrationService.

(** ** GeminiService: the two-call protocol *)

Section GeminiService.
Context (env : Collaborators).

Definition convertPart (part : MessagePart) : Outcome Part :=
  match text part with
  | Some t =>
      if negb (String.eqb t "") then Returned (PText t)
      else match functionCall part, functionResponse part with
           | Some fc, _ => Returned (PFunctionCall (fc_name fc) (fc_arguments fc))
           | None, Some fr => Returned (PFunctionResponse (fr_name fr) (fr_response fr))
           | None, None => Threw "Invalid message part type"
           end
  | None =>
      match functionCall part, functionResponse part with
      | Some fc, _ => Returned (PFunctionCall (fc_name fc) (fc_arguments fc))
      | None, Some fr => Returned (PFunctionResponse (fr_name fr) (fr_response fr))
      | None, None => Threw "Invalid message part type"
      end
  end.

(** [l.map(f)] for an [f] that may throw: the first exception ends the
    traversal. *)
Fixpoint mapOutcome {A B} (f : A → Outcome B) (l : list A) : Outcome (list B) :=
  match l with
  | [] => Returned []
  | x :: rest =>
      match f x with
      | Threw m => Threw m
      | Returned y =>
          match mapOutcome f rest with
          | Threw m => Threw m
          | Returned ys => Returned (y :: ys)
          end
      end
  end.

Definition geminiRole (r : Role) : string :=
  match r with
  | model => "model"
  | tool => "function"
  | user => "user"
  end.

Definition convertMessage (msg : ChatMessage) : Outcome Content :=
  match mapOutcome convertPart (parts msg) with
  | Threw m => Threw m
  | Returned ps => Returned {| c_role := geminiRole (role msg); c_parts := ps |}
  end.

Definition convertToGeminiContent (msgs : list ChatMessage) : Outcome (list Content) :=
  mapOutcome convertMessage msgs.

Definition usageOf (response : GenerateContentResponse) : Usage :=
  match resp_usageMetadata response with
  | Some u => u
  | None => {| promptTokens := 0; completionTokens := 0; totalTokens := 0 |}
  end.

Definition sendToolResultBackToGemini
    (functionCall : FunctionCall) (toolResult : JsValue)
    (chatHistory : list ChatMessage) (modelToUse : GenerativeModel) : M string :=
  tryCatch
    (let messagesWithToolResponse :=
       chatHistory ++
       [ {| role := model;
            parts := [functionCallPart
                        {| fc_name := fc_name functionCall;
                           fc_arguments := fc_arguments functionCall |}] |};
         {| role := tool;
            parts := [functionResponsePart
                        {| fr_name := fc_name functionCall;
                           fr_response := JObject [("result", toolResult)] |}] |} ] in
     conversationHistoryForFinalResponse ←
       liftOutcome (convertToGeminiContent messagesWithToolResponse);
     result ← liftOutcome
       (generateContent env modelToUse conversationHistoryForFinalResponse);
     liftOutcome (resp_text result))
    (λ message, throw ("Failed to process tool result: " +:+ message)).

(** The model a call is made with: one derived from the session's pricing
    context when it has one, the shared [this.model] otherwise. *)
Definition modelFor (sessionPricingContext : option PricingContext) : M GenerativeModel :=
  match sessionPricingContext with
  | Some pc =>
      mret (createModelWithSessionContext (Some (pc_content pc)) (Some (pc_fileName pc)))
  | None => gets (λ w, gs_model (geminiService w))
  end.

Definition generateResponse
    (chatHistory : list ChatMessage) (sessionContext : option SessionContext)
    (now : Z) : M GeminiChatResponse :=
  tryCatch
    (conversationHistory ← liftOutcome (convertToGeminiContent chatHistory);
     modelToUse ← modelFor (sessionContext ≫= ctx_pricingContext);
     response ← liftOutcome (generateContent env modelToUse conversationHistory);
     match resp_functionCalls response with
     | Some (fc :: _) =>
         let functionCallToExecute :=
           {| fc_name := gfc_name fc; fc_arguments := default [] (gfc_args fc) |} in
         let contextToUse :=
           default {| ctx_sessionId := "temp-session-for-tool";
                      ctx_files := ∅;
                      ctx_pricingContext := None |} sessionContext in
         toolResult ← executeFunctionCalls env OfGeminiService
                        [functionCallToExecute] (ContextObject contextToUse) now;
         let actualToolResult := default JUndefined (head toolResult) in
         finalResponseText ← sendToolResultBackToGemini
                               functionCallToExecute actualToolResult
                               chatHistory modelToUse;
         mret {| gcr_content := finalResponseText;
                 gcr_functionCalls := Some [functionCallToExecute];
                 gcr_usage := usageOf response |}
     | _ =>
         content ← liftOutcome (resp_text response);
         mret {| gcr_content := content;
                 gcr_functionCalls := None;
                 gcr_usage := usageOf response |}
     end)
    (λ message, throw ("Failed to generate response: " +:+ message)).

Definition processToolResultWithSessionContext
    (functionCall : FunctionCall) (toolResult : JsValue)
    (chatHistory : list ChatMessage)
    (sessionPricingContext : option PricingContext) : M string :=
  modelToUse ← modelFor sessionPricingContext;
  sendToolResultBackToGemini functionCall toolResult chatHistory modelToUse.

End GeminiService.

(** ** ChatController *)

(** What a request handler hands back to Express. *)
Inductive Reply (A : Type) : Type :=
| Sent (status : nat) (data : A)
    (* res.status(status).json({ success: true, data }) *)
| SentError (status : nat) (error : string)
    (* res.status(status).json({ success: false, error }) *)
| NextError (status : nat) (message : string).
    (* next(new AppError(message, status)) *)
Arguments Sent {A} status data.
Arguments SentError {A} status error.
Arguments NextError {A} status message.

(** The outermost [try]/[catch] of a handler. *)
Definition respond {A} (body : M (Reply A)) (onError : string → Reply A)
    : World → Reply A * World := λ w,
  match body w with
  | (Returned r, w') => (r, w')
  | (Threw message, w') => (onError message, w')
  end.

Definition dquote : string := String (Ascii.ascii_of_nat 34) EmptyString.
Definition newlineString : string := String JsString.newline EmptyString.

Record PricingContextInfo := {
  info_sessionId : string;
  hasContext : bool;
  fileName : option string;
  contentLength : nat;
  retrievedAt : Z
}.

Record PricingContextUpdate := {
  upd_sessionId : string;
  upd_fileId : JsValue;
  upd_fileName : string;
  updatedAt : Z
}.

Record UploadData := {
  up_sessionId : string;
  up_fileId : string;
  up_originalName : string;
  up_size : Z;
  up_uploadedAt : Z;
  up_activeJobsCount : nat
}.

Record UploadedFileContext := {
  ufc_originalName : string;
  ufc_fileId : string
}.

Record MessageData := {
  md_content : string;
  md_functionCalls : option (list FunctionCall);
  md_usage : Usage
}.

Record FunctionResult := {
  fres_name : string;
  fres_result : JsValue
}.

Record ChatResponse := {
  cr_sessionId : string;
  reply : string;
  timestamp : Z;
  hasAttachments : bool;
  activeJobsCount : nat;
  cr_functionCalls : option (list FunctionCall);
  functionResults : list FunctionResult;
  cr_usage : Usage
}.

Section ChatController.
Context (env : Collaborators).

Definition pricingIndicators : list string := ["version:"; "features:"; "plans:"].

Definition isPricingYamlFile (originalName filePath : string) : M bool :=
  tryCatch
    (let fileExtension := JsString.toLowerCase originalName in
     if negb (JsString.endsWith fileExtension ".yaml") &&
        negb (JsString.endsWith fileExtension ".yml")
     then mret false
     else
       data ← readFileSync filePath;
       let firstLines :=
         JsString.toLowerCase
           (JsString.join newlineString (take 50 (JsString.splitLines data))) in
       let foundIndicators :=
         List.filter (λ indicator, JsString.includes firstLines indicator)
                     pricingIndicators in
       mret (3 <=? length foundIndicators)%nat)
    (λ _, mret false).

(** The session object a handler holds: the entry under [sessionId], which
    the handler itself never removes. *)
Definition theSession (sessionId : string) (held : ChatSession) : M ChatSession :=
  gets (λ w, default held (sessions w !! sessionId)).

Definition getPricingContextInfo (sessionId : string) (now : Z)
    : World → Reply PricingContextInfo * World :=
  respond
    (found ← gets (λ w, sessions w !! sessionId);
     match found with
     | None => mret (NextError 404 "Session not found")
     | Some session =>
         mret (Sent 200
           {| info_sessionId := sessionId;
              hasContext := bool_decide (is_Some (pricingContext session));
              fileName :=
                match pricingContext session with
                | Some pc => if String.eqb (pc_fileName pc) "" then None
                             else Some (pc_fileName pc)
                | None => None
                end;
              contentLength :=
                match pricingContext session with
                | Some pc => JsString.utf16Length (pc_content pc)
                | None => 0%nat
                end;
              retrievedAt := now |})
     end)
    (λ _, NextError 500 "Internal error while getting context information").

Definition updatePricingContext (sessionId : string) (fileId : JsValue) (now : Z)
    : World → Reply PricingContextUpdate * World :=
  respond
    (if negb (truthy fileId) then mret (NextError 400 "FileId is required")
     else
       found ← gets (λ w, sessions w !! sessionId);
       match found with
       | None => mret (NextError 404 "Session not found")
       | Some session =>
           match List.find (λ f, strictEqString fileId (sf_id f)) (files session) with
           | None => mret (NextError 404 "File not found in the session")
           | Some sessionFile =>
               existsSync (sf_path sessionFile) ≫= λ present : bool,
               if negb present then mret (NextError 404 "File not found in the system")
               else
                 tryCatch
                   (pricingContent ← readFileSync (sf_path sessionFile);
                    _ ← modify (update_session sessionId (λ s,
                           set_lastActivity now
                             (set_pricingContext
                                (Some {| pc_content := pricingContent;
                                         pc_fileName := sf_originalName sessionFile;
                                         pc_fileId := sf_id sessionFile |}) s)));
                    mret (Sent 200
                      {| upd_sessionId := sessionId;
                         upd_fileId := fileId;
                         upd_fileName := sf_originalName sessionFile;
                         updatedAt := now |}))
                   (λ _, mret (NextError 500 "Error updating pricing context"))
           end
       end)
    (λ _, NextError 500 "Internal error while updating pricing context").

Definition clearPricingContext (sessionId : string) (now : Z)
    : World → Reply Z * World :=
  respond
    (found ← gets (λ w, sessions w !! sessionId);
     match found with
     | None => mret (NextError 404 "Session not found")
     | Some session =>
         _ ← modify (update_session sessionId (λ s,
                set_lastActivity now (set_pricingContext None s)));
         mret (Sent 200 now)
     end)
    (λ _, NextError 500 "Internal error while clearing pricing context").

Definition uploadFile (sessionId : string) (file : option MulterFile) (now : Z)
    : World → Reply UploadData * World :=
  respond
    (match file with
     | None => mret (NextError 400 "No file was provided")
     | Some reqFile =>
         found ← gets (λ w, sessions w !! sessionId);
         match found with
         | None =>
             _ ← tryCatch
                   (existsSync (mf_path reqFile) ≫= λ present : bool,
                    if negb (String.eqb (mf_path reqFile) "") && present
                    then unlinkSync (mf_path reqFile) now else mret tt)
                   (λ _, mret tt);
             mret (NextError 404 "Session not found")
         | Some session =>
             tryCatch
               (savedFile ← saveUploadedFile env reqFile now;
                onDisk ← gets (statOf (sf_path savedFile));
                let sessionFile :=
                  {| sf_id := sf_id savedFile; sf_fileId := sf_id savedFile;
                     sf_originalName := originalname reqFile;
                     sf_filename := sf_filename savedFile;
                     sf_path := sf_path savedFile;
                     sf_size := if mf_size reqFile =? 0
                                then match onDisk with
                                     | Some stats => st_size stats
                                     | None => 0
                                     end
                                else mf_size reqFile;
                     sf_uploadedAt := now;
                     sf_status := uploaded |} in
                _ ← modify (update_session sessionId (λ s,
                       set_lastActivity now (push_file sessionFile s)));
                isPricing ← isPricingYamlFile (originalname reqFile) (sf_path savedFile);
                _ ← (if (isPricing : bool) then
                       tryCatch
                         (pricingContent ← readFileSync (sf_path savedFile);
                          modify (λ w, set_geminiService
                            (gemini_updatePricingContext pricingContent
                               (Some (originalname reqFile)) (geminiService w)) w))
                         (λ _, mret tt)
                     else mret tt);
                current ← theSession sessionId session;
                mret (Sent 201
                  {| up_sessionId := id current;
                     up_fileId := sf_id savedFile;
                     up_originalName := originalname reqFile;
                     up_size := sf_size sessionFile;
                     up_uploadedAt := sf_uploadedAt sessionFile;
                     up_activeJobsCount := length (activeJobs current) |}))
               (λ message, mret (NextError 500 ("Error processing file: " +:+ message)))
         end
     end)
    (λ message, NextError 500 ("Error uploading file: " +:+ message)).

Definition contextNote (uploadedFile : UploadedFileContext) : string :=
  newlineString +:+ newlineString +:+
  "[Context: User has uploaded a file " +:+ dquote +:+
  ufc_originalName uploadedFile +:+ dquote +:+ " with ID " +:+ dquote +:+
  ufc_fileId uploadedFile +:+ dquote +:+
  " that is available for pricing analysis.]".

(** [new Map(session.files.map(file => [file.id, file]))]: a later entry
    replaces an earlier one with the same key. *)
Definition filesById (fs : list SessionFile) : gmap string SessionFile :=
  foldl (λ m file, <[sf_id file := file]> m) ∅ fs.

Definition sendMessage
    (sessionId message : string) (context : option UploadedFileContext) (now : Z)
    : World → Reply MessageData * World :=
  respond
    (if String.eqb sessionId "" || String.eqb message "" then
       mret (SentError 400 "Session ID and message are required")
     else
       found ← gets (λ w, sessions w !! sessionId);
       match found with
       | None => mret (SentError 404 "Session not found")
       | Some held =>
           _ ← modify (update_session sessionId (set_lastActivity now));
           let userMessageText :=
             match context with
             | Some uploadedFile => message +:+ contextNote uploadedFile
             | None => message
             end in
           let userMessage :=
             {| role := user; parts := [textPart userMessageText] |} in
           _ ← modify (update_session sessionId (push_message userMessage));
           session ← theSession sessionId held;
           let chatHistory := messages session in
           let sessionContext :=
             {| ctx_sessionId := id session;
                ctx_files := filesById (files session);
                ctx_pricingContext := pricingContext session |} in
           geminiResponse ← generateResponse env chatHistory (Some sessionContext) now;
           let hasContent := negb (String.eqb (gcr_content geminiResponse) "") in
           _ ← (if hasContent || bool_decide (is_Some (gcr_functionCalls geminiResponse))
                then
                  let modelMessage :=
                    {| role := model;
                       parts :=
                         (if hasContent then [textPart (gcr_content geminiResponse)]
                          else []) ++
                         match gcr_functionCalls geminiResponse with
                         | Some fcs => functionCallPart <$> fcs
                         | None => []
                         end |} in
                  modify (update_session sessionId (push_message modelMessage))
                else mret tt);
           mret (Sent 200
             {| md_content := gcr_content geminiResponse;
                md_functionCalls := gcr_functionCalls geminiResponse;
                md_usage := gcr_usage geminiResponse |})
       end)
    (λ _, SentError 500 "Failed to send message due to an internal error").

(** The attachment loop of [chat]. *)
Fixpoint attachFiles (sessionId : string) (uploads : list MulterFile) (now : Z) : M unit :=
  match uploads with
  | [] => mret tt
  | file :: rest =>
      savedFile ← saveUploadedFile env file now;
      let sessionFile :=
        {| sf_id := sf_id savedFile; sf_fileId := sf_id savedFile;
           sf_originalName := originalname file;
           sf_filename := sf_filename savedFile;
           sf_path := sf_path savedFile;
           sf_size := mf_size file;
           sf_uploadedAt := now;
           sf_status := uploaded |} in
      _ ← modify (update_session sessionId (push_file sessionFile));
      isPricing ← isPricingYamlFile (originalname file) (sf_path savedFile);
      _ ← (if (isPricing : bool) then
             tryCatch
               (pricingContent ← readFileSync (sf_path savedFile);
                modify (update_session sessionId
                  (set_pricingContext
                     (Some {| pc_content := pricingContent;
                              pc_fileName := originalname file;
                              pc_fileId := sf_id savedFile |}))))
               (λ _, mret tt)
           else mret tt);
      attachFiles sessionId rest now
  end.

(** The loop of [chat] over the function calls of the response. *)
Fixpoint runFunctionCalls (sessionId : string) (held : ChatSession)
    (calls : list FunctionCall) (now : Z) : M (list FunctionResult) :=
  match calls with
  | [] => mret []
  | functionCall :: rest =>
      session ← theSession sessionId held;
      result ← executeFunctionCalls env OfController [functionCall]
                 (WholeSession session) now;
      results ← runFunctionCalls sessionId held rest now;
      mret ({| fres_name := fc_name functionCall;
               fres_result := default JUndefined (head result) |} :: results)
  end.

(** [modelMessage.parts = ps] for the message pushed last. *)
Definition set_last_parts (ps : list MessagePart) (s : ChatSession) : ChatSession :=
  match reverse (messages s) with
  | m :: before =>
      set_messages (reverse before ++ [{| role := role m; parts := ps |}]) s
  | [] => s
  end.

Definition isActiveJob (job : SessionJob) : bool :=
  match job_status job with
  | pending | running => true
  | _ => false
  end.

(** The turn of [chat], once the attachments are in the session. *)
Definition chatTurn (sessionId message : string) (held : ChatSession) (now : Z)
    : M (Reply ChatResponse) :=
  let userMessage := {| role := user; parts := [textPart message] |} in
  _ ← modify (update_session sessionId (push_message userMessage));
  session ← theSession sessionId held;
  let sessionContext :=
    {| ctx_sessionId := id session;
       ctx_files := filesById (files session);
       ctx_pricingContext := pricingContext session |} in
  geminiResponse ← generateResponse env (messages session)
                     (Some sessionContext) now;
  let modelMessage :=
    {| role := model; parts := [textPart (gcr_content geminiResponse)] |} in
  _ ← modify (update_session sessionId (push_message modelMessage));
  functionResults ←
    match gcr_functionCalls geminiResponse with
    | Some (first :: more) =>
        results ← runFunctionCalls sessionId held (first :: more) now;
        match results with
        | firstResult :: _ =>
            session' ← theSession sessionId held;
            finalResponse ← processToolResultWithSessionContext env
                              first (fres_result firstResult)
                              (messages session') (pricingContext session');
            _ ← modify (update_session sessionId
                   (set_last_parts [textPart finalResponse]));
            mret results
        | [] => mret results
        end
    | _ => mret []
    end;
  _ ← modify (update_session sessionId (λ s,
         set_activeJobs (List.filter isActiveJob (jobs s)) s));
  final ← theSession sessionId held;
  mret (Sent 200
    {| cr_sessionId := sessionId;
       reply := gcr_content geminiResponse;
       timestamp := now;
       hasAttachments := bool_decide (files final ≠ []);
       activeJobsCount := length (activeJobs final);
       cr_functionCalls := gcr_functionCalls geminiResponse;
       functionResults := functionResults;
       cr_usage := gcr_usage geminiResponse |}).

Definition chat (sessionId message : string) (uploads : list MulterFile) (now : Z)
    : World → Reply ChatResponse * World :=
  respond
    (if String.eqb sessionId "" || String.eqb message "" then
       mret (NextError 400 "SessionId and message are required")
     else
       found ← gets (λ w, sessions w !! sessionId);
       match found with
       | None => mret (NextError 404 "Session not found")
       | Some held =>
           _ ← modify (update_session sessionId (set_lastActivity now));
           _ ← attachFiles sessionId uploads now;
           chatTurn sessionId message held now
       end)
    (λ _, SentError 500 "Internal error while generating response").

(** ** The session reaper *)

Definition inactiveThreshold : Z := 24 * 60 * 60 * 1000.

Fixpoint deleteSessionFiles (fs : list SessionFile) (now : Z) : M unit :=
  match fs with
  | [] => mret tt
  | file :: rest =>
      _ ← tryCatch (deleteFile (sf_path file) now) (λ _, mret tt);
      deleteSessionFiles rest now
  end.

(** The first loop of [cleanupInactiveSessions], over [sessions.entries()];
    it returns [sessionsToDelete]. *)
Fixpoint sweepEntries (now : Z) (entries : list (string * ChatSession)) : M (list string) :=
  match entries with
  | [] => mret []
  | (sessionId, session) :: rest =>
      let inactiveTime := now - lastActivity session in
      if inactiveThreshold <? inactiveTime then
        _ ← deleteSessionFiles (files session) now;
        sessionsToDelete ← sweepEntries now rest;
        mret (sessionId :: sessionsToDelete)
      else sweepEntries now rest
  end.

(** [this.sessions] *)
Definition sessionsOf (self : Controller) (w : World) : gmap string ChatSession :=
  match self with
  | RoutedController => sessions w
  | ServerController => serverSessions w
  end.

Definition putSessionsOf (self : Controller) (m : gmap string ChatSession) (w : World)
    : World :=
  match self with
  | RoutedController => set_sessions m w
  | ServerController => set_serverSessions m w
  end.

(** [cleanupInactiveSessions], a method of the controller [self]. *)
Definition cleanupInactiveSessions (self : Controller) (now : Z) : M unit :=
  entries ← gets (λ w, map_to_list (sessionsOf self w));
  sessionsToDelete ← sweepEntries now entries;
  modify (λ w, putSessionsOf self
    (foldl (λ m sessionId, delete sessionId m) (sessionsOf self w) sessionsToDelete) w).

End ChatController.

(** ** SchedulerService *)

(** The task [startSessionCleanup] schedules every hour, for a scheduler
    that was constructed with [chatController]. *)
Definition sessionCleanupTask (chatController : Controller) (now : Z) : M unit :=
  tryCatch (cleanupInactiveSessions chatController now) (λ _, mret tt).

(** The one scheduler of the process: [server.ts] constructs it with the
    controller it has just built. *)
Definition scheduledSessionCleanup (now : Z) : M unit :=
  sessionCleanupTask ServerController now.


(** ** ChatController: the session endpoints *)

Record SessionCreated := {
  sc_sessionId : string;
  sc_createdAt : Z
}.

Record SessionStatus := {
  st_sessionId : string;
  st_filesCount : nat;
  st_activeJobsCount : nat;
  st_transformationTasksCount : nat;
  st_createdAt : Z;
  st_lastActivity : Z
}.

Record SessionInfo := {
  si_sessionId : string;
  si_createdAt : Z;
  si_lastActivity : Z;
  si_messageCount : nat;
  si_fileCount : nat;
  si_activeJobsCount : nat
}.

Record MessagesData := {
  msgs_messages : list ChatMessage;
  msgs_count : nat
}.

Section SessionEndpoints.
Context (env : Collaborators).

(** The object literal both session constructors store. *)
Definition emptySession (sessionId : string) (now : Z) : ChatSession :=
  {| id := sessionId; sessionId := sessionId;
     createdAt := now; lastActivity := now;
     messages := []; files := []; jobs := []; activeJobs := [];
     transformationTasks := []; pricingContext := None |}.

(** [generateSessionId]; [random] is what
    [Math.random().toString(36).substr(2, 9)] yields for the request. *)
Definition generateSessionId (now : Z) (random : string) : string :=
  "session_" +:+ pretty now +:+ "_" +:+ random.

Definition createSession (random : string) (now : Z)
    : World → Reply SessionCreated * World :=
  respond
    (let sessionId := generateSessionId now random in
     let session := emptySession sessionId now in
     _ ← modify (λ w, set_sessions (<[sessionId := session]> (sessions w)) w);
     _ ← modify (λ w, set_geminiService (gemini_clearPricingContext (geminiService w)) w);
     mret (Sent 200 {| sc_sessionId := sessionId; sc_createdAt := createdAt session |}))
    (λ _, SentError 500 "Failed to create session").

Definition initializeSession (now : Z) : World → Reply string * World :=
  respond
    (sessionId ← drawUuid env;
     let session := emptySession sessionId now in
     _ ← modify (λ w, set_sessions (<[sessionId := session]> (sessions w)) w);
     _ ← modify (λ w, set_geminiService (gemini_clearPricingContext (geminiService w)) w);
     mret (Sent 201 sessionId))
    (λ _, NextError 500 "Failed to initialize chat session").

Definition getSessionStatus (sessionId : string)
    : World → Reply SessionStatus * World :=
  respond
    (found ← gets (λ w, sessions w !! sessionId);
     match found with
     | None => mret (NextError 404 "Session not found")
     | Some session =>
         mret (Sent 200
           {| st_sessionId := id session;
              st_filesCount := length (files session);
              st_activeJobsCount := length (activeJobs session);
              st_transformationTasksCount := length (transformationTasks session);
              st_createdAt := createdAt session;
              st_lastActivity := lastActivity session |})
     end)
    (λ _, NextError 500 "Error getting session status").

Definition getSessionFiles (sessionId : string)
    : World → Reply (list SessionFile) * World :=
  respond
    (found ← gets (λ w, sessions w !! sessionId);
     match found with
     | None => mret (NextError 404 "Session not found")
     | Some session => mret (Sent 200 (files session))
     end)
    (λ _, NextError 500 "Error getting session files").

Definition deleteSessionFile (sessionId fileId : string) (now : Z)
    : World → Reply string * World :=
  respond
    (found ← gets (λ w, sessions w !! sessionId);
     match found with
     | None => mret (NextError 404 "Session not found")
     | Some session =>
         match list_find (λ f, sf_id f = fileId) (files session) with
         | None => mret (NextError 404 "File not found")
         | Some (fileIndex, file) =>
             _ ← deleteFile (sf_path file) now;
             _ ← modify (update_session sessionId (λ s,
                    set_lastActivity now (set_files (delete fileIndex (files s)) s)));
             mret (Sent 200 "File deleted successfully")
         end
     end)
    (λ _, NextError 500 "Error deleting file").

(** [deleteSession]; [now] is the time of the request, which the file
    system records when it unlinks. *)
Definition deleteSession (sessionId : string) (now : Z)
    : World → Reply string * World :=
  respond
    (found ← gets (λ w, sessions w !! sessionId);
     match found with
     | None => mret (NextError 404 "Session not found")
     | Some session =>
         _ ← deleteSessionFiles (files session) now;
         _ ← modify (λ w, set_sessions (delete sessionId (sessions w)) w);
         mret (Sent 200 "Session deleted successfully")
     end)
    (λ _, NextError 500 "Error deleting session").

Definition getSession (sessionId : string) : World → Reply SessionInfo * World :=
  respond
    (found ← gets (λ w, sessions w !! sessionId);
     match found with
     | None => mret (SentError 404 "Session not found")
     | Some session =>
         mret (Sent 200
           {| si_sessionId := id session;
              si_createdAt := createdAt session;
              si_lastActivity := lastActivity session;
              si_messageCount := length (messages session);
              si_fileCount := length (files session);
              si_activeJobsCount := length (List.filter isActiveJob (jobs session)) |})
     end)
    (λ _, SentError 500 "Failed to get session").

Definition getMessages (sessionId : string) : World → Reply MessagesData * World :=
  respond
    (found ← gets (λ w, sessions w !! sessionId);
     match found with
     | None => mret (SentError 404 "Session not found")
     | Some session =>
         mret (Sent 200 {| msgs_messages := messages session;
                           msgs_count := length (messages session) |})
     end)
    (λ _, SentError 500 "Failed to get messages").

End SessionEndpoints.

(** ** FileManager: ageing and reading *)

Section FileManagerMore.
Context (env : Collaborators).



Definition readYamlFile (filePath : string) : M YamlValue :=
  tryCatch
    (data ← readFileSync filePath;
     liftOutcome (yamlLoad env data))
    (λ message, throw ("Failed to read YAML file: " +:+ message)).

End FileManagerMore.


(** ** The error middleware ([errorHandler.ts]) *)

(** What reaches the middleware: an [AppError] (operational, with its
    status code) or any other [Error]. *)
Inductive ServerError :=
| AppError (message : string) (statusCode : nat)
| PlainError (message : string).

Record ErrorResponse := {
  er_error : string;
  er_message : string;
  er_statusCode : nat
}.

Definition createError (message : string) (statusCode : option nat) : ServerError :=
  AppError message (default 500%nat statusCode).

(** [err.message && err.message.includes(word)] *)
Definition mentions (message word : string) : bool :=
  negb (String.eqb message "") && JsString.includes message word.

Definition globalErrorHandler (err : ServerError) : ErrorResponse :=
  match err with
  | AppError message statusCode =>
      {| er_error := "Error"; er_message := message; er_statusCode := statusCode |}
  | PlainError message =>
      if mentions message "LIMIT_FILE_SIZE" then
        {| er_error := "Error";
           er_message := "File size too large. Please upload a file smaller than 10MB.";
           er_statusCode := 400 |}
      else if mentions message "LIMIT_UNEXPECTED_FILE" then
        {| er_error := "Error";
           er_message := "Unexpected file field. Please use " +:+ dquote +:+
                         "pricingFile" +:+ dquote +:+ " field for uploads.";
           er_statusCode := 400 |}
      else if mentions message "ECONNREFUSED" then
        {| er_error := "Error";
           er_message := "External service unavailable. Please try again later.";
           er_statusCode := 503 |}
      else if mentions message "validation" then
        {| er_error := "Error"; er_message := message; er_statusCode := 400 |}
      else
        {| er_error := "Error"; er_message := "Internal Server Error";
           er_statusCode := 500 |}
  end.

(** * Observations used in the statements *)

(** The pricing context of session [sessionId]: [None] when there is no
    such session, [Some None] when the session has no context. *)
Definition contextOf (sessionId : string) (w : World) : option (option PricingContext) :=
  pricingContext <$> sessions w !! sessionId.

(** The message log of session [sessionId]. *)
Definition logOf (sessionId : string) (w : World) : list ChatMessage :=
  default [] (messages <$> sessions w !! sessionId).

(** The [data] of a successful reply. *)
Definition sentData {A} (r : Reply A) : option A :=
  match r with
  | Sent _ data => Some data
  | _ => None
  end.

(** A failure outcome: the object [{ error: true, message }]. *)
Definition isFailureOutcome (o : Outcome JsValue) : Prop :=
  ∃ message, o = Returned (errorResult message).

(** The names the dispatcher's [switch] knows. *)
Definition dispatchTable : list string :=
  ["getPricingSummary"; "startPricingAnalysisJob"; "getPricingAnalysisJobStatus";
   "initiatePricingPageTransformation"; "getTransformationTaskStatus";
   "getPricingStrategyAdvice"; "getAvailableTransformationFiles"].

(** A session is inactive at [now] when its last activity is older than
    the threshold: the test of [cleanupInactiveSessions]. *)
Definition isInactive (now : Z) (s : ChatSession) : bool :=
  inactiveThreshold <? now - lastActivity s.

(** The paths the sweep unlinks: those of the files of inactive sessions. *)
Definition reapedPaths (now : Z) (entries : list (string * ChatSession)) : list string :=
  entries ≫= λ entry, if isInactive now entry.2 then sf_path <$> files entry.2 else [].

(** The identifiers the sweep collects in [sessionsToDelete]. *)
Definition reapedIds (now : Z) (entries : list (string * ChatSession)) : list string :=
  (List.filter (λ entry, isInactive now entry.2) entries).*1.

(** [currentSessionFiles.get(id)] on the [Map] built from a session. *)
Definition sessionLookup (m : gmap string SessionFile) (fileId : JsValue)
    : option SessionFile :=
  match fileId with
  | JString k => m !! k
  | _ => None
  end.

(** The pool of completed transformation outputs: what
    [getAvailableTransformationFiles] returns in state [w]. *)
Definition transformationPool (w : World) : list SessionFile :=
  match (getAvailableTransformationFiles w).1 with
  | Returned pool => pool
  | Threw _ => []
  end.

(** The first completed transformation output that carries the id. *)
Definition poolLookup (w : World) (fileId : JsValue) : option SessionFile :=
  List.find (λ file, strictEqString fileId (sf_id file)) (transformationPool w).

(** [result.data.status] of what a polling handler returned. *)
Definition reportedStatus (o : Outcome JsValue) : JsValue :=
  match o with
  | Returned (JObject fields) =>
      match getProp "data" fields with
      | JObject data => getProp "status" data
      | _ => JUndefined
      end
  | _ => JUndefined
  end.

(** Where [saveTransformationResult] stores the output of a task when the
    [n]-th identifier is drawn for it. *)
Definition storedPath (env : Collaborators) (taskId : JsValue) (n : nat) : string :=
  pathJoin uploadsDir
    ("transformation_" +:+ jsToString taskId +:+ "_" +:+ uuidv4 env n +:+ ".yaml").

(** ** A concrete deployment, for the worked scenarios *)

Module Scenario.

Definition nl : string := newlineString.

(** A pricing file with the three markers the heuristic looks for. *)
Definition pricingYaml : string :=
  "saasName: Acme" +:+ nl +:+ "version: '2.0'" +:+ nl +:+
  "features:" +:+ nl +:+ "  sso: {}" +:+ nl +:+
  "plans:" +:+ nl +:+ "  basic: {}".

(** A pricing file with [saasName], [plans] and [version] only. *)
Definition minimalYaml : string :=
  "saasName: Acme" +:+ nl +:+ "version: '2.0'" +:+ nl +:+
  "plans:" +:+ nl +:+ "  basic: {}".

(** The document the model is grounded in, as seen by the scripted
    model below. *)
Definition groundingText (m : GenerativeModel) : string :=
  match currentPricingSection m with
  | Some (doc, _) => doc
  | None => "(no pricing file)"
  end.

Definition lastText (contents : list Content) : option string :=
  c ← last contents;
  p ← last (c_parts c);
  match p with
  | PText t => Some t
  | _ => None
  end.

Definition answer (t : string) : Outcome GenerateContentResponse :=
  Returned {| resp_functionCalls := None;
              resp_text := Returned t;
              resp_usageMetadata := None |}.

Definition request (name : string) (args : list (string * JsValue))
    : Outcome GenerateContentResponse :=
  Returned {| resp_functionCalls := Some [{| gfc_name := name; gfc_args := Some args |}];
              resp_text := Returned "";
              resp_usageMetadata := None |}.

(** A scripted model: it asks for strategy advice when the user mentions
    advice (leaving the topic out when the user asks to be surprised),
    answers with its grounding document otherwise, and wraps up after a
    tool result. *)
Definition scriptedModel (m : GenerativeModel) (contents : list Content)
    : Outcome GenerateContentResponse :=
  match lastText contents with
  | Some t =>
      if JsString.includes t "surprise" then
        request "getPricingStrategyAdvice" []
      else if JsString.includes t "advice" then
        request "getPricingStrategyAdvice" [("topic", JString "tiers")]
      else answer (groundingText m)
  | None => answer "Here is my advice."
  end.

Definition env : Collaborators := {|
  uuidv4 := λ n, "uuid-" +:+ pretty n;
  generateContent := scriptedModel;
  yamlLoad := λ _, Returned (YamlMapping ["saasName"; "version"; "plans"]);
  urlHostname := λ s,
    if JsString.startsWith s "https://"
    then Returned (String.substring 8 (String.length s) s)
    else Threw "Invalid URL";
  transformationConfigured := true;
  getSummary := λ _, Returned (JObject [("numberOfPlans", JNumber "1")]);
  startAnalysisJob := λ _ _ _ _ _ _, Returned (JObject [("jobId", JString "job-1")]);
  getJobStatus := λ _, Returned (JObject [("status", JString "RUNNING")]);
  startTransformation := λ _ _ _,
    Returned {| tr_task_id := "task-1"; tr_status := "PENDING"; tr_message := "" |};
  getTransformationStatus := λ _,
    Returned {| t_status := COMPLETED; t_yamlContent := Some pricingYaml;
                t_error := None; t_canBeUsedForAnalysis := Some true |}
|}.

Definition freshGemini : GeminiService :=
  {| gs_model := createModelWithSessionContext None None;
     currentPricingContent := None;
     currentPricingFileName := None;
     taskUrlMap := ∅ |}.

(** What [createSession] stores for a new session. *)
Definition newSession (sid : string) (now : Z) : ChatSession :=
  {| id := sid; sessionId := sid; createdAt := now; lastActivity := now;
     messages := []; files := []; jobs := []; activeJobs := [];
     transformationTasks := []; pricingContext := None |}.

(** Two live sessions, and two files multer has just written. *)
Definition world : World :=
  {| sessions := <["A" := newSession "A" 0]> (<["B" := newSession "B" 0]> ∅);
     serverSessions := ∅;
     geminiService := freshGemini;
     moduleGeminiService := freshGemini;
     controllerTaskUrlMap := ∅;
     disk := <["/srv/uploads/file-1.yaml" := {| content := pricingYaml; mtime := 5 |}]>
             (<["/srv/uploads/file-2.yaml" := {| content := minimalYaml; mtime := 6 |}]> ∅);
     uploadsDirectory := {| dir_size := 4096; dir_mtime := 0 |};
     directories := {["/srv/uploads" := {| dir_size := 4096; dir_mtime := 6 |}]};
     uuidCount := 0 |}.

Definition upload1 : MulterFile :=
  {| originalname := "pricing.yaml"; mf_path := "/srv/uploads/file-1.yaml"; mf_size := 0 |}.

Definition upload2 : MulterFile :=
  {| originalname := "pricing.yaml"; mf_path := "/srv/uploads/file-2.yaml"; mf_size := 0 |}.

Definition adviceCall : FunctionCall :=
  {| fc_name := "getPricingStrategyAdvice";
     fc_arguments := [("topic", JString "tiers")] |}.

(** Session A after the upload of the first file, and the file ref the
    upload attached. *)
Definition attachedWorld : World := (uploadFile env "A" (Some upload1) 10 world).2.

Definition attachedFile : SessionFile :=
  {| sf_id := "uuid-0"; sf_fileId := "uuid-0";
     sf_originalName := "pricing.yaml";
     sf_filename := "file-1.yaml";
     sf_path := "/srv/uploads/file-1.yaml";
     sf_size := byteLength pricingYaml;
     sf_uploadedAt := 10;
     sf_status := uploaded |}.

Definition attachedSession : ChatSession :=
  {| id := "A"; sessionId := "A"; createdAt := 0; lastActivity := 10;
     messages := []; files := [attachedFile]; jobs := []; activeJobs := [];
     transformationTasks := []; pricingContext := None |}.


Definition fileOf (fid path : string) : SessionFile :=
  {| sf_id := fid; sf_fileId := fid; sf_originalName := "pricing.yaml";
     sf_filename := basename path; sf_path := path; sf_size := 1;
     sf_uploadedAt := 0; sf_status := uploaded |}.




End Scenario.

(** The text the heuristic searches: the first 50 lines, in lower case. *)
Definition firstLinesOf (data : string) : string :=
  JsString.toLowerCase
    (JsString.join newlineString (take 50 (JsString.splitLines data))).

(** The model a call on behalf of session [sessionId] is made with: what
    [generateResponse] selects from the session's context and the shared
    model. *)
Definition modelOfSession (sessionId : string) (w : World) : option GenerativeModel :=
  match contextOf sessionId w with
  | Some (Some pc) =>
      Some (createModelWithSessionContext (Some (pc_content pc)) (Some (pc_fileName pc)))
  | Some None => Some (gs_model (geminiService w))
  | None => None
  end.

(** The user message [sendMessage] writes for a request. *)
Definition userMessageOf (message : string) (context : option UploadedFileContext)
    : ChatMessage :=
  {| role := user;
     parts := [textPart match context with
                        | Some uploadedFile => message +:+ contextNote uploadedFile
                        | None => message
                        end] |}.

(** The model message [sendMessage] writes for a response, if any. *)
Definition modelMessagesOf (content : string) (functionCalls : option (list FunctionCall))
    : list ChatMessage :=
  if negb (String.eqb content "") || bool_decide (is_Some functionCalls) then
    [ {| role := model;
         parts := (if negb (String.eqb content "") then [textPart content] else []) ++
                  match functionCalls with
                  | Some fcs => functionCallPart <$> fcs
                  | None => []
                  end |} ]
  else [].

(** ** Observations for the further properties *)

(** [Returns c]: the computation [c] never throws. *)
Definition Returns {A} (c : M A) : Prop :=
  ∀ w, ∃ a w', c w = (Returned a, w').

(** The state with another configuration of the shared model. *)
Definition withSharedModel (m : GenerativeModel) (w : World) : World :=
  set_geminiService
    {| gs_model := m;
       currentPricingContent := currentPricingContent (geminiService w);
       currentPricingFileName := currentPricingFileName (geminiService w);
       taskUrlMap := taskUrlMap (geminiService w) |} w.

(** [IgnoresSharedModel c]: what [c] returns and what it does to the state
    do not depend on how the shared model is configured. *)
Definition IgnoresSharedModel {A} (c : M A) : Prop :=
  ∀ m w, c (withSharedModel m w) = ((c w).1, withSharedModel m (c w).2).

(** A part carries a payload [convertToGeminiContent] accepts. *)
Definition hasPayload (part : MessagePart) : bool :=
  match text part with
  | Some t => negb (String.eqb t "")
  | None => false
  end || bool_decide (is_Some (functionCall part))
      || bool_decide (is_Some (functionResponse part)).

(** A log every part of which carries a payload. *)
Definition convertible (log : list ChatMessage) : Prop :=
  ∀ msg part, msg ∈ log → part ∈ parts msg → hasPayload part = true.

(** No character of [s] is [c]. *)
Definition lacksChar (c : ascii) (s : string) : Prop :=
  JsString.includes s (String c EmptyString) = false.

(** The collaborators with another YAML parser. *)
Definition withYamlLoad (load : string → Outcome YamlValue) (env : Collaborators)
    : Collaborators :=
  {| uuidv4 := uuidv4 env;
     generateContent := generateContent env;
     yamlLoad := load;
     urlHostname := urlHostname env;
     transformationConfigured := transformationConfigured env;
     getSummary := getSummary env;
     startAnalysisJob := startAnalysisJob env;
     getJobStatus := getJobStatus env;
     startTransformation := startTransformation env;
     getTransformationStatus := getTransformationStatus env |}.

(** The order [getTransformationFiles] sorts by: newest first. *)
Definition newerFirst (a b : SessionFile) : Prop := sf_uploadedAt b ≤ sf_uploadedAt a.

(** Whether [writeFileSync] can write at [p]: an existing file is
    overwritten; a new one needs its directory, and a path that holds
    none. *)
Definition canWrite (p : string) (w : World) : bool :=
  bool_decide (is_Some (disk w !! p)) ||
  (bool_decide (directoryAt p w = None) &&
   bool_decide (is_Some (directoryAt (parentDirectory p) w))).

(** A name that stands for an entry of the directory it is joined to: it
    is not empty, not [.] or [..], and has no separator. *)
Definition isEntryName (name : string) : Prop :=
  name ≠ "" ∧ name ≠ "." ∧ name ≠ ".." ∧ lacksChar "/" name.


(** The name [saveTransformationResult] gives the output of a task. *)
Definition storedName (taskId fileId : string) : string :=
  "transformation_" +:+ taskId +:+ "_" +:+ fileId +:+ ".yaml".

(** * Frame reasoning

    [Frame obs m]: running [m] leaves the observation [obs] of the state
    as it was, whether [m] returns or throws. *)

Section Frame.
Context {B : Type} (obs : World → B).

Definition Frame {A} (m : M A) : Prop := ∀ w, obs (m w).2 = obs w.

Lemma frame_ret {A} (a : A) : Frame (mret a).
Proof. by intros w. Qed.

Lemma frame_throw {A} (msg : string) : Frame (throw (A := A) msg).
Proof. by intros w. Qed.

Lemma frame_gets {A} (f : World → A) : Frame (gets f).
Proof. by intros w. Qed.

Lemma frame_liftOutcome {A} (o : Outcome A) : Frame (liftOutcome o).
Proof. by intros w. Qed.

Lemma frame_modify (f : World → World) :
  (∀ w, obs (f w) = obs w) → Frame (modify f).
Proof. intros Hf w. apply Hf. Qed.

Lemma frame_bind {A C} (m : M A) (k : A → M C) :
  Frame m → (∀ a, Frame (k a)) → Frame (m ≫= k).
Proof.
  intros Hm Hk w. unfold mbind, M_bind.
  specialize (Hm w). destruct (m w) as [[a|e] w']; simpl in *.
  - by rewrite Hk.
  - done.
Qed.

Lemma frame_tryCatch {A} (m : M A) (h : string → M A) :
  Frame m → (∀ e, Frame (h e)) → Frame (tryCatch m h).
Proof.
  intros Hm Hh w. unfold tryCatch.
  specialize (Hm w). destruct (m w) as [[a|e] w']; simpl in *.
  - done.
  - by rewrite Hh.
Qed.

Lemma frame_respond {A} (body : M (Reply A)) (onError : string → Reply A) w :
  Frame body → obs (respond body onError w).2 = obs w.
Proof.
  intros Hb. unfold respond. specialize (Hb w).
  by destruct (body w) as [[a|e] w'].
Qed.

Lemma frame_readFileSync p : Frame (readFileSync p).
Proof.
  intros w. unfold readFileSync. by destruct (disk w !! p), (directoryAt p w).
Qed.

Lemma frame_existsSync p : Frame (existsSync p).
Proof. by intros w. Qed.

Lemma frame_statSync p : Frame (statSync p).
Proof. intros w. unfold statSync. by destruct (statOf p w). Qed.

(** The file system's own writes leave alone what does not read the
    files and the directories. *)
Context (obs_disk : ∀ d w, obs (set_disk d w) = obs w).
Context (obs_uploadsDirectory : ∀ d w, obs (set_uploadsDirectory d w) = obs w).
Context (obs_directories : ∀ m w, obs (set_directories m w) = obs w).

Lemma obs_touchDirectory d now w : obs (touchDirectory d now w) = obs w.
Proof.
  unfold touchDirectory. destruct (String.eqb d uploadsPath);
    [apply obs_uploadsDirectory|apply obs_directories].
Qed.

Lemma frame_writeFileSync p data now : Frame (writeFileSync p data now).
Proof.
  intros w. unfold writeFileSync.
  destruct (disk w !! p); [apply obs_disk|]. destruct (directoryAt p w); [done|].
  destruct (directoryAt (parentDirectory p) w).
  - cbn [snd]. by rewrite obs_touchDirectory, obs_disk.
  - by destruct (bool_decide _).
Qed.

Lemma frame_unlinkSync p now : Frame (unlinkSync p now).
Proof.
  intros w. unfold unlinkSync. destruct (disk w !! p).
  - cbn [snd]. by rewrite obs_touchDirectory, obs_disk.
  - by destruct (directoryAt p w).
Qed.

End Frame.

(** One step of a structural frame proof. *)
Ltac frame_step :=
  lazymatch goal with
  | |- Frame _ (readFileSync _) => apply frame_readFileSync
  | |- Frame _ (existsSync _) => apply frame_existsSync
  | |- Frame _ (statSync _) => apply frame_statSync
  | |- Frame _ (writeFileSync _ _ _) => apply frame_writeFileSync; done
  | |- Frame _ (unlinkSync _ _) => apply frame_unlinkSync; done
  | |- Frame _ (mret _) => apply frame_ret
  | |- Frame _ (throw _) => apply frame_throw
  | |- Frame _ (gets _) => apply frame_gets
  | |- Frame _ (liftOutcome _) => apply frame_liftOutcome
  | |- Frame _ (_ ≫= _) => apply frame_bind; [|intros ?]
  | |- Frame _ (tryCatch _ _) => apply frame_tryCatch; [|intros ?]
  | |- Frame _ (if ?b then _ else _) => destruct b
  | |- Frame _ (match ?x with _ => _ end) => destruct x
  | |- Frame _ (let _ := _ in _) => cbv zeta
  end.

Ltac frame := repeat frame_step.

(** ** What the tool layer leaves alone

    The handlers of the tool layer write the id counter, the file system,
    the URL tables and the service instance they import, and nothing else:
    an observation of the state that does not read these is the same
    after a handler as before it. *)

Section ToolLayerFrame.
Context (env : Collaborators) {B : Type} (obs : World → B).
Context (obs_uuidCount : ∀ n w, obs (set_uuidCount n w) = obs w).
Context (obs_disk : ∀ d w, obs (set_disk d w) = obs w).
Context (obs_uploadsDirectory : ∀ d w, obs (set_uploadsDirectory d w) = obs w).
Context (obs_directories : ∀ m w, obs (set_directories m w) = obs w).
Context (obs_geminiService : ∀ g w, obs (set_geminiService g w) = obs w).
Context (obs_moduleGeminiService : ∀ g w, obs (set_moduleGeminiService g w) = obs w).
Context (obs_controllerTaskUrlMap :
  ∀ m w, obs (set_controllerTaskUrlMap m w) = obs w).

Lemma obs_putTaskUrlMap self m w : obs (putTaskUrlMap self m w) = obs w.
Proof. destruct self; [apply obs_geminiService|apply obs_controllerTaskUrlMap]. Qed.

Lemma drawUuid_frame : Frame obs (drawUuid env).
Proof. intros w. apply obs_uuidCount. Qed.

Lemma deleteFile_frame p now : Frame obs (deleteFile p now).
Proof. unfold deleteFile. frame. Qed.

Lemma saveUploadedFile_frame file now :
  Frame obs (saveUploadedFile env file now).
Proof. unfold saveUploadedFile. frame; apply drawUuid_frame. Qed.

Lemma saveTransformationResult_frame taskId yaml url now :
  Frame obs (saveTransformationResult env taskId yaml url now).
Proof. unfold saveTransformationResult. frame; apply drawUuid_frame. Qed.

Lemma validateYamlFile_frame p : Frame obs (validateYamlFile env p).
Proof. unfold validateYamlFile. frame. Qed.

Lemma getAvailableTransformationFiles_frame :
  Frame obs getAvailableTransformationFiles.
Proof. unfold getAvailableTransformationFiles, getTransformationFiles. frame. Qed.

Lemma filesGet_frame fs key : Frame obs (filesGet fs key).
Proof. unfold filesGet. frame. Qed.

Lemma filesHas_frame fs key : Frame obs (filesHas fs key).
Proof. unfold filesHas. frame. Qed.

Lemma resolveSessionFile_frame fs key :
  Frame obs (resolveSessionFile fs key).
Proof.
  unfold resolveSessionFile. frame;
    auto using filesGet_frame, getAvailableTransformationFiles_frame.
Qed.

Lemma handleGetPricingSummary_frame args fs :
  Frame obs (handleGetPricingSummary env args fs).
Proof.
  unfold handleGetPricingSummary, summarizeFile. frame;
    auto using resolveSessionFile_frame, validateYamlFile_frame,
               filesHas_frame.
Qed.

Lemma handleStartPricingAnalysisJob_frame args fs :
  Frame obs (handleStartPricingAnalysisJob env args fs).
Proof.
  unfold handleStartPricingAnalysisJob, startJobOnFile. frame;
    auto using resolveSessionFile_frame, filesHas_frame.
Qed.

Lemma handleGetPricingAnalysisJobStatus_frame args :
  Frame obs (handleGetPricingAnalysisJobStatus env args).
Proof. unfold handleGetPricingAnalysisJobStatus. frame. Qed.

Lemma handleInitiatePricingPageTransformation_frame self args :
  Frame obs (handleInitiatePricingPageTransformation env self args).
Proof.
  unfold handleInitiatePricingPageTransformation. frame.
  apply frame_modify. intros w. apply obs_putTaskUrlMap.
Qed.

Lemma handleGetTransformationTaskStatus_frame self args now :
  Frame obs (handleGetTransformationTaskStatus env self args now).
Proof.
  unfold handleGetTransformationTaskStatus, taskUrlMapGet, taskUrlMapDelete.
  frame; auto using saveTransformationResult_frame;
    apply frame_modify; intros w; try done;
    destruct (getProp "taskId" args); auto using obs_putTaskUrlMap.
Qed.

Lemma handleGetPricingStrategyAdvice_frame args :
  Frame obs (handleGetPricingStrategyAdvice args).
Proof. unfold handleGetPricingStrategyAdvice. frame. Qed.

Lemma handleGetAvailableTransformationFiles_frame args :
  Frame obs (handleGetAvailableTransformationFiles args).
Proof.
  unfold handleGetAvailableTransformationFiles. frame.
  apply getAvailableTransformationFiles_frame.
Qed.

Lemma handleToolCall_frame self fc fs now :
  Frame obs (handleToolCall env self fc fs now).
Proof.
  unfold handleToolCall. frame;
    auto using handleGetPricingSummary_frame,
      handleStartPricingAnalysisJob_frame,
      handleGetPricingAnalysisJobStatus_frame,
      handleInitiatePricingPageTransformation_frame,
      handleGetTransformationTaskStatus_frame,
      handleGetPricingStrategyAdvice_frame,
      handleGetAvailableTransformationFiles_frame.
Qed.

Lemma executeFunctionCalls_frame self calls session now :
  Frame obs (executeFunctionCalls env self calls session now).
Proof.
  induction calls as [|c calls IH]; simpl.
  - apply frame_ret.
  - frame; auto using handleToolCall_frame.
Qed.

Lemma sendToolResultBackToGemini_frame fc r history m :
  Frame obs (sendToolResultBackToGemini env fc r history m).
Proof. unfold sendToolResultBackToGemini. frame. Qed.

Lemma modelFor_frame pc : Frame obs (modelFor pc).
Proof. unfold modelFor. frame. Qed.

Lemma generateResponse_frame history ctx now :
  Frame obs (generateResponse env history ctx now).
Proof.
  unfold generateResponse. frame;
    auto using modelFor_frame, executeFunctionCalls_frame,
               sendToolResultBackToGemini_frame.
Qed.

Lemma processToolResultWithSessionContext_frame fc r history pc :
  Frame obs (processToolResultWithSessionContext env fc r history pc).
Proof.
  unfold processToolResultWithSessionContext. frame;
    auto using modelFor_frame, sendToolResultBackToGemini_frame.
Qed.

(** ** What the routes leave alone

    The handlers the routes are bound to write, besides what the tool
    layer writes, the session store of their own controller. *)

Context (obs_sessions : ∀ m w, obs (set_sessions m w) = obs w).

Lemma obs_update_session sid f w : obs (update_session sid f w) = obs w.
Proof. apply obs_sessions. Qed.

Lemma deleteSessionFiles_frame fs now : Frame obs (deleteSessionFiles fs now).
Proof.
  induction fs as [|f fs IH]; cbn [deleteSessionFiles].
  - apply frame_ret.
  - frame; auto using deleteFile_frame.
Qed.

Lemma createSession_frame random now w :
  obs (createSession random now w).2 = obs w.
Proof.
  unfold createSession. apply frame_respond.
  frame; apply frame_modify; intros w0; auto.
Qed.

Lemma uploadFile_frame sid file now w :
  obs (uploadFile env sid file now w).2 = obs w.
Proof.
  unfold uploadFile, isPricingYamlFile, theSession. apply frame_respond.
  frame; auto using saveUploadedFile_frame;
    apply frame_modify; intros w0; auto using obs_update_session.
Qed.

Lemma sendMessage_frame sid message context now w :
  obs (sendMessage env sid message context now w).2 = obs w.
Proof.
  unfold sendMessage, theSession. apply frame_respond.
  frame; auto using generateResponse_frame;
    apply frame_modify; intros w0; auto using obs_update_session.
Qed.

Lemma updatePricingContext_frame sid fileId now w :
  obs (updatePricingContext sid fileId now w).2 = obs w.
Proof.
  unfold updatePricingContext. apply frame_respond.
  frame; apply frame_modify; intros w0; auto using obs_update_session.
Qed.

Lemma clearPricingContext_frame sid now w :
  obs (clearPricingContext sid now w).2 = obs w.
Proof.
  unfold clearPricingContext. apply frame_respond.
  frame; apply frame_modify; intros w0; auto using obs_update_session.
Qed.

Lemma deleteSession_frame sid now w :
  obs (deleteSession sid now w).2 = obs w.
Proof.
  unfold deleteSession. apply frame_respond.
  frame; auto using deleteSessionFiles_frame;
    apply frame_modify; intros w0; auto.
Qed.

End ToolLayerFrame.

(** ** The handlers of the tool layer never touch the session store *)

Section SessionsFrame.
Context (env : Collaborators).


Lemma sessions_touchDirectory d now w :
  sessions (touchDirectory d now w) = sessions w.
Proof. unfold touchDirectory. by destruct (String.eqb d uploadsPath). Qed.

Lemma readFileSync_sessions p : Frame sessions (readFileSync p).
Proof. apply frame_readFileSync. Qed.

Lemma existsSync_sessions p : Frame sessions (existsSync p).
Proof. by intros w. Qed.

Lemma unlinkSync_sessions p now : Frame sessions (unlinkSync p now).
Proof. by apply frame_unlinkSync. Qed.

Lemma saveUploadedFile_sessions file now :
  Frame sessions (saveUploadedFile env file now).
Proof. by apply saveUploadedFile_frame. Qed.

Lemma handleToolCall_sessions self fc fs now :
  Frame sessions (handleToolCall env self fc fs now).
Proof. by apply handleToolCall_frame. Qed.

Lemma executeFunctionCalls_sessions self calls session now :
  Frame sessions (executeFunctionCalls env self calls session now).
Proof. by apply executeFunctionCalls_frame. Qed.

Lemma generateResponse_sessions history ctx now :
  Frame sessions (generateResponse env history ctx now).
Proof. by apply generateResponse_frame. Qed.

Lemma processToolResultWithSessionContext_sessions fc r history pc :
  Frame sessions (processToolResultWithSessionContext env fc r history pc).
Proof. by apply processToolResultWithSessionContext_frame. Qed.

End SessionsFrame.

(** * Evaluation lemmas *)

Lemma bind_returned {A C} (m : M A) (k : A → M C) w a w' :
  m w = (Returned a, w') → (m ≫= k) w = k a w'.
Proof. intros H. unfold mbind, M_bind. by rewrite H. Qed.

Lemma bind_threw {A C} (m : M A) (k : A → M C) w e w' :
  m w = (Threw e, w') → (m ≫= k) w = (Threw e, w').
Proof. intros H. unfold mbind, M_bind. by rewrite H. Qed.

Lemma respond_snd {A} (body : M (Reply A)) (onError : string → Reply A) w :
  (respond body onError w).2 = (body w).2.
Proof. unfold respond. by destruct (body w) as [[r|e] w']. Qed.

Lemma eqb_empty_false (s : string) : s ≠ "" → String.eqb s "" = false.
Proof. intros H. by apply String.eqb_neq. Qed.

Lemma statOf_file p w f :
  disk w !! p = Some f →
  statOf p w = Some {| st_size := byteLength (content f); st_mtime := mtime f;
                       st_isDirectory := false |}.
Proof. intros H. unfold statOf. by rewrite H. Qed.

Lemma statOf_None p w :
  statOf p w = None ↔ disk w !! p = None ∧ directoryAt p w = None.
Proof.
  unfold statOf. destruct (disk w !! p); [split; [done|by intros [? _]]|].
  destruct (directoryAt p w); [split; [done|by intros [_ ?]]|done].
Qed.

Lemma lookup_update_session sid f w s :
  sessions w !! sid = Some s →
  sessions (update_session sid f w) !! sid = Some (f s).
Proof.
  intros Hs. unfold update_session. simpl.
  by rewrite lookup_alter, decide_True, Hs.
Qed.

(** * Strings *)

Lemma string_length_app (a b : string) :
  String.length (a +:+ b) = (String.length a + String.length b)%nat.
Proof. induction a as [|c a IH]; simpl; [done|by rewrite IH]. Qed.

Lemma string_app_inj_l (s a b : string) : s +:+ a = s +:+ b → a = b.
Proof. induction s as [|c s IH]; simpl; [done|]. intros [=]. by apply IH. Qed.


Lemma string_app_cons (c : ascii) (p r : string) :
  String c p +:+ r = String c (p +:+ r).
Proof. done. Qed.

Lemma startsWith_app (p r : string) : JsString.startsWith (p +:+ r) p = true.
Proof.
  induction p as [|c p IH]; [by destruct r|].
  rewrite string_app_cons. cbn [JsString.startsWith].
  by rewrite Ascii.eqb_refl, IH.
Qed.

Lemma startsWith_inv (s p : string) :
  JsString.startsWith s p = true → ∃ r, s = p +:+ r.
Proof.
  revert s. induction p as [|c p IH]; intros s H.
  - by exists s.
  - destruct s as [|d s]; [done|]. cbn [JsString.startsWith] in H.
    apply andb_true_iff in H as [Hc Hs]. apply Ascii.eqb_eq in Hc as ->.
    destruct (IH s Hs) as [r ->]. by exists r.
Qed.

Lemma substring_all (r : string) (m : nat) :
  (String.length r ≤ m)%nat → String.substring 0 m r = r.
Proof.
  revert m. induction r as [|c r IH]; intros m Hm.
  - by destruct m.
  - destruct m as [|m]; cbn in *; [lia|]. rewrite IH; [done|lia].
Qed.

Lemma substring_app_drop (p r : string) :
  String.substring (String.length p) (String.length (p +:+ r)) (p +:+ r) = r.
Proof.
  assert (H : ∀ m, (String.length r ≤ m)%nat →
                   String.substring (String.length p) m (p +:+ r) = r).
  { induction p as [|c p IH]; intros m Hm.
    - by apply substring_all.
    - rewrite string_app_cons. cbn [String.length String.substring]. by apply IH. }
  apply H. rewrite string_length_app. lia.
Qed.

Lemma lacksChar_nil (c : ascii) : lacksChar c "".
Proof. done. Qed.

Lemma lacksChar_cons (c a : ascii) (s : string) :
  lacksChar c (String a s) ↔ a ≠ c ∧ lacksChar c s.
Proof.
  unfold lacksChar. cbn [JsString.includes JsString.startsWith].
  destruct (Ascii.eqb c a) eqn:E.
  - apply Ascii.eqb_eq in E as ->.
    assert (JsString.startsWith s "" = true) as -> by (by destruct s).
    cbn [andb orb]. split; [done|]. by intros [? _].
  - apply Ascii.eqb_neq in E. cbn [andb orb]. split.
    + intros H. split; [congruence|done].
    + by intros [_ H].
Qed.

Lemma lacksChar_app (c : ascii) (a b : string) :
  lacksChar c (a +:+ b) ↔ lacksChar c a ∧ lacksChar c b.
Proof.
  induction a as [|x a IH].
  - change ("" +:+ b) with b. split; [by intros H|by intros [_ H]].
  - rewrite string_app_cons, !lacksChar_cons, IH. tauto.
Qed.

Lemma splitOn_lacks (c : ascii) (a : string) :
  lacksChar c a → JsString.splitOn c a = [a].
Proof.
  induction a as [|x a IH]; [done|].
  intros [Hx Ha]%lacksChar_cons. cbn [JsString.splitOn].
  rewrite (proj2 (Ascii.eqb_neq x c)) by done. by rewrite IH.
Qed.

Lemma splitOn_app (c : ascii) (a b : string) :
  lacksChar c a →
  JsString.splitOn c (a +:+ String c b) = a :: JsString.splitOn c b.
Proof.
  induction a as [|x a IH].
  - intros _. change ("" +:+ String c b) with (String c b).
    cbn [JsString.splitOn]. by rewrite Ascii.eqb_refl.
  - intros [Hx Ha]%lacksChar_cons. rewrite string_app_cons.
    cbn [JsString.splitOn].
    rewrite (proj2 (Ascii.eqb_neq x c)) by done. by rewrite IH.
Qed.

Lemma removeFirst_suffix (a : string) :
  lacksChar "." a → JsString.removeFirst ".yaml" (a +:+ ".yaml") = a.
Proof.
  induction a as [|x a IH]; [done|].
  intros [Hx Ha]%lacksChar_cons.
  rewrite string_app_cons.
  change (JsString.removeFirst ".yaml" (String x (a +:+ ".yaml"))) with
    (if JsString.startsWith (String x (a +:+ ".yaml")) ".yaml"
     then String.substring (String.length ".yaml")
            (String.length (String x (a +:+ ".yaml"))) (String x (a +:+ ".yaml"))
     else String x (JsString.removeFirst ".yaml" (a +:+ ".yaml"))).
  cbn [JsString.startsWith].
  rewrite (proj2 (Ascii.eqb_neq "." x)) by done. cbn [andb]. by rewrite IH.
Qed.

Lemma string_app_assoc (a b c : string) : (a +:+ b) +:+ c = a +:+ b +:+ c.
Proof. induction a as [|x a IH]; [done|]. by rewrite !string_app_cons, IH. Qed.


(** * Paths *)

Lemma uploadsPath_eq : uploadsPath = "uploads".
Proof. reflexivity. Qed.

Lemma string_app_nil_r (s : string) : s +:+ "" = s.
Proof. induction s as [|c s IH]; [done|]. by rewrite string_app_cons, IH. Qed.

Lemma endsWith_lacks (c : ascii) (name : string) :
  lacksChar c name → JsString.endsWith name (String c "") = false.
Proof.
  induction name as [|x name IH]; [done|].
  intros [Hx Hname]%lacksChar_cons. cbn [JsString.endsWith].
  rewrite (IH Hname), orb_false_r. apply String.eqb_neq. intros [=]. done.
Qed.

Lemma endsWith_app_lacks (c : ascii) (pre name : string) :
  name ≠ "" → lacksChar c name →
  JsString.endsWith (pre +:+ name) (String c "") = false.
Proof.
  intros Hne Hl. induction pre as [|x pre IH].
  - by apply endsWith_lacks.
  - rewrite string_app_cons. cbn [JsString.endsWith]. rewrite IH, orb_false_r.
    apply String.eqb_neq. intros [= _ H].
    destruct pre; [by apply Hne|done].
Qed.

Lemma isEntryName_eqb name :
  isEntryName name →
  String.eqb name "" = false ∧ String.eqb name "." = false ∧
  String.eqb name ".." = false.
Proof. intros (? & ? & ? & _). by rewrite !String.eqb_neq. Qed.

Lemma pathSegments_dot_uploads name :
  isEntryName name → pathSegments ("./uploads/" +:+ name) = ["uploads"; name].
Proof.
  intros Hname. pose proof Hname as (_ & _ & _ & Hl).
  destruct (isEntryName_eqb name Hname) as (E1 & E2 & E3).
  unfold pathSegments.
  change ("./uploads/" +:+ name)
    with ("." +:+ String "/" ("uploads" +:+ String "/" name)).
  rewrite !splitOn_app, splitOn_lacks by done.
  cbn. by rewrite E1, E2, E3.
Qed.

Lemma pathSegments_uploads name :
  isEntryName name → pathSegments ("uploads/" +:+ name) = ["uploads"; name].
Proof.
  intros Hname. pose proof Hname as (_ & _ & _ & Hl).
  destruct (isEntryName_eqb name Hname) as (E1 & E2 & E3).
  unfold pathSegments.
  change ("uploads/" +:+ name) with ("uploads" +:+ String "/" name).
  rewrite !splitOn_app, splitOn_lacks by done.
  cbn. by rewrite E1, E2, E3.
Qed.

(** Joining the uploads directory and the name of an entry. *)
Lemma pathJoin_uploads name :
  isEntryName name → pathJoin uploadsDir name = "uploads/" +:+ name.
Proof.
  intros Hname. pose proof Hname as (Hne & _ & _ & Hl).
  unfold pathJoin, uploadsDir. cbn [String.eqb Ascii.eqb Bool.eqb].
  rewrite (eqb_empty_false _ Hne). unfold normalize.
  change ("./uploads" +:+ "/" +:+ name) with ("./uploads/" +:+ name).
  rewrite pathSegments_dot_uploads by done.
  rewrite (endsWith_app_lacks "/" "./uploads/" name) by done.
  change (JsString.join "/" ["uploads"; name]) with ("uploads/" +:+ name).
  change (String.eqb ("uploads/" +:+ name) "") with false.
  change (isAbsolute ("./uploads/" +:+ name)) with false.
  cbv iota. change ("" +:+ ?s) with s. apply string_app_nil_r.
Qed.

Lemma parentDirectory_uploads name :
  isEntryName name → parentDirectory ("uploads/" +:+ name) = uploadsPath.
Proof.
  intros Hname. unfold parentDirectory.
  rewrite pathSegments_uploads by done. reflexivity.
Qed.

Lemma uploads_entry_not_uploads name :
  String.eqb ("uploads/" +:+ name) uploadsPath = false.
Proof. done. Qed.

Lemma directoryAt_uploads_entry name w :
  directoryAt ("uploads/" +:+ name) w = directories w !! ("uploads/" +:+ name).
Proof. done. Qed.

Lemma isEntryName_storedName taskId fileId :
  lacksChar "/" taskId → lacksChar "/" fileId →
  isEntryName (storedName taskId fileId).
Proof.
  intros HT Hu. unfold storedName. split_and!; try done.
  change "transformation_" with ("transformation" +:+ "_").
  rewrite !lacksChar_app. split_and!; done.
Qed.

Lemma nameIn_uploads p name :
  nameIn uploadsDir p = Some name ↔ isEntryName name ∧ p = "uploads/" +:+ name.
Proof.
  unfold nameIn. change (normalize uploadsDir +:+ "/") with "uploads/". split.
  - destruct (JsString.startsWith p "uploads/") eqn:Hp; [|done].
    apply startsWith_inv in Hp as [r ->]. cbv zeta.
    rewrite substring_app_drop.
    destruct (String.eqb r "") eqn:E1; [done|].
    destruct (JsString.includes r "/") eqn:E2; [done|].
    destruct (String.eqb r ".") eqn:E3; [done|].
    destruct (String.eqb r "..") eqn:E4; [done|].
    intros [= <-]. rewrite String.eqb_neq in E1, E3, E4. done.
  - intros [Hname ->]. rewrite startsWith_app. cbv zeta.
    rewrite substring_app_drop.
    destruct (isEntryName_eqb name Hname) as (-> & -> & ->).
    destruct Hname as (_ & _ & _ & Hl). unfold lacksChar in Hl. by rewrite Hl.
Qed.

(** * The directory listing *)

Lemma elem_of_readdirSync (w : World) (name : string) :
  name ∈ readdirSync uploadsDir w ↔
  isEntryName name ∧
  (is_Some (disk w !! ("uploads/" +:+ name)) ∨
   is_Some (directories w !! ("uploads/" +:+ name))).
Proof.
  unfold readdirSync. rewrite list_elem_of_omap. split.
  - intros (p & Hin & [Hname ->]%nameIn_uploads). split; [done|].
    apply elem_of_elements, elem_of_union in Hin.
    by rewrite !elem_of_dom in Hin.
  - intros [Hname Hheld]. exists ("uploads/" +:+ name). split.
    + apply elem_of_elements, elem_of_union. by rewrite !elem_of_dom.
    + by apply nameIn_uploads.
Qed.

Lemma statOf_listed (w : World) (name : string) :
  name ∈ readdirSync uploadsDir w →
  isEntryName name ∧ is_Some (statOf (pathJoin uploadsDir name) w).
Proof.
  intros [Hname Hheld]%elem_of_readdirSync. split; [done|].
  rewrite pathJoin_uploads by done. unfold statOf.
  rewrite directoryAt_uploads_entry.
  destruct Hheld as [[f ->]|[d Hd]]; [eauto|].
  rewrite Hd. destruct (disk w !! _); eauto.
Qed.



(** * The per-session pricing context *)

Lemma contextOf_update_session sid sid' f w :
  (∀ s, pricingContext (f s) = pricingContext s) →
  contextOf sid' (update_session sid f w) = contextOf sid' w.
Proof.
  intros Hf. unfold contextOf, update_session. simpl.
  rewrite lookup_alter. case_decide as Heq; [subst sid'|done].
  destruct (sessions w !! sid) as [s|]; simpl; [|done]. by rewrite Hf.
Qed.

Lemma frame_contextOf {A} sid (m : M A) :
  Frame sessions m → Frame (contextOf sid) m.
Proof. intros H w. unfold contextOf. by rewrite H. Qed.

Lemma getPricingContextInfo_reply sid t w :
  (getPricingContextInfo sid t w).1 =
  match contextOf sid w with
  | None => NextError 404 "Session not found"
  | Some pc =>
      Sent 200 {| info_sessionId := sid;
                  hasContext := bool_decide (is_Some pc);
                  fileName := match pc with
                              | Some c => if String.eqb (pc_fileName c) "" then None
                                          else Some (pc_fileName c)
                              | None => None
                              end;
                  contentLength := match pc with
                                   | Some c => JsString.utf16Length (pc_content c)
                                   | None => 0%nat
                                   end;
                  retrievedAt := t |}
  end.
Proof.
  unfold getPricingContextInfo, respond, contextOf, gets, mbind, M_bind.
  by destruct (sessions w !! sid).
Qed.

Lemma isPricingYamlFile_sessions name p : Frame sessions (isPricingYamlFile name p).
Proof. unfold isPricingYamlFile. frame. Qed.

Lemma uploadFile_body_context env sid file now w sid' :
  contextOf sid' (uploadFile env sid file now w).2 = contextOf sid' w.
Proof.
  unfold uploadFile. apply (frame_respond (contextOf sid')).
  frame;
    first
      [ apply frame_modify; intros w0;
        first [ done | by apply contextOf_update_session ]
      | apply frame_contextOf;
        auto using existsSync_sessions, unlinkSync_sessions,
          saveUploadedFile_sessions, isPricingYamlFile_sessions,
          readFileSync_sessions ].
  all: unfold theSession; frame.
Qed.

(** C10: the upload endpoint leaves the [pricingContext] field of every
    session as it was, whatever the file and whether or not the pricing
    heuristic fires; hence what [getPricingContextInfo] reports (and in
    particular [hasContext]) is the same before and after an upload. *)
Theorem uploadFile_keeps_pricingContext
    (env : Collaborators) (sessionId : string) (file : option MulterFile)
    (now t : Z) (w : World) (S : string) :
  let w' := (uploadFile env sessionId file now w).2 in
  contextOf S w' = contextOf S w ∧
  (getPricingContextInfo S t w').1 = (getPricingContextInfo S t w).1.
Proof.
  intros w'. assert (H : contextOf S w' = contextOf S w)
    by apply uploadFile_body_context.
  split; [done|]. by rewrite !getPricingContextInfo_reply, H.
Qed.

(** With unique ids, [find] by id returns the file that carries the id. *)
Lemma find_by_id (D : SessionFile) (fs : list SessionFile) :
  D ∈ fs → NoDup (sf_id <$> fs) →
  List.find (λ f, strictEqString (JString (sf_id D)) (sf_id f)) fs = Some D.
Proof.
  induction fs as [|f fs IH]; intros Hin Hnd.
  - by apply elem_of_nil in Hin.
  - simpl in *. apply NoDup_cons in Hnd as [Hf Hnd].
    apply elem_of_cons in Hin as [->|Hin].
    + by rewrite String.eqb_refl.
    + destruct (String.eqb (sf_id D) (sf_id f)) eqn:E.
      * apply String.eqb_eq in E. exfalso. apply Hf. rewrite <- E.
        by apply list_elem_of_fmap_2.
      * by apply IH.
Qed.

Lemma updatePricingContext_eval w sid s D now :
  sessions w !! sid = Some s →
  D ∈ files s → NoDup (sf_id <$> files s) →
  sf_id D ≠ "" →
  is_Some (disk w !! sf_path D) →
  ∃ data,
    disk w !! sf_path D = Some data ∧
    updatePricingContext sid (JString (sf_id D)) now w =
    (Sent 200 {| upd_sessionId := sid; upd_fileId := JString (sf_id D);
                 upd_fileName := sf_originalName D; updatedAt := now |},
     update_session sid (λ s,
       set_lastActivity now
         (set_pricingContext
            (Some {| pc_content := content data;
                     pc_fileName := sf_originalName D;
                     pc_fileId := sf_id D |}) s)) w).
Proof.
  intros Hs Hin Hnd Hid [data Hdata]. exists data. split; [done|].
  pose proof (find_by_id D (files s) Hin Hnd) as Hfind.
  unfold updatePricingContext, respond, truthy.
  rewrite (eqb_empty_false _ Hid). cbn [negb].
  unfold mbind, M_bind, gets. rewrite Hs, Hfind.
  unfold existsSync, gets. rewrite (statOf_file _ _ _ Hdata).
  rewrite bool_decide_eq_true_2 by eauto. cbn [negb].
  unfold tryCatch, readFileSync, modify, mret, M_ret. by rewrite Hdata.
Qed.

(** C7: after [setPricingContext(S, D)] succeeds for a file [D] attached
    to session [S], [getPricingContextInfo(S)] reports [hasContext = true]
    and [fileName] equal to the original name of [D]; after
    [clearPricingContext(S)] it reports [hasContext = false].  File ids are
    unique within a session, [D] is on disk, and its original name is not
    empty (the upload route admits only names ending in .yaml or .yml). *)
Theorem pricingContext_set_get_clear :
  (∀ (w : World) (S : string) (s : ChatSession)
     (D : SessionFile) (now t : Z),
     sessions w !! S = Some s →
     D ∈ files s → NoDup (sf_id <$> files s) →
     sf_id D ≠ "" → sf_originalName D ≠ "" →
     is_Some (disk w !! sf_path D) →
     let set := updatePricingContext S (JString (sf_id D)) now w in
     (∃ data, set.1 = Sent 200 data ∧ upd_fileName data = sf_originalName D) ∧
     ∃ info, (getPricingContextInfo S t set.2).1 = Sent 200 info ∧
             hasContext info = true ∧
             fileName info = Some (sf_originalName D)) ∧
  (∀ (w : World) (S : string) (s : ChatSession) (now t : Z),
     sessions w !! S = Some s →
     let cleared := clearPricingContext S now w in
     (∃ at_, cleared.1 = Sent 200 at_) ∧
     ∃ info, (getPricingContextInfo S t cleared.2).1 = Sent 200 info ∧
             hasContext info = false).
Proof.
  split.
  - intros w S s D now t Hs Hin Hnd Hid Hname Hdisk set.
    destruct (updatePricingContext_eval w S s D now Hs Hin Hnd Hid Hdisk)
      as (data & Hdata & Heval).
    subst set. rewrite Heval. simpl. split; [eauto|].
    rewrite getPricingContextInfo_reply. unfold contextOf, update_session. simpl.
    rewrite lookup_alter, decide_True by done. rewrite Hs. simpl.
    rewrite (eqb_empty_false _ Hname). eauto.
  - intros w S s now t Hs cleared. subst cleared.
    unfold clearPricingContext, respond, mbind, M_bind, gets. rewrite Hs. simpl.
    split; [eauto|].
    rewrite getPricingContextInfo_reply. unfold contextOf, update_session. simpl.
    rewrite lookup_alter, decide_True by done. rewrite Hs. simpl. eauto.
Qed.

(** * The session reaper *)

Lemma lookup_foldl_delete {V} (m : gmap string V) (ids : list string) (k : string) :
  foldl (λ m id, delete id m) m ids !! k =
  if decide (k ∈ ids) then None else m !! k.
Proof.
  revert m. induction ids as [|i ids IH]; intros m.
  - destruct (decide (k ∈ [])) as [Hin|_]; [by apply elem_of_nil in Hin|done].
  - change (foldl (λ m id, delete id m) (delete i m) ids !! k =
            if decide (k ∈ i :: ids) then None else m !! k).
    rewrite IH.
    destruct (decide (k ∈ ids)) as [Hin|Hnin];
      destruct (decide (k ∈ i :: ids)) as [Hin'|Hnin']; try done.
    + exfalso. apply Hnin'. apply elem_of_cons; by right.
    + apply elem_of_cons in Hin' as [->|?]; [apply lookup_delete_eq|done].
    + apply lookup_delete_ne. intros ->. apply Hnin', elem_of_cons; by left.
Qed.

(** Lookup after removing a list of keys, one membership test at a time. *)
Lemma removed_lookup_cons {V} (d1 d2 d : gmap string V) (p q : string) (qs : list string) :
  d2 !! p = (if decide (p ∈ qs) then None else d1 !! p) →
  d1 !! p = delete q d !! p →
  d2 !! p = if decide (p ∈ q :: qs) then None else d !! p.
Proof.
  intros -> ->.
  destruct (decide (p ∈ qs)) as [Hin|Hnin];
    destruct (decide (p ∈ q :: qs)) as [Hin'|Hnin']; try done.
  - exfalso. apply Hnin'. apply elem_of_cons; by right.
  - apply elem_of_cons in Hin' as [->|?]; [apply lookup_delete_eq|done].
  - apply lookup_delete_ne. intros ->. apply Hnin', elem_of_cons; by left.
Qed.

Lemma removed_lookup_app {V} (d1 d2 d : gmap string V) (p : string) (ps qs : list string) :
  d2 !! p = (if decide (p ∈ qs) then None else d1 !! p) →
  d1 !! p = (if decide (p ∈ ps) then None else d !! p) →
  d2 !! p = if decide (p ∈ ps ++ qs) then None else d !! p.
Proof.
  intros -> ->.
  destruct (decide (p ∈ qs)) as [Hin|Hnin];
    destruct (decide (p ∈ ps)) as [Hin2|Hnin2];
    destruct (decide (p ∈ ps ++ qs)) as [Hin'|Hnin']; try done.
  - exfalso. apply Hnin', elem_of_app. by right.
  - exfalso. apply Hnin', elem_of_app. by right.
  - exfalso. apply Hnin', elem_of_app. by left.
  - apply elem_of_app in Hin' as [?|?]; done.
Qed.

Lemma disk_touchDirectory d now w : disk (touchDirectory d now w) = disk w.
Proof. unfold touchDirectory. by destruct (String.eqb d uploadsPath). Qed.

Lemma serverSessions_touchDirectory d now w :
  serverSessions (touchDirectory d now w) = serverSessions w.
Proof. unfold touchDirectory. by destruct (String.eqb d uploadsPath). Qed.

Lemma directoryAt_touchDirectory q d now w :
  directoryAt q (touchDirectory d now w) = None ↔ directoryAt q w = None.
Proof.
  unfold touchDirectory, directoryAt.
  destruct (String.eqb d uploadsPath) eqn:Ed;
    destruct (String.eqb q uploadsPath) eqn:Eq; cbn; rewrite ?Eq; try done.
  rewrite lookup_alter. case_decide as H; [subst q|done].
  by destruct (directories w !! d).
Qed.

(** What [unlinkSync] does, by what is held at the path. *)
Lemma unlinkSync_file p now w f :
  disk w !! p = Some f →
  unlinkSync p now w =
  (Returned tt, touchDirectory (parentDirectory p) now (set_disk (delete p (disk w)) w)).
Proof. intros H. unfold unlinkSync. by rewrite H. Qed.

Lemma unlinkSync_threw p now w :
  disk w !! p = None → ∃ e, unlinkSync p now w = (Threw e, w).
Proof.
  intros H. unfold unlinkSync. rewrite H. destruct (directoryAt p w); eauto.
Qed.

(** [deleteFile] removes a regular file, leaves alone a path that holds
    nothing, and throws on a directory; the state changes in the first
    case only. *)
Lemma deleteFile_eval p now w :
  ∃ o w', deleteFile p now w = (o, w') ∧
          sessions w' = sessions w ∧ serverSessions w' = serverSessions w ∧
          disk w' = delete p (disk w) ∧
          (∀ q, directoryAt q w' = None ↔ directoryAt q w = None) ∧
          (directoryAt p w = None ∨ is_Some (disk w !! p) → o = Returned tt).
Proof.
  unfold deleteFile, existsSync, gets, tryCatch, mbind, M_bind.
  destruct (disk w !! p) as [f|] eqn:E.
  - rewrite (statOf_file _ _ _ E), bool_decide_eq_true_2 by eauto.
    rewrite (unlinkSync_file _ _ _ _ E). eexists _, _. split; [reflexivity|].
    rewrite sessions_touchDirectory, serverSessions_touchDirectory,
      disk_touchDirectory.
    split_and!; try done. intros q. by rewrite directoryAt_touchDirectory.
  - destruct (unlinkSync_threw p now w E) as [e He].
    unfold statOf. rewrite E. destruct (directoryAt p w) as [d|] eqn:Ed.
    + rewrite bool_decide_eq_true_2 by eauto. rewrite He.
      eexists _, _. split; [reflexivity|].
      split_and!; try done; [symmetry; by apply delete_id|].
      intros [?|[? ?]]; done.
    + rewrite bool_decide_eq_false_2 by (intros [? ?]; done).
      eexists _, _. split; [reflexivity|].
      split_and!; try done. symmetry; by apply delete_id.
Qed.

Lemma tryDeleteFile_eval p now w :
  ∃ w', tryCatch (deleteFile p now) (λ _, mret tt) w = (Returned tt, w') ∧
        sessions w' = sessions w ∧ serverSessions w' = serverSessions w ∧
        disk w' = delete p (disk w).
Proof.
  destruct (deleteFile_eval p now w) as (o & w' & E & S1 & S2 & D & _ & _).
  exists w'. unfold tryCatch. rewrite E.
  destruct o as [[]|e]; (split; [reflexivity|done]).
Qed.

Lemma deleteSessionFiles_eval fs now w :
  ∃ w', deleteSessionFiles fs now w = (Returned tt, w') ∧
        sessions w' = sessions w ∧ serverSessions w' = serverSessions w ∧
        ∀ p, disk w' !! p = if decide (p ∈ sf_path <$> fs) then None else disk w !! p.
Proof.
  revert w. induction fs as [|f fs IH]; intros w.
  - exists w. split; [done|]. split; [done|]. split; [done|]. intros p.
    by destruct (decide (p ∈ sf_path <$> [])) as [Hin%elem_of_nil|_].
  - destruct (tryDeleteFile_eval (sf_path f) now w) as (w1 & E1 & S1 & T1 & D1).
    destruct (IH w1) as (w2 & E2 & S2 & T2 & D2).
    exists w2. split; [|split; [|split]].
    + cbn [deleteSessionFiles]. by rewrite (bind_returned _ _ _ _ _ E1).
    + congruence.
    + congruence.
    + intros p. rewrite fmap_cons.
      eapply removed_lookup_cons; [apply D2|by rewrite D1].
Qed.

Lemma reapedPaths_cons now sid s entries :
  reapedPaths now ((sid, s) :: entries) =
  (if isInactive now s then sf_path <$> files s else []) ++ reapedPaths now entries.
Proof. done. Qed.

Lemma reapedIds_cons now sid s entries :
  reapedIds now ((sid, s) :: entries) =
  if isInactive now s then sid :: reapedIds now entries else reapedIds now entries.
Proof. unfold reapedIds. simpl. by destruct (isInactive now s). Qed.

Lemma sweepEntries_cons now sid s entries :
  sweepEntries now ((sid, s) :: entries) =
  if isInactive now s then
    _ ← deleteSessionFiles (files s) now;
    sessionsToDelete ← sweepEntries now entries;
    mret (sid :: sessionsToDelete)
  else sweepEntries now entries.
Proof. done. Qed.

Lemma sweepEntries_eval now entries w :
  ∃ w', sweepEntries now entries w = (Returned (reapedIds now entries), w') ∧
        sessions w' = sessions w ∧ serverSessions w' = serverSessions w ∧
        ∀ p, disk w' !! p =
             if decide (p ∈ reapedPaths now entries) then None else disk w !! p.
Proof.
  revert w. induction entries as [|[sid s] entries IH]; intros w.
  - exists w. split; [done|]. split; [done|]. split; [done|]. intros p.
    by destruct (decide (p ∈ reapedPaths now [])) as [Hin%elem_of_nil|_].
  - rewrite sweepEntries_cons, reapedIds_cons.
    destruct (isInactive now s) eqn:E.
    + destruct (deleteSessionFiles_eval (files s) now w) as (w1 & E1 & S1 & T1 & D1).
      destruct (IH w1) as (w2 & E2 & S2 & T2 & D2).
      exists w2. split; [|split; [|split]].
      * unfold mbind, M_bind. by rewrite E1, E2.
      * congruence.
      * congruence.
      * intros p. rewrite reapedPaths_cons, E.
        eapply removed_lookup_app; [apply D2|apply D1].
    + destruct (IH w) as (w2 & E2 & S2 & T2 & D2).
      exists w2. split; [done|]. split; [done|]. split; [done|].
      intros p. rewrite reapedPaths_cons, E. apply D2.
Qed.



(** The sweep of the controller [self], in one step. *)
Lemma cleanupInactiveSessions_eval self now w :
  ∃ w1,
    cleanupInactiveSessions self now w =
    (Returned tt,
     putSessionsOf self
       (foldl (λ m id, delete id m) (sessionsOf self w)
          (reapedIds now (map_to_list (sessionsOf self w)))) w1) ∧
    sessions w1 = sessions w ∧ serverSessions w1 = serverSessions w ∧
    ∀ p, disk w1 !! p =
         if decide (p ∈ reapedPaths now (map_to_list (sessionsOf self w)))
         then None else disk w !! p.
Proof.
  destruct (sweepEntries_eval now (map_to_list (sessionsOf self w)) w)
    as (w1 & E1 & S1 & T1 & D1).
  exists w1. split; [|done].
  unfold cleanupInactiveSessions, mbind, M_bind, gets, modify. rewrite E1.
  by destruct self; cbn; rewrite ?S1, ?T1.
Qed.

Lemma elem_of_reapedIds now entries sid :
  sid ∈ reapedIds now entries ↔
  ∃ s, (sid, s) ∈ entries ∧ isInactive now s = true.
Proof.
  unfold reapedIds. rewrite list_elem_of_fmap. split.
  - intros ([sid' s] & -> & Hin). apply list_elem_of_In, filter_In in Hin as [Hin E].
    exists s. split; [by apply list_elem_of_In|done].
  - intros (s & Hin & E). exists (sid, s). split; [done|].
    apply list_elem_of_In, filter_In. split; [by apply list_elem_of_In|done].
Qed.



(** C9: the sweep the scheduler runs every hour is that of the controller
    [server.ts] builds, while the routes store their sessions in the
    controller [chatRoutes.ts] builds. So a session the routes serve is
    still in their store after the scheduled sweep, also when its
    [lastActivity] is older than the 24-hour threshold, with its files on
    disk as long as the scheduler's own controller holds no session; the
    sweep never throws. *)
Theorem scheduled_sweep_reaps_no_served_session
    (now : Z) (w : World) (S : string) (s : ChatSession) :
  sessions w !! S = Some s →
  24 * 60 * 60 * 1000 < now - lastActivity s →
  let swept := scheduledSessionCleanup now w in
  swept.1 = Returned tt ∧
  sessions swept.2 !! S = Some s ∧
  sessions swept.2 = sessions w ∧
  (serverSessions w = ∅ → swept.2 = w).
Proof.
  intros Hs Hold swept.
  destruct (cleanupInactiveSessions_eval ServerController now w)
    as (w1 & Hsw & S1 & T1 & D1).
  assert (E : swept = (Returned tt, (cleanupInactiveSessions ServerController now w).2)).
  { subst swept. unfold scheduledSessionCleanup, sessionCleanupTask, tryCatch.
    by rewrite Hsw. }
  rewrite E. cbn [fst snd]. split_and!; [done| | |].
  - rewrite Hsw. cbn. by rewrite S1.
  - rewrite Hsw. cbn. by rewrite S1.
  - intros Hempty.
    unfold cleanupInactiveSessions, mbind, M_bind, gets, modify.
    cbn [sessionsOf]. rewrite Hempty, map_to_list_empty.
    destruct w. cbn in Hempty. by subst.
Qed.

(** * The dispatcher *)

Lemma getAvailableTransformationFiles_eval w :
  getAvailableTransformationFiles w = (Returned (transformationPool w), w).
Proof. done. Qed.

Lemma resolveSessionFile_eval (m : gmap string SessionFile) (fileId : JsValue) w :
  resolveSessionFile (FilesMap m) fileId w =
  (Returned match sessionLookup m fileId with
            | Some f => Some f
            | None => poolLookup w fileId
            end, w).
Proof.
  unfold resolveSessionFile, mbind, M_bind, filesGet, mret, M_ret.
  fold (sessionLookup m fileId).
  destruct (sessionLookup m fileId) as [f|]; [done|].
  by rewrite getAvailableTransformationFiles_eval.
Qed.

(** Both handlers that take a file id look it up among the session's
    files first and in the pool next, and refuse an id that is in
    neither. *)
Lemma fileId_resolution_steps
    (env : Collaborators) (m : gmap string SessionFile)
    (args : list (string * JsValue)) (w : World) :
  let fileId := getProp "pricingFileId" args in
  truthy fileId = true →
  handleGetPricingSummary env args (FilesMap m) w =
    match sessionLookup m fileId with
    | Some f => summarizeFile env fileId (FilesMap m) f w
    | None =>
        match poolLookup w fileId with
        | Some f => summarizeFile env fileId (FilesMap m) f w
        | None => (Returned (errorResult (fileNotFoundMessage fileId)), w)
        end
    end ∧
  (truthy (getProp "operation" args) = true →
   truthy (getProp "solver" args) = true →
   handleStartPricingAnalysisJob env args (FilesMap m) w =
     match sessionLookup m fileId with
     | Some f => startJobOnFile env args (FilesMap m) f w
     | None =>
         match poolLookup w fileId with
         | Some f => startJobOnFile env args (FilesMap m) f w
         | None => (Returned (errorResult (fileNotFoundMessage fileId)), w)
         end
     end) ∧
  (sessionLookup m fileId = None → poolLookup w fileId = None →
   isFailureOutcome (handleGetPricingSummary env args (FilesMap m) w).1 ∧
   (truthy (getProp "operation" args) = true →
    truthy (getProp "solver" args) = true →
    isFailureOutcome (handleStartPricingAnalysisJob env args (FilesMap m) w).1)).
Proof.
  intros fileId Hid.
  assert (Hsum : handleGetPricingSummary env args (FilesMap m) w =
    match sessionLookup m fileId with
    | Some f => summarizeFile env fileId (FilesMap m) f w
    | None =>
        match poolLookup w fileId with
        | Some f => summarizeFile env fileId (FilesMap m) f w
        | None => (Returned (errorResult (fileNotFoundMessage fileId)), w)
        end
    end).
  { unfold handleGetPricingSummary. fold fileId. rewrite Hid. cbn [negb].
    unfold mbind at 1. unfold M_bind. rewrite resolveSessionFile_eval.
    destruct (sessionLookup m fileId) as [f|]; [done|].
    by destruct (poolLookup w fileId). }
  assert (Hjob : truthy (getProp "operation" args) = true →
    truthy (getProp "solver" args) = true →
    handleStartPricingAnalysisJob env args (FilesMap m) w =
    match sessionLookup m fileId with
    | Some f => startJobOnFile env args (FilesMap m) f w
    | None =>
        match poolLookup w fileId with
        | Some f => startJobOnFile env args (FilesMap m) f w
        | None => (Returned (errorResult (fileNotFoundMessage fileId)), w)
        end
    end).
  { intros Hop Hsolver. unfold handleStartPricingAnalysisJob. fold fileId.
    rewrite Hid, Hop, Hsolver. cbn [negb orb].
    unfold mbind at 1. unfold M_bind. rewrite resolveSessionFile_eval.
    destruct (sessionLookup m fileId) as [f|]; [done|].
    by destruct (poolLookup w fileId). }
  split; [done|]. split; [done|].
  intros Hs Hp. split.
  - rewrite Hsum, Hs, Hp. by exists (fileNotFoundMessage fileId).
  - intros Hop Hsolver. rewrite (Hjob Hop Hsolver), Hs, Hp.
    by exists (fileNotFoundMessage fileId).
Qed.

Lemma eqb_of_not_elem (name : string) (known : string) (table : list string) :
  name ∉ known :: table → String.eqb name known = false ∧ name ∉ table.
Proof.
  intros H. apply not_elem_of_cons in H as [Hne Hrest].
  split; [by apply String.eqb_neq|done].
Qed.

(** C2, as the code has it: for a request whose name is not one the
    dispatcher knows, [handleToolCall] throws an [Error] whose message,
    "Unknown function call: <name>", names the unknown tool; its [catch]
    rethrows, so the exception leaves the dispatcher (no failure outcome is
    built), and the state is as before. *)
Theorem handleToolCall_unknown_name_throws
    (env : Collaborators) (self : Orchestrator) (functionCall : FunctionCall)
    (currentSessionFiles : SessionFiles) (now : Z) (w : World) :
  fc_name functionCall ∉ dispatchTable →
  handleToolCall env self functionCall currentSessionFiles now w =
  (Threw ("Unknown function call: " +:+ fc_name functionCall), w).
Proof.
  intros H. unfold dispatchTable in H.
  repeat (apply eqb_of_not_elem in H as [? H]).
  unfold handleToolCall.
  repeat match goal with E : String.eqb _ _ = false |- _ => rewrite E; clear E end.
  done.
Qed.

(** C6, at the argument the advice handler is the odd one out for: called
    without a [topic], [getPricingStrategyAdvice] does not return a failure
    outcome; it throws, and the dispatcher lets the exception through. *)
Theorem getPricingStrategyAdvice_missing_topic_throws
    (env : Collaborators) (self : Orchestrator)
    (currentSessionFiles : SessionFiles) (now : Z) (w : World) :
  let call := {| fc_name := "getPricingStrategyAdvice"; fc_arguments := [] |} in
  handleToolCall env self call currentSessionFiles now w =
    (Threw "Topic is required for pricing strategy advice", w) ∧
  ¬ isFailureOutcome (handleToolCall env self call currentSessionFiles now w).1.
Proof.
  intros call.
  assert (H : handleToolCall env self call currentSessionFiles now w =
              (Threw "Topic is required for pricing strategy advice", w)) by done.
  split; [done|]. rewrite H. by intros [msg Hmsg].
Qed.

(** The other handlers do return a failure outcome that names what is
    missing when a required argument is absent. *)
Lemma other_handlers_missing_argument
    (env : Collaborators) (self : Orchestrator) (fs : SessionFiles)
    (args : list (string * JsValue)) (now : Z) (w : World) :
  (truthy (getProp "pricingFileId" args) = false →
   handleGetPricingSummary env args fs w =
     (Returned (errorResult "Missing required parameter: pricingFileId"), w)) ∧
  (truthy (getProp "pricingFileId" args) = false ∨
   truthy (getProp "operation" args) = false ∨
   truthy (getProp "solver" args) = false →
   handleStartPricingAnalysisJob env args fs w =
     (Returned (errorResult
        "Missing required parameters: pricingFileId, operation, and solver are required"), w)) ∧
  (truthy (getProp "jobId" args) = false →
   handleGetPricingAnalysisJobStatus env args w =
     (Returned (errorResult "Missing required parameter: jobId"), w)) ∧
  (truthy (getProp "url" args) = false →
   handleInitiatePricingPageTransformation env self args w =
     (Returned (errorResult "Missing required parameter: url"), w)) ∧
  (truthy (getProp "taskId" args) = false →
   handleGetTransformationTaskStatus env self args now w =
     (Returned (errorResult "Missing required parameter: taskId"), w)).
Proof.
  repeat split.
  - intros H. unfold handleGetPricingSummary. by rewrite H.
  - intros H. unfold handleStartPricingAnalysisJob.
    destruct H as [H|[H|H]]; rewrite H; cbn [negb orb];
      by rewrite ?orb_true_r.
  - intros H. unfold handleGetPricingAnalysisJobStatus. by rewrite H.
  - intros H. unfold handleInitiatePricingPageTransformation. by rewrite H.
  - intros H. unfold handleGetTransformationTaskStatus. by rewrite H.
Qed.

(** * Polling *)




(** What [writeFileSync] does, by [canWrite]. *)
Lemma writeFileSync_eval p data now w :
  ∃ o w', writeFileSync p data now w = (o, w') ∧
    (if canWrite p w then
       o = Returned tt ∧
       disk w' = <[p := {| content := data; mtime := now |}]> (disk w)
     else (∃ e, o = Threw e) ∧ w' = w) ∧
    uuidCount w' = uuidCount w ∧ sessions w' = sessions w ∧
    geminiService w' = geminiService w ∧
    moduleGeminiService w' = moduleGeminiService w ∧
    controllerTaskUrlMap w' = controllerTaskUrlMap w ∧
    (∀ q, directoryAt q w' = None ↔ directoryAt q w = None).
Proof.
  unfold writeFileSync, canWrite.
  destruct (disk w !! p) as [f|] eqn:E.
  { rewrite bool_decide_eq_true_2 by eauto. eexists _, _. by split_and!. }
  rewrite (bool_decide_eq_false_2 (is_Some None)) by (by intros [? ?]).
  cbn [orb]. destruct (directoryAt p w) as [d|] eqn:Ed.
  { rewrite (bool_decide_eq_false_2 (Some d = None)) by done. cbn [andb].
    eexists _, _. split_and!; eauto. }
  rewrite (bool_decide_eq_true_2 (None = None)) by done. cbn [andb].
  destruct (directoryAt (parentDirectory p) w) as [d|] eqn:Ep.
  - rewrite bool_decide_eq_true_2 by eauto. eexists _, _.
    split; [reflexivity|].
    rewrite disk_touchDirectory, sessions_touchDirectory.
    split_and!; try done;
      try (unfold touchDirectory; by destruct (String.eqb _ uploadsPath)).
    intros q. by rewrite directoryAt_touchDirectory.
  - rewrite (bool_decide_eq_false_2 (is_Some None)) by (by intros [? ?]).
    destruct (bool_decide _); eexists _, _; split_and!; eauto.
Qed.

(** What [saveTransformationResult] leaves behind. *)
Lemma saveTransformationResult_eval env taskId yaml url now w :
  let fileId := uuidv4 env (uuidCount w) in
  let p := pathJoin uploadsDir (storedName taskId fileId) in
  ∃ o w', saveTransformationResult env taskId yaml url now w = (o, w') ∧
    disk w' = (if canWrite p w
               then <[p := {| content := yaml; mtime := now |}]> (disk w)
               else disk w) ∧
    uuidCount w' = S (uuidCount w) ∧ sessions w' = sessions w ∧
    geminiService w' = geminiService w ∧
    moduleGeminiService w' = moduleGeminiService w ∧
    controllerTaskUrlMap w' = controllerTaskUrlMap w ∧
    (∀ q, directoryAt q w' = None ↔ directoryAt q w = None) ∧
    (canWrite p w = false → ∃ e, o = Threw e) ∧
    (∀ saved, o = Returned saved →
       canWrite p w = true ∧
       ∃ hostname, urlHostname env url = Returned hostname ∧
         saved = {| sf_id := fileId; sf_fileId := fileId;
                    sf_originalName := "pricing_from_" +:+ hostname +:+ ".yaml";
                    sf_filename := storedName taskId fileId;
                    sf_path := p;
                    sf_size := byteLength yaml;
                    sf_uploadedAt := now;
                    sf_status := uploaded |}) ∧
    (canWrite p w = true → ∀ hostname, urlHostname env url = Returned hostname →
       ∃ saved, o = Returned saved) ∧
    (canWrite p w = true → ∀ e, urlHostname env url = Threw e → o = Threw e).
Proof.
  intros fileId p. unfold saveTransformationResult.
  rewrite (bind_returned _ _ w fileId (set_uuidCount (S (uuidCount w)) w)) by done.
  fold (storedName taskId fileId). fold p.
  destruct (writeFileSync_eval p yaml now (set_uuidCount (S (uuidCount w)) w))
    as (o & w' & E & Hw & Hn & Hs & Hg & Hm & Hc & Hdir).
  change (canWrite p (set_uuidCount (S (uuidCount w)) w)) with (canWrite p w) in Hw.
  destruct (canWrite p w) eqn:Ecan.
  - destruct Hw as [-> Hd]. rewrite (bind_returned _ _ _ _ _ E).
    unfold liftOutcome, mbind, M_bind.
    destruct (urlHostname env url) as [hostname|e] eqn:Eh.
    + eexists _, _. split; [reflexivity|]. split_and!; try done.
      * intros saved [= <-]. split; [done|]. by exists hostname.
      * intros _ h [= <-]. eauto.
    + eexists _, _. split; [reflexivity|]. split_and!; try done.
      by intros _ e' [= <-].
  - destruct Hw as [[e ->] ->]. rewrite (bind_threw _ _ _ _ _ E).
    eexists _, _. split; [reflexivity|]. split_and!; try done. eauto.
Qed.










(** * The pricing-document heuristic and the attachments of [chat] *)

Lemma isPricingYamlFile_eval name p w data :
  disk w !! p = Some data →
  isPricingYamlFile name p w =
  (Returned
     (if negb (JsString.endsWith (JsString.toLowerCase name) ".yaml") &&
         negb (JsString.endsWith (JsString.toLowerCase name) ".yml")
      then false
      else (3 <=? length (List.filter
                            (λ indicator, JsString.includes (firstLinesOf (content data))
                                                            indicator)
                            pricingIndicators))%nat), w).
Proof.
  intros H. unfold isPricingYamlFile, tryCatch.
  destruct (negb _ && negb _); [done|].
  unfold mbind, M_bind, readFileSync. by rewrite H.
Qed.

Lemma isPricingYamlFile_fires p w data :
  disk w !! p = Some data →
  JsString.includes (firstLinesOf (content data)) "version:" = true →
  JsString.includes (firstLinesOf (content data)) "features:" = true →
  JsString.includes (firstLinesOf (content data)) "plans:" = true →
  isPricingYamlFile "pricing.yaml" p w = (Returned true, w).
Proof.
  intros H Hv Hf Hp. rewrite (isPricingYamlFile_eval _ _ _ _ H).
  unfold pricingIndicators. cbn [List.filter]. by rewrite Hv, Hf, Hp.
Qed.

Lemma attachFiles_pricing env sid upload now w s data :
  sessions w !! sid = Some s →
  disk w !! mf_path upload = Some data →
  mf_path upload ≠ "" →
  (∀ w', disk w' = disk w →
         isPricingYamlFile (originalname upload) (mf_path upload) w' = (Returned true, w')) →
  ∃ w', attachFiles env sid [upload] now w = (Returned tt, w') ∧
        contextOf sid w' =
          Some (Some {| pc_content := content data;
                        pc_fileName := originalname upload;
                        pc_fileId := uuidv4 env (uuidCount w) |}).
Proof.
  intros Hs Hd Hp Hfire.
  unfold attachFiles, saveUploadedFile.
  unfold mbind, M_bind, drawUuid, gets, statOf. cbn [disk set_uuidCount].
  rewrite Hd, (eqb_empty_false _ Hp). unfold mret, M_ret, modify.
  cbn [sf_path sf_id].
  rewrite Hfire by done.
  unfold tryCatch, readFileSync. cbn [disk update_session set_sessions set_uuidCount].
  rewrite Hd. eexists. split; [reflexivity|].
  unfold contextOf, update_session. cbn [sessions set_sessions set_uuidCount].
  rewrite lookup_alter, decide_True by done.
  rewrite lookup_alter, decide_True by done.
  by rewrite Hs.
Qed.

Lemma runFunctionCalls_sessions env sid held calls now :
  Frame sessions (runFunctionCalls env sid held calls now).
Proof.
  induction calls as [|c calls IH]; simpl.
  - apply frame_ret.
  - unfold theSession. frame;
      auto using executeFunctionCalls_sessions, handleToolCall_sessions.
Qed.

Lemma pricingContext_set_last_parts ps s :
  pricingContext (set_last_parts ps s) = pricingContext s.
Proof. unfold set_last_parts. by destruct (reverse (messages s)). Qed.

Lemma chatTurn_context env sid message held now sid' :
  Frame (contextOf sid') (chatTurn env sid message held now).
Proof.
  unfold chatTurn, theSession. frame;
    first
      [ apply frame_modify; intros w0;
        apply contextOf_update_session; intros s0;
        first [ done | apply pricingContext_set_last_parts ]
      | apply frame_contextOf;
        auto using generateResponse_sessions, runFunctionCalls_sessions,
          processToolResultWithSessionContext_sessions ].
Qed.

Lemma saveUploadedFile_eval env file now w data :
  disk w !! mf_path file = Some data → mf_path file ≠ "" →
  saveUploadedFile env file now w =
  (Returned {| sf_id := uuidv4 env (uuidCount w);
               sf_fileId := uuidv4 env (uuidCount w);
               sf_originalName := originalname file;
               sf_filename := basename (mf_path file);
               sf_path := mf_path file;
               sf_size := if mf_size file =? 0
                          then byteLength (content data) else mf_size file;
               sf_uploadedAt := now;
               sf_status := uploaded |},
   set_uuidCount (S (uuidCount w)) w).
Proof.
  intros Hd Hp. unfold saveUploadedFile, mbind, M_bind, drawUuid, gets, statOf.
  cbn [disk set_uuidCount]. by rewrite Hd, (eqb_empty_false _ Hp).
Qed.

(** The file ref the upload endpoint attaches. *)
Lemma uploadFile_eval env sid file now w s data :
  sessions w !! sid = Some s →
  disk w !! mf_path file = Some data → mf_path file ≠ "" →
  let attached :=
    {| sf_id := uuidv4 env (uuidCount w);
       sf_fileId := uuidv4 env (uuidCount w);
       sf_originalName := originalname file;
       sf_filename := basename (mf_path file);
       sf_path := mf_path file;
       sf_size := if mf_size file =? 0
                  then byteLength (content data) else mf_size file;
       sf_uploadedAt := now;
       sf_status := uploaded |} in
  ∃ reply w',
    uploadFile env sid (Some file) now w = (Sent 201 reply, w') ∧
    up_fileId reply = uuidv4 env (uuidCount w) ∧
    sessions w' !! sid = Some (set_lastActivity now (push_file attached s)) ∧
    disk w' = disk w.
Proof.
  intros Hs Hd Hp attached.
  set (w1 := set_uuidCount (S (uuidCount w)) w).
  set (w2 := update_session sid (λ s0, set_lastActivity now (push_file attached s0)) w1).
  assert (Hs2 : sessions w2 !! sid = Some (set_lastActivity now (push_file attached s))).
  { unfold w2.
    exact (lookup_update_session sid
             (λ s0, set_lastActivity now (push_file attached s0)) w1 s Hs). }
  assert (Hd2 : disk w2 !! mf_path file = Some data) by done.
  unfold uploadFile, respond.
  rewrite (bind_returned _ _ w (Some s) w) by (unfold gets; by rewrite Hs).
  unfold tryCatch at 1.
  rewrite (bind_returned _ _ w _ w1) by (by apply saveUploadedFile_eval).
  rewrite (bind_returned _ _ w1 _ w1)
    by (unfold gets; cbn [sf_path];
        by rewrite (statOf_file (mf_path file) w1 data Hd)).
  cbn [sf_id sf_filename sf_path].
  rewrite (bind_returned _ _ w1 tt w2) by done.
  rewrite (bind_returned _ _ w2 _ w2)
    by (by apply (isPricingYamlFile_eval _ _ _ data)).
  destruct (if _ && _ then false else _).
  - unfold tryCatch, mbind, M_bind, readFileSync, modify, theSession, gets,
      mret, M_ret.
    rewrite Hd2. cbn [sessions set_geminiService]. rewrite Hs2.
    eexists _, _. split; [reflexivity|]. done.
  - unfold mbind, M_bind, theSession, gets, mret, M_ret. rewrite Hs2.
    eexists _, _. split; [reflexivity|]. done.
Qed.

(** C5, as the code has it: a file named pricing.yaml makes the heuristic
    fire when its first 50 lines contain, in any letter case, the three
    markers [version:], [features:] and [plans:] ([saasName] is not one of
    them).  [getPricingContextInfo] reports [hasContext = true] and
    [fileName = "pricing.yaml"] once the file has become the pricing
    context of the session: as an attachment of the [chat] endpoint, where
    the firing heuristic sets it, or, after the upload endpoint, when the
    client sets it with the file id the upload returned. *)
Theorem pricing_file_becomes_context
    (env : Collaborators) (w : World) (S message : string) (s : ChatSession)
    (upload : MulterFile) (data : FileData) (now t : Z) :
  S ≠ "" → message ≠ "" →
  sessions w !! S = Some s →
  originalname upload = "pricing.yaml" →
  mf_path upload ≠ "" →
  disk w !! mf_path upload = Some data →
  JsString.includes (firstLinesOf (content data)) "version:" = true →
  JsString.includes (firstLinesOf (content data)) "features:" = true →
  JsString.includes (firstLinesOf (content data)) "plans:" = true →
  (isPricingYamlFile "pricing.yaml" (mf_path upload) w).1 = Returned true ∧
  (∃ info,
     (getPricingContextInfo S t (chat env S message [upload] now w).2).1 = Sent 200 info ∧
     hasContext info = true ∧
     fileName info = Some "pricing.yaml") ∧
  (uuidv4 env (uuidCount w) ≠ "" →
   NoDup (sf_id <$> files s) →
   uuidv4 env (uuidCount w) ∉ sf_id <$> files s →
   ∃ reply info,
     let uploaded := uploadFile env S (Some upload) now w in
     uploaded.1 = Sent 201 reply ∧
     (getPricingContextInfo S t
        (updatePricingContext S (JString (up_fileId reply)) now uploaded.2).2).1
       = Sent 200 info ∧
     hasContext info = true ∧
     fileName info = Some "pricing.yaml").
Proof.
  intros HS Hmsg Hs Hname Hpath Hdisk Hv Hf Hp.
  split; [by rewrite (isPricingYamlFile_fires _ _ _ Hdisk Hv Hf Hp)|]. split.
  - set (w1 := update_session S (set_lastActivity now) w).
    assert (Hs1 : sessions w1 !! S = Some (set_lastActivity now s))
      by (by apply lookup_update_session).
    destruct (attachFiles_pricing env S upload now w1 _ data Hs1 Hdisk Hpath)
      as (w2 & Hattach & Hctx).
    { intros w' Hw'. rewrite Hname.
      apply (isPricingYamlFile_fires _ _ data); try done. by rewrite Hw'. }
    assert (Hfinal : contextOf S (chat env S message [upload] now w).2 =
                     contextOf S w2).
    { unfold chat. rewrite respond_snd.
      rewrite (eqb_empty_false _ HS), (eqb_empty_false _ Hmsg). cbn [orb].
      rewrite (bind_returned _ _ w (Some s) w) by (unfold gets; by rewrite Hs).
      rewrite (bind_returned _ _ w tt w1) by done.
      rewrite (bind_returned _ _ w1 tt w2) by done.
      apply chatTurn_context. }
    rewrite getPricingContextInfo_reply, Hfinal, Hctx. rewrite Hname. simpl.
    eauto.
  - intros Hid Hnd Hfresh.
    destruct (uploadFile_eval env S upload now w s data Hs Hdisk Hpath)
      as (reply & w' & Hup & Hfid & Hs' & Hd').
    exists reply. rewrite Hup. cbn [fst snd]. rewrite Hfid.
    match type of Hs' with
    | _ = Some (set_lastActivity _ (push_file ?D _)) => set (attached := D) in *
    end.
    destruct (updatePricingContext_eval w' S _ attached now Hs') as (d & Hd & Heval).
    + cbn. apply elem_of_app. right. by apply list_elem_of_singleton.
    + cbn. rewrite fmap_app. apply NoDup_app. split; [done|]. split.
      * intros x Hx ->%list_elem_of_singleton. done.
      * apply NoDup_singleton.
    + done.
    + rewrite Hd'. cbn. eauto.
    + cbn [sf_id attached] in Heval. rewrite Heval. cbn [snd].
      rewrite getPricingContextInfo_reply. unfold contextOf, update_session.
      cbn [sessions set_sessions]. rewrite lookup_alter, decide_True by done.
      rewrite Hs'. cbn. rewrite Hname. cbn. eauto.
Qed.

(** * What [sendMessage] writes to the log *)

(** A turn of [sendMessage] appends the user message and at most one model
    message, which carries the final text and the tool-call request
    together; when the reply is an error, the user message alone. *)
Lemma sendMessage_log env sid message context now w s :
  sid ≠ "" → message ≠ "" → sessions w !! sid = Some s →
  let turn := sendMessage env sid message context now w in
  match turn.1 with
  | Sent _ data =>
      logOf sid turn.2 =
        messages s ++ userMessageOf message context ::
        modelMessagesOf (md_content data) (md_functionCalls data)
  | _ => logOf sid turn.2 = messages s ++ [userMessageOf message context]
  end.
Proof.
  intros Hsid Hmsg Hs turn. subst turn.
  set (um := userMessageOf message context).
  set (w1 := update_session sid (set_lastActivity now) w).
  set (w2 := update_session sid (push_message um) w1).
  set (s2 := push_message um (set_lastActivity now s)).
  assert (Hs2 : sessions w2 !! sid = Some s2).
  { unfold w2, s2. apply lookup_update_session. unfold w1.
    by apply lookup_update_session. }
  unfold sendMessage, respond.
  rewrite (eqb_empty_false _ Hsid), (eqb_empty_false _ Hmsg). cbn [orb].
  rewrite (bind_returned _ _ w (Some s) w) by (unfold gets; by rewrite Hs).
  rewrite (bind_returned _ _ w tt w1) by done.
  rewrite (bind_returned _ _ w1 tt w2) by done.
  rewrite (bind_returned _ _ w2 s2 w2)
    by (unfold theSession, gets; by rewrite Hs2).
  pose proof (generateResponse_sessions env (messages s2)
    (Some {| ctx_sessionId := id s2; ctx_files := filesById (files s2);
             ctx_pricingContext := pricingContext s2 |}) now w2) as Hframe.
  destruct (generateResponse env (messages s2) _ now w2) as [[resp|e] w3] eqn:E.
  - simpl in Hframe.
    assert (Hs3 : sessions w3 !! sid = Some s2) by (by rewrite Hframe).
    rewrite (bind_returned _ _ w2 resp w3) by exact E.
    unfold modelMessagesOf.
    destruct (negb (String.eqb (gcr_content resp) "") ||
              bool_decide (is_Some (gcr_functionCalls resp))) eqn:Ec.
    + unfold mbind, M_bind, modify, mret, M_ret. cbn [fst snd md_content md_functionCalls].
      rewrite Ec. unfold logOf.
      erewrite lookup_update_session by exact Hs3.
      cbn. by rewrite <- app_assoc.
    + unfold mbind, M_bind, mret, M_ret. cbn [fst snd md_content md_functionCalls].
      rewrite Ec. unfold logOf. by rewrite Hs3.
  - simpl in Hframe.
    assert (Hs3 : sessions w3 !! sid = Some s2) by (by rewrite Hframe).
    rewrite (bind_threw _ _ w2 e w3) by exact E. cbn [fst snd].
    unfold logOf. by rewrite Hs3.
Qed.

(** No turn of [sendMessage] writes a message of role [tool]. *)
Lemma sendMessage_writes_no_tool_message env sid message context now w s m :
  sid ≠ "" → message ≠ "" → sessions w !! sid = Some s →
  m ∈ logOf sid (sendMessage env sid message context now w).2 →
  m ∈ messages s ∨ role m ≠ tool.
Proof.
  intros Hsid Hmsg Hs Hm.
  pose proof (sendMessage_log env sid message context now w s Hsid Hmsg Hs) as Hlog.
  simpl in Hlog.
  assert (Hin : m ∈ messages s ∨ m = userMessageOf message context ∨
                ∃ c fcs, m ∈ modelMessagesOf c fcs).
  { destruct (sendMessage env sid message context now w).1 as [st data|st e|st e];
      rewrite Hlog in Hm; apply elem_of_app in Hm as [?|Hm]; auto;
      apply elem_of_cons in Hm as [->|Hm]; eauto.
    all: by apply elem_of_nil in Hm. }
  destruct Hin as [?|[->|(c & fcs & Hc)]]; [by left|by right|right].
  unfold modelMessagesOf in Hc. destruct (_ || _) in Hc.
  - apply list_elem_of_singleton in Hc. by subst m.
  - by apply elem_of_nil in Hc.
Qed.

(** * The turn protocol of [sendMessage], on a worked conversation *)

(** C1, on a turn that triggers exactly one tool call: [sendMessage]
    appends the user message and one model message that carries both the
    final text and the tool-call request; no [tool] message is written,
    so the log ends with two messages where the protocol has four.  On a
    turn whose tool call throws, only the user message is written. *)
Theorem sendMessage_tool_turn_log :
  let turn := sendMessage Scenario.env "A" "I need advice on tiers" None 10
                Scenario.world in
  let failedTurn := sendMessage Scenario.env "A" "Give me advice, surprise me" None 10
                      Scenario.world in
  (md_functionCalls <$> sentData turn.1 = Some (Some [Scenario.adviceCall])) ∧
  logOf "A" turn.2 =
    [ {| role := user; parts := [textPart "I need advice on tiers"] |};
      {| role := model;
         parts := [textPart "Here is my advice.";
                   functionCallPart Scenario.adviceCall] |} ] ∧
  (∀ m, m ∈ logOf "A" turn.2 → role m ≠ tool) ∧
  failedTurn.1 = SentError 500 "Failed to send message due to an internal error" ∧
  logOf "A" failedTurn.2 =
    [ {| role := user; parts := [textPart "Give me advice, surprise me"] |} ].
Proof.
  intros turn failedTurn.
  assert (Hlog : logOf "A" turn.2 =
    [ {| role := user; parts := [textPart "I need advice on tiers"] |};
      {| role := model;
         parts := [textPart "Here is my advice.";
                   functionCallPart Scenario.adviceCall] |} ])
    by (vm_compute; reflexivity).
  split; [vm_compute; reflexivity|]. split; [exact Hlog|]. split.
  - rewrite Hlog. intros m Hm.
    apply elem_of_cons in Hm as [->|Hm]; [done|].
    apply elem_of_cons in Hm as [->|Hm]; [done|].
    by apply elem_of_nil in Hm.
  - split; vm_compute; reflexivity.
Qed.

(** * Isolation of sessions, on a worked conversation *)

(** C3, on two live sessions: session B has no pricing context of its own
    and is answered from the shared model; after session A uploads a
    pricing file through the upload endpoint, B still has no context of
    its own, yet its next model call is grounded in A's document. *)
Theorem upload_in_one_session_regrounds_another :
  let question := "What plans are there?" in
  let before := sendMessage Scenario.env "B" question None 20 Scenario.world in
  let uploaded := uploadFile Scenario.env "A" (Some Scenario.upload1) 10 Scenario.world in
  let after := sendMessage Scenario.env "B" question None 20 uploaded.2 in
  contextOf "B" Scenario.world = Some None ∧
  contextOf "B" uploaded.2 = Some None ∧
  modelOfSession "B" Scenario.world =
    Some (createModelWithSessionContext None None) ∧
  modelOfSession "B" uploaded.2 =
    Some (createModelWithSessionContext (Some Scenario.pricingYaml)
                                        (Some "pricing.yaml")) ∧
  md_content <$> sentData before.1 = Some "(no pricing file)" ∧
  md_content <$> sentData after.1 = Some Scenario.pricingYaml ∧
  currentPricingSection (gs_model (geminiService uploaded.2)) =
    Some (Scenario.pricingYaml, Some "pricing.yaml").
Proof. repeat split; vm_compute; reflexivity. Qed.

(** ** The paths that do keep sessions apart *)

Lemma contextOf_update_session_ne sid sid' f w :
  sid ≠ sid' → contextOf sid' (update_session sid f w) = contextOf sid' w.
Proof.
  intros Hne. unfold contextOf, update_session. simpl.
  by rewrite lookup_alter, decide_False.
Qed.

Lemma sharedModel_putTaskUrlMap self m w :
  gs_model (geminiService (putTaskUrlMap self m w)) = gs_model (geminiService w).
Proof. by destruct self. Qed.

Lemma handleToolCall_sharedModel env self fc fs now :
  Frame (λ w, gs_model (geminiService w)) (handleToolCall env self fc fs now).
Proof.
  unfold handleToolCall, handleGetPricingSummary, summarizeFile,
    handleStartPricingAnalysisJob, startJobOnFile, resolveSessionFile,
    handleGetPricingAnalysisJobStatus, handleInitiatePricingPageTransformation,
    handleGetTransformationTaskStatus, handleGetPricingStrategyAdvice,
    handleGetAvailableTransformationFiles, getAvailableTransformationFiles,
    getTransformationFiles, validateYamlFile, saveTransformationResult,
    taskUrlMapGet, taskUrlMapDelete, filesGet, filesHas, drawUuid.
  frame; try (apply frame_modify; intros w0); try (intros w0); try done;
    try (destruct (getProp "taskId" (fc_arguments fc)));
    auto using sharedModel_putTaskUrlMap.
Qed.

(** Setting or clearing the context of session A through the context
    endpoints, and any tool call (a completed transformation included),
    leave the model that serves another session B as it was. *)
Lemma context_endpoints_and_tools_are_session_local
    (env : Collaborators) (A B : string) (fileId : JsValue) (now : Z) (w : World)
    (self : Orchestrator) (fc : FunctionCall) (fs : SessionFiles) :
  A ≠ B →
  modelOfSession B (updatePricingContext A fileId now w).2 = modelOfSession B w ∧
  modelOfSession B (clearPricingContext A now w).2 = modelOfSession B w ∧
  modelOfSession B (handleToolCall env self fc fs now w).2 = modelOfSession B w.
Proof.
  intros Hne.
  assert (Hobs : ∀ w1 w2,
    contextOf B w1 = contextOf B w2 →
    gs_model (geminiService w1) = gs_model (geminiService w2) →
    modelOfSession B w1 = modelOfSession B w2).
  { intros w1 w2 H1 H2. unfold modelOfSession. by rewrite H1, H2. }
  split; [|split].
  - apply Hobs.
    + unfold updatePricingContext. apply (frame_respond (contextOf B)).
      frame; try (apply frame_modify; intros w0); try (intros w0); try done;
        by apply contextOf_update_session_ne.
    + unfold updatePricingContext.
      apply (frame_respond (λ w, gs_model (geminiService w))).
      frame; try (apply frame_modify; intros w0); try (intros w0); done.
  - apply Hobs.
    + unfold clearPricingContext. apply (frame_respond (contextOf B)).
      frame. apply frame_modify. intros w0. by apply contextOf_update_session_ne.
    + unfold clearPricingContext.
      apply (frame_respond (λ w, gs_model (geminiService w))).
      frame. by apply frame_modify.
  - apply Hobs.
    + apply frame_contextOf, handleToolCall_sessions.
    + apply handleToolCall_sharedModel.
Qed.

(** * Worked instances *)

(** An unknown tool name makes the dispatcher throw; what the caller gets
    is not a failure outcome. *)
Lemma unknown_tool_is_not_a_failure_outcome :
  let call := {| fc_name := "deleteEverything"; fc_arguments := [] |} in
  let r := handleToolCall Scenario.env OfGeminiService call (FilesMap ∅) 0 Scenario.world in
  r.1 = Threw "Unknown function call: deleteEverything" ∧ ¬ isFailureOutcome r.1.
Proof.
  intros call r. assert (H : r.1 = Threw "Unknown function call: deleteEverything")
    by (vm_compute; reflexivity).
  split; [done|]. rewrite H. by intros [msg Hmsg].
Qed.

Lemma handleToolCall_unknown_name_throws_witness :
  let call := {| fc_name := "deleteEverything"; fc_arguments := [] |} in
  ("deleteEverything" ∉ dispatchTable) ∧
  handleToolCall Scenario.env OfGeminiService call (FilesMap ∅) 0 Scenario.world =
  (Threw "Unknown function call: deleteEverything", Scenario.world).
Proof.
  intros call.
  assert (H : "deleteEverything" ∉ dispatchTable).
  { unfold dispatchTable.
    repeat (apply not_elem_of_cons; split; [discriminate|]). apply not_elem_of_nil. }
  split; [exact H|].
  exact (handleToolCall_unknown_name_throws Scenario.env OfGeminiService call
           (FilesMap ∅) 0 Scenario.world H).
Defined.



(** A file with [saasName], [plans] and [version] only does not make the
    heuristic fire; and whichever file is uploaded through the upload
    endpoint, the session is left without a pricing context. *)
Lemma upload_of_minimal_pricing_file :
  let uploaded := uploadFile Scenario.env "A" (Some Scenario.upload2) 10 Scenario.world in
  let uploaded' := uploadFile Scenario.env "A" (Some Scenario.upload1) 10 Scenario.world in
  JsString.includes Scenario.minimalYaml "saasName" = true ∧
  JsString.includes Scenario.minimalYaml "plans" = true ∧
  JsString.includes Scenario.minimalYaml "version" = true ∧
  (isPricingYamlFile "pricing.yaml" "/srv/uploads/file-2.yaml" Scenario.world).1
    = Returned false ∧
  up_originalName <$> sentData uploaded.1 = Some "pricing.yaml" ∧
  hasContext <$> sentData (getPricingContextInfo "A" 11 uploaded.2).1 = Some false ∧
  fileName <$> sentData (getPricingContextInfo "A" 11 uploaded.2).1 = Some None ∧
  hasContext <$> sentData (getPricingContextInfo "A" 11 uploaded'.2).1 = Some false.
Proof. repeat split; vm_compute; reflexivity. Qed.

Lemma pricing_file_becomes_context_witness :
  (∃ info,
     (getPricingContextInfo "A" 11
        (chat Scenario.env "A" "Here is my pricing" [Scenario.upload1] 10
           Scenario.world).2).1 = Sent 200 info ∧
     hasContext info = true ∧ fileName info = Some "pricing.yaml") ∧
  (∃ reply info,
     let uploaded := uploadFile Scenario.env "A" (Some Scenario.upload1) 10
                       Scenario.world in
     uploaded.1 = Sent 201 reply ∧
     (getPricingContextInfo "A" 11
        (updatePricingContext "A" (JString (up_fileId reply)) 10 uploaded.2).2).1
       = Sent 200 info ∧
     hasContext info = true ∧ fileName info = Some "pricing.yaml").
Proof.
  assert (H := pricing_file_becomes_context Scenario.env Scenario.world
    "A" "Here is my pricing" (Scenario.newSession "A" 0) Scenario.upload1
    {| content := Scenario.pricingYaml; mtime := 5 |} 10 11).
  destruct H as (_ & Hchat & Hupload);
    try first [ discriminate | vm_compute; reflexivity ].
  split; [exact Hchat|]. apply Hupload.
  - discriminate.
  - apply NoDup_nil_2.
  - apply not_elem_of_nil.
Defined.

Lemma pricingContext_set_get_clear_witness :
  let set := updatePricingContext "A" (JString "uuid-0") 12 Scenario.attachedWorld in
  (∃ info, (getPricingContextInfo "A" 13 set.2).1 = Sent 200 info ∧
           hasContext info = true ∧ fileName info = Some "pricing.yaml") ∧
  (∃ info, (getPricingContextInfo "A" 15
              (clearPricingContext "A" 14 Scenario.attachedWorld).2).1 = Sent 200 info ∧
           hasContext info = false).
Proof.
  intros set. destruct pricingContext_set_get_clear as [Hset Hclear]. split.
  - refine (proj2 (Hset Scenario.attachedWorld "A" Scenario.attachedSession
                     Scenario.attachedFile 12 13 _ _ _ _ _ _)).
    + vm_compute. reflexivity.
    + apply list_elem_of_singleton. reflexivity.
    + apply NoDup_singleton.
    + discriminate.
    + discriminate.
    + eexists. vm_compute. reflexivity.
  - refine (proj2 (Hclear Scenario.attachedWorld "A" Scenario.attachedSession 14 15 _)).
    vm_compute. reflexivity.
Defined.


(** * Further properties of the dispatcher *)

Lemma returns_ret {A} (a : A) : Returns (mret a).
Proof. intros w. by eexists _, _. Qed.

Lemma returns_gets {A} (f : World → A) : Returns (gets f).
Proof. intros w. by eexists _, _. Qed.

Lemma returns_modify (f : World → World) : Returns (modify f).
Proof. intros w. by eexists _, _. Qed.

Lemma returns_bind {A C} (m : M A) (k : A → M C) :
  Returns m → (∀ a, Returns (k a)) → Returns (m ≫= k).
Proof.
  intros Hm Hk w. destruct (Hm w) as (a & w1 & E).
  destruct (Hk a w1) as (c & w2 & E2). exists c, w2.
  unfold mbind, M_bind. by rewrite E.
Qed.

(** A [try] whose handler returns never throws, whatever its body does. *)
Lemma returns_tryCatch {A} (m : M A) (h : string → M A) :
  (∀ e, Returns (h e)) → Returns (tryCatch m h).
Proof.
  intros Hh w. unfold tryCatch. destruct (m w) as [[a|e] w1].
  - by eexists _, _.
  - apply Hh.
Qed.

Ltac returns_step :=
  lazymatch goal with
  | |- Returns (mret _) => apply returns_ret
  | |- Returns (gets _) => apply returns_gets
  | |- Returns (modify _) => apply returns_modify
  | |- Returns (tryCatch _ _) => apply returns_tryCatch; intros ?
  | |- Returns (_ ≫= _) => apply returns_bind; [|intros ?]
  | |- Returns (if ?b then _ else _) => destruct b
  | |- Returns (match ?x with _ => _ end) => destruct x
  | |- Returns (let _ := _ in _) => cbv zeta
  end.

Ltac returns := repeat returns_step.

Lemma returns_rethrow {A} (m : M A) (h : string → M A) :
  Returns m → Returns (tryCatch m h).
Proof.
  intros Hm w. unfold tryCatch. destruct (Hm w) as (a & w1 & ->).
  by eexists _, _.
Qed.

Lemma validateYamlFile_returns env p : Returns (validateYamlFile env p).
Proof. unfold validateYamlFile. returns. Qed.

Lemma resolveSessionFile_returns m fileId :
  Returns (resolveSessionFile (FilesMap m) fileId).
Proof.
  unfold resolveSessionFile, filesGet, getAvailableTransformationFiles. returns.
Qed.

Lemma handleGetPricingSummary_returns env args m :
  Returns (handleGetPricingSummary env args (FilesMap m)).
Proof.
  unfold handleGetPricingSummary, summarizeFile.
  returns; auto using resolveSessionFile_returns, validateYamlFile_returns.
Qed.

Lemma handleStartPricingAnalysisJob_returns env args m :
  Returns (handleStartPricingAnalysisJob env args (FilesMap m)).
Proof.
  unfold handleStartPricingAnalysisJob, startJobOnFile.
  returns; auto using resolveSessionFile_returns.
Qed.

Lemma handleGetPricingAnalysisJobStatus_returns env args :
  Returns (handleGetPricingAnalysisJobStatus env args).
Proof. unfold handleGetPricingAnalysisJobStatus. returns. Qed.

Lemma handleInitiatePricingPageTransformation_returns env self args :
  Returns (handleInitiatePricingPageTransformation env self args).
Proof. unfold handleInitiatePricingPageTransformation. returns. Qed.

Lemma handleGetTransformationTaskStatus_returns env self args now :
  Returns (handleGetTransformationTaskStatus env self args now).
Proof. unfold handleGetTransformationTaskStatus. returns. Qed.

Lemma handleGetAvailableTransformationFiles_returns args :
  Returns (handleGetAvailableTransformationFiles args).
Proof.
  unfold handleGetAvailableTransformationFiles, getAvailableTransformationFiles.
  returns.
Qed.

Lemma handleToolCall_cases (name : string) :
  name ∈ dispatchTable →
  name = "getPricingSummary" ∨ name = "startPricingAnalysisJob" ∨
  name = "getPricingAnalysisJobStatus" ∨
  name = "initiatePricingPageTransformation" ∨
  name = "getTransformationTaskStatus" ∨ name = "getPricingStrategyAdvice" ∨
  name = "getAvailableTransformationFiles".
Proof.
  unfold dispatchTable. rewrite !elem_of_cons, elem_of_nil. tauto.
Qed.

(** X1: for every tool the dispatcher knows other than the advice tool,
    and with the session's files given as a [Map], a tool call never throws:
    whatever the collaborators do (time out, reject, answer nonsense), the
    caller gets a result object back. *)
Theorem dispatcher_contains_collaborator_failures
    (env : Collaborators) (self : Orchestrator) (functionCall : FunctionCall)
    (m : gmap string SessionFile) (now : Z) (w : World) :
  fc_name functionCall ∈ dispatchTable →
  fc_name functionCall ≠ "getPricingStrategyAdvice" →
  ∃ result w',
    handleToolCall env self functionCall (FilesMap m) now w = (Returned result, w').
Proof.
  intros Hin Hne. apply handleToolCall_cases in Hin.
  cut (Returns (handleToolCall env self functionCall (FilesMap m) now));
    [intros H; apply H|].
  unfold handleToolCall. apply returns_rethrow.
  destruct Hin as [E|[E|[E|[E|[E|[E|E]]]]]]; try done; rewrite E;
    cbn [String.eqb Ascii.eqb Bool.eqb];
    auto using handleGetPricingSummary_returns,
      handleStartPricingAnalysisJob_returns,
      handleGetPricingAnalysisJobStatus_returns,
      handleInitiatePricingPageTransformation_returns,
      handleGetTransformationTaskStatus_returns,
      handleGetAvailableTransformationFiles_returns.
Qed.

Lemma dispatcher_contains_collaborator_failures_witness :
  ∃ result w',
    handleToolCall Scenario.env OfGeminiService
      {| fc_name := "getPricingAnalysisJobStatus"; fc_arguments := [] |}
      (FilesMap ∅) 0 Scenario.world = (Returned result, w').
Proof.
  apply dispatcher_contains_collaborator_failures.
  - unfold dispatchTable. cbn. rewrite !elem_of_cons. tauto.
  - discriminate.
Defined.

(** * A session with its own pricing context does not see the shared model *)

Section SharedModel.
Context (env : Collaborators).

Lemma ism_ret {A} (a : A) : IgnoresSharedModel (mret a).
Proof. by intros m w. Qed.

Lemma ism_throw {A} (msg : string) : IgnoresSharedModel (throw (A := A) msg).
Proof. by intros m w. Qed.

Lemma ism_liftOutcome {A} (o : Outcome A) : IgnoresSharedModel (liftOutcome o).
Proof. by intros m w. Qed.

Lemma ism_gets {A} (f : World → A) :
  (∀ m w, f (withSharedModel m w) = f w) → IgnoresSharedModel (gets f).
Proof. intros Hf m w. unfold gets. by rewrite Hf. Qed.

Lemma ism_modify (f : World → World) :
  (∀ m w, f (withSharedModel m w) = withSharedModel m (f w)) →
  IgnoresSharedModel (modify f).
Proof. intros Hf m w. unfold modify. by rewrite Hf. Qed.

Lemma ism_bind {A C} (c : M A) (k : A → M C) :
  IgnoresSharedModel c → (∀ a, IgnoresSharedModel (k a)) →
  IgnoresSharedModel (c ≫= k).
Proof.
  intros Hc Hk m w. unfold mbind, M_bind. rewrite Hc.
  destruct (c w) as [[a|e] w1]; cbn [fst snd].
  - apply Hk.
  - done.
Qed.

Lemma ism_tryCatch {A} (c : M A) (h : string → M A) :
  IgnoresSharedModel c → (∀ e, IgnoresSharedModel (h e)) →
  IgnoresSharedModel (tryCatch c h).
Proof.
  intros Hc Hh m w. unfold tryCatch. rewrite Hc.
  destruct (c w) as [[a|e] w1]; cbn [fst snd].
  - done.
  - apply Hh.
Qed.

End SharedModel.

Ltac ism_step :=
  lazymatch goal with
  | |- IgnoresSharedModel (mret _) => apply ism_ret
  | |- IgnoresSharedModel (throw _) => apply ism_throw
  | |- IgnoresSharedModel (liftOutcome _) => apply ism_liftOutcome
  | |- IgnoresSharedModel (gets _) => apply ism_gets; intros ? ?
  | |- IgnoresSharedModel (modify _) => apply ism_modify; intros ? ?
  | |- IgnoresSharedModel (_ ≫= _) => apply ism_bind; [|intros ?]
  | |- IgnoresSharedModel (tryCatch _ _) => apply ism_tryCatch; [|intros ?]
  | |- IgnoresSharedModel (if ?b then _ else _) => destruct b
  | |- IgnoresSharedModel (match ?x with _ => _ end) => destruct x
  | |- IgnoresSharedModel (let _ := _ in _) => cbv zeta
  end.

Ltac ism := repeat ism_step.

Section SharedModelHandlers.
Context (env : Collaborators).

Lemma drawUuid_ism : IgnoresSharedModel (drawUuid env).
Proof. by intros m w. Qed.

Lemma readFileSync_ism p : IgnoresSharedModel (readFileSync p).
Proof.
  intros m w. unfold readFileSync.
  change (disk (withSharedModel m w)) with (disk w).
  change (directoryAt p (withSharedModel m w)) with (directoryAt p w).
  by destruct (disk w !! p), (directoryAt p w).
Qed.

Lemma touchDirectory_withSharedModel d now m w :
  touchDirectory d now (withSharedModel m w) =
  withSharedModel m (touchDirectory d now w).
Proof. unfold touchDirectory. by destruct (String.eqb d uploadsPath). Qed.

Lemma writeFileSync_ism p data now : IgnoresSharedModel (writeFileSync p data now).
Proof.
  intros m w. unfold writeFileSync.
  change (disk (withSharedModel m w)) with (disk w).
  change (directoryAt p (withSharedModel m w)) with (directoryAt p w).
  change (directoryAt (parentDirectory p) (withSharedModel m w))
    with (directoryAt (parentDirectory p) w).
  destruct (disk w !! p); [done|]. destruct (directoryAt p w); [done|].
  destruct (directoryAt (parentDirectory p) w).
  - cbn [fst snd]. by rewrite <- touchDirectory_withSharedModel.
  - by destruct (bool_decide _).
Qed.

Lemma saveTransformationResult_ism taskId yaml url now :
  IgnoresSharedModel (saveTransformationResult env taskId yaml url now).
Proof.
  unfold saveTransformationResult. ism;
    auto using drawUuid_ism, writeFileSync_ism.
Qed.

Lemma validateYamlFile_ism p : IgnoresSharedModel (validateYamlFile env p).
Proof. unfold validateYamlFile. ism; apply readFileSync_ism. Qed.

Lemma resolveSessionFile_ism fs key :
  IgnoresSharedModel (resolveSessionFile fs key).
Proof.
  unfold resolveSessionFile, filesGet, getAvailableTransformationFiles,
    getTransformationFiles. ism; done.
Qed.

Lemma filesHas_ism fs key : IgnoresSharedModel (filesHas fs key).
Proof. unfold filesHas. ism. Qed.

Lemma handleToolCall_ism fc fs now :
  IgnoresSharedModel (handleToolCall env OfGeminiService fc fs now).
Proof.
  unfold handleToolCall, handleGetPricingSummary, summarizeFile,
    handleStartPricingAnalysisJob, startJobOnFile,
    handleGetPricingAnalysisJobStatus, handleInitiatePricingPageTransformation,
    handleGetTransformationTaskStatus, handleGetPricingStrategyAdvice,
    handleGetAvailableTransformationFiles, getAvailableTransformationFiles,
    getTransformationFiles, taskUrlMapGet, taskUrlMapDelete.
  ism; auto using resolveSessionFile_ism, validateYamlFile_ism, filesHas_ism,
    saveTransformationResult_ism; try done.
  by destruct (getProp "taskId" (fc_arguments fc)).
Qed.

End SharedModelHandlers.

Section SharedModelTurn.
Context (env : Collaborators).

Lemma executeFunctionCalls_ism calls session now :
  IgnoresSharedModel (executeFunctionCalls env OfGeminiService calls session now).
Proof.
  unfold executeFunctionCalls. induction calls as [|fc rest IH]; cbn.
  - ism.
  - ism; auto using handleToolCall_ism.
Qed.

Lemma sendToolResultBackToGemini_ism fc result history modelToUse :
  IgnoresSharedModel (sendToolResultBackToGemini env fc result history modelToUse).
Proof. unfold sendToolResultBackToGemini. ism. Qed.

Lemma generateResponse_ism history ctx pc now :
  ctx_pricingContext ctx = Some pc →
  IgnoresSharedModel (generateResponse env history (Some ctx) now).
Proof.
  intros Hpc. unfold generateResponse, modelFor. cbn [mbind option_bind].
  rewrite Hpc.
  ism; auto using executeFunctionCalls_ism, sendToolResultBackToGemini_ism.
Qed.

End SharedModelTurn.

Lemma update_session_withSharedModel sid f m w :
  update_session sid f (withSharedModel m w) =
  withSharedModel m (update_session sid f w).
Proof. done. Qed.

(** X2: a turn of [sendMessage] in a session that has a pricing context of
    its own does not depend on the shared model: whatever document other
    sessions' uploads or a session creation have put into it, the reply
    is the same and the state changes in the same way. *)
Theorem own_context_ignores_shared_model
    (env : Collaborators) (sid message : string)
    (context : option UploadedFileContext) (now : Z) (w : World)
    (s : ChatSession) (pc : PricingContext) (m : GenerativeModel) :
  sessions w !! sid = Some s →
  pricingContext s = Some pc →
  sendMessage env sid message context now (withSharedModel m w) =
    ((sendMessage env sid message context now w).1,
     withSharedModel m (sendMessage env sid message context now w).2).
Proof.
  intros Hs Hpc. unfold sendMessage, respond.
  destruct (String.eqb sid "" || String.eqb message "") eqn:Eempty; [done|].
  set (um := {| role := user; parts := [textPart _] |}).
  set (w1 := update_session sid (set_lastActivity now) w).
  set (w2 := update_session sid (push_message um) w1).
  set (s2 := push_message um (set_lastActivity now s)).
  assert (Hs2 : sessions w2 !! sid = Some s2).
  { unfold w2, s2. apply lookup_update_session. unfold w1.
    by apply lookup_update_session. }
  rewrite (bind_returned _ _ (withSharedModel m w) (Some s) (withSharedModel m w))
    by (unfold gets; cbn; by rewrite Hs).
  rewrite (bind_returned _ _ w (Some s) w) by (unfold gets; by rewrite Hs).
  rewrite (bind_returned _ _ (withSharedModel m w) tt (withSharedModel m w1)) by done.
  rewrite (bind_returned _ _ w tt w1) by done.
  rewrite (bind_returned _ _ (withSharedModel m w1) tt (withSharedModel m w2)) by done.
  rewrite (bind_returned _ _ w1 tt w2) by done.
  rewrite (bind_returned _ _ (withSharedModel m w2) s2 (withSharedModel m w2))
    by (unfold theSession, gets;
        change (sessions (withSharedModel m w2)) with (sessions w2);
        by rewrite Hs2).
  rewrite (bind_returned _ _ w2 s2 w2)
    by (unfold theSession, gets; by rewrite Hs2).
  match goal with
  | |- match ?c (withSharedModel m w2) with _ => _ end = _ =>
      assert (Hrest : IgnoresSharedModel c)
  end.
  { ism; try done.
    eapply generateResponse_ism. cbn. unfold s2. cbn. exact Hpc. }
  rewrite Hrest.
  match goal with
  | |- context [?c w2] => destruct (c w2) as [[r|e] w3]
  end; done.
Qed.

Lemma own_context_ignores_shared_model_witness :
  let s := set_pricingContext
             (Some {| pc_content := Scenario.pricingYaml;
                      pc_fileName := "pricing.yaml"; pc_fileId := "f1" |})
             (Scenario.newSession "A" 0) in
  let w := set_sessions (<["A" := s]> ∅) Scenario.world in
  let m := createModelWithSessionContext (Some "another document") None in
  sendMessage Scenario.env "A" "What plans are there?" None 5 (withSharedModel m w) =
    ((sendMessage Scenario.env "A" "What plans are there?" None 5 w).1,
     withSharedModel m (sendMessage Scenario.env "A" "What plans are there?" None 5 w).2).
Proof.
  intros s w m.
  apply (own_context_ignores_shared_model Scenario.env "A" _ None 5 w s
           {| pc_content := Scenario.pricingYaml;
              pc_fileName := "pricing.yaml"; pc_fileId := "f1" |} m).
  - unfold w. cbn. by rewrite lookup_insert_eq.
  - reflexivity.
Defined.

(** * The log and the model's input format *)

Lemma convertPart_returned part :
  hasPayload part = true → ∃ p, convertPart part = Returned p.
Proof.
  unfold hasPayload, convertPart.
  destruct (text part) as [t|]; [destruct (String.eqb t "")|];
    destruct (functionCall part), (functionResponse part); cbn; eauto;
    try discriminate.
Qed.

Lemma convertPart_threw part :
  hasPayload part = false → convertPart part = Threw "Invalid message part type".
Proof.
  unfold hasPayload, convertPart.
  destruct (text part) as [t|]; [destruct (String.eqb t "")|];
    destruct (functionCall part), (functionResponse part); cbn; eauto;
    try discriminate.
Qed.

Lemma convertPart_message part e :
  convertPart part = Threw e → e = "Invalid message part type".
Proof.
  destruct (hasPayload part) eqn:E.
  - apply convertPart_returned in E as [p ->]. discriminate.
  - rewrite (convertPart_threw _ E). congruence.
Qed.

Lemma mapOutcome_returned {A B} (f : A → Outcome B) (l : list A) :
  (∀ x, x ∈ l → ∃ y, f x = Returned y) →
  ∃ ys, mapOutcome f l = Returned ys ∧ length ys = length l.
Proof.
  induction l as [|x l IH]; intros Hall; cbn.
  - by exists [].
  - destruct (Hall x) as [y ->]; [by left|].
    destruct IH as (ys & -> & Hlen); [intros z Hz; apply Hall; by right|].
    exists (y :: ys). cbn. by rewrite Hlen.
Qed.

Lemma mapOutcome_threw {A B} (f : A → Outcome B) (l : list A) (e : string) :
  (∀ x e', f x = Threw e' → e' = e) →
  (∃ x, x ∈ l ∧ f x = Threw e) →
  mapOutcome f l = Threw e.
Proof.
  intros Honly. induction l as [|x l IH]; intros (z & Hz & Ez).
  - by apply elem_of_nil in Hz.
  - cbn. destruct (f x) as [y|e'] eqn:Ex.
    + apply elem_of_cons in Hz as [->|Hz]; [congruence|].
      rewrite IH; eauto.
    + by rewrite (Honly _ _ Ex).
Qed.

Lemma convertMessage_roles (l : list ChatMessage) (cs : list Content) :
  mapOutcome convertMessage l = Returned cs →
  c_role <$> cs = (λ msg, geminiRole (role msg)) <$> l.
Proof.
  revert cs. induction l as [|msg l IH]; intros cs; cbn.
  - by intros [= <-].
  - unfold convertMessage at 1.
    destruct (mapOutcome convertPart (parts msg)); [|discriminate].
    destruct (mapOutcome convertMessage l) as [ys|]; [|discriminate].
    intros [= <-]. cbn. by rewrite (IH ys).
Qed.

(** X3: [convertToGeminiContent] accepts a log exactly when every part of
    every message carries a non-empty text, a function call or a function
    response. It then yields one content per message, in order, with the
    role [tool] renamed to [function]; otherwise it throws
    "Invalid message part type". *)
Theorem convertToGeminiContent_accepts_convertible_logs (log : list ChatMessage) :
  (convertible log →
     ∃ cs, convertToGeminiContent log = Returned cs ∧
           c_role <$> cs = (λ msg, geminiRole (role msg)) <$> log) ∧
  ((∃ msg part, msg ∈ log ∧ part ∈ parts msg ∧ hasPayload part = false) →
     convertToGeminiContent log = Threw "Invalid message part type").
Proof.
  unfold convertToGeminiContent. split.
  - intros Hconv.
    destruct (mapOutcome_returned convertMessage log) as (cs & E & _).
    + intros msg Hmsg. unfold convertMessage.
      destruct (mapOutcome_returned convertPart (parts msg)) as (ps & -> & _); eauto.
      intros part Hpart. apply convertPart_returned. by eapply Hconv.
    + exists cs. split; [done|]. by apply convertMessage_roles.
  - intros (msg & part & Hmsg & Hpart & Hbad).
    assert (Hm : convertMessage msg = Threw "Invalid message part type").
    { unfold convertMessage. rewrite (mapOutcome_threw convertPart (parts msg)
        "Invalid message part type"); [done|apply convertPart_message|].
      exists part. split; [done|]. by apply convertPart_threw. }
    apply mapOutcome_threw; [|by exists msg].
    intros x e' Ex. unfold convertMessage in Ex.
    destruct (mapOutcome convertPart (parts x)) as [ps|e2] eqn:Eps; [discriminate|].
    injection Ex as <-.
    clear -Eps. induction (parts x) as [|p ps IH]; cbn in Eps; [discriminate|].
    destruct (convertPart p) eqn:Ep.
    + destruct (mapOutcome convertPart ps); [discriminate|].
      injection Eps as <-. by apply IH.
    + injection Eps as <-. by eapply convertPart_message.
Qed.

Lemma string_app_nonempty (a b : string) : a ≠ "" → a +:+ b ≠ "".
Proof. by destruct a. Qed.

Lemma convertible_app l1 l2 :
  convertible l1 → convertible l2 → convertible (l1 ++ l2).
Proof.
  intros H1 H2 msg part [Hm|Hm]%elem_of_app; eauto.
Qed.

Lemma convertible_userMessageOf message context :
  message ≠ "" → convertible [userMessageOf message context].
Proof.
  intros Hne msg part ->%list_elem_of_singleton Hpart.
  cbn in Hpart. apply list_elem_of_singleton in Hpart as ->.
  unfold hasPayload. cbn.
  destruct context; rewrite eqb_empty_false; auto using string_app_nonempty.
Qed.

Lemma convertible_modelMessagesOf c fcs : convertible (modelMessagesOf c fcs).
Proof.
  intros msg part Hmsg Hpart. unfold modelMessagesOf in Hmsg.
  destruct (negb (String.eqb c "") || bool_decide (is_Some fcs));
    [|by apply elem_of_nil in Hmsg].
  apply list_elem_of_singleton in Hmsg as ->. cbn in Hpart.
  apply elem_of_app in Hpart as [Hpart|Hpart].
  - destruct (negb (String.eqb c "")) eqn:Ec; [|by apply elem_of_nil in Hpart].
    apply list_elem_of_singleton in Hpart as ->. unfold hasPayload. cbn.
    by rewrite Ec.
  - destruct fcs as [fcs|]; [|by apply elem_of_nil in Hpart].
    apply list_elem_of_fmap in Hpart as (fc & -> & _).
    done.
Qed.

(** X4: [sendMessage] keeps the session's log acceptable to
    [convertToGeminiContent]: if every part of the log carried a payload
    before the request, every part of the log does afterwards, whatever
    the model answered and whether the turn succeeded or not. *)
Theorem sendMessage_keeps_log_convertible
    (env : Collaborators) (sid message : string)
    (context : option UploadedFileContext) (now : Z) (w : World) :
  convertible (logOf sid w) →
  convertible (logOf sid (sendMessage env sid message context now w).2).
Proof.
  intros Hconv.
  destruct (sessions w !! sid) as [s|] eqn:Hs.
  - destruct (decide (sid = "")) as [->|Hsid];
      [|destruct (decide (message = "")) as [->|Hmsg]].
    + by unfold sendMessage, respond.
    + unfold sendMessage, respond. by rewrite String.eqb_refl, orb_true_r.
    + pose proof (sendMessage_log env sid message context now w s Hsid Hmsg Hs) as Hlog.
      cbv zeta in Hlog. unfold logOf in Hconv. rewrite Hs in Hconv. cbn in Hconv.
      destruct (sendMessage env sid message context now w).1;
        rewrite Hlog; apply convertible_app; auto;
        try (by apply convertible_userMessageOf).
      apply (convertible_app [_]);
        auto using convertible_userMessageOf, convertible_modelMessagesOf.
  - assert ((sendMessage env sid message context now w).2 = w) as ->; [|done].
    unfold sendMessage, respond.
    destruct (String.eqb sid "" || String.eqb message ""); [done|].
    rewrite (bind_returned _ _ w None w); [done|]. unfold gets. by rewrite Hs.
Qed.

Lemma sendMessage_keeps_log_convertible_witness :
  convertible (logOf "A" (sendMessage Scenario.env "A" "What plans are there?"
                            None 5 Scenario.world).2).
Proof.
  apply sendMessage_keeps_log_convertible.
  intros msg part Hmsg. vm_compute in Hmsg. by apply elem_of_nil in Hmsg.
Defined.

(** * Deleting sessions and files *)

(** X5: [deleteSession] on a known session answers 200, removes the session
    from the store and unlinks every file the session lists, leaving every
    other path on disk and every other session as they were; on an unknown
    session it answers 404 and changes nothing. *)
Theorem deleteSession_removes_session_and_files
    (sid : string) (now : Z) (w : World) :
  match sessions w !! sid with
  | Some s =>
      (deleteSession sid now w).1 = Sent 200 "Session deleted successfully" ∧
      sessions (deleteSession sid now w).2 = delete sid (sessions w) ∧
      ∀ p, disk (deleteSession sid now w).2 !! p =
           if decide (p ∈ sf_path <$> files s) then None else disk w !! p
  | None => deleteSession sid now w = (NextError 404 "Session not found", w)
  end.
Proof.
  destruct (sessions w !! sid) as [s|] eqn:Hs.
  - destruct (deleteSessionFiles_eval (files s) now w) as (w1 & E1 & S1 & _ & D1).
    unfold deleteSession, respond.
    rewrite (bind_returned _ _ w (Some s) w) by (unfold gets; by rewrite Hs).
    rewrite (bind_returned _ _ w tt w1) by exact E1.
    unfold mbind, M_bind, modify, mret, M_ret. cbn. by rewrite S1.
  - unfold deleteSession, respond.
    rewrite (bind_returned _ _ w None w) by (unfold gets; by rewrite Hs).
    done.
Qed.

Lemma filter_all_id {A} (P : A → Prop) `{!∀ x, Decision (P x)} (l : list A) :
  (∀ x, x ∈ l → P x) → filter P l = l.
Proof.
  induction l as [|x l IH]; intros Hall; [done|].
  rewrite filter_cons_True by (apply Hall; by left).
  f_equal. apply IH. intros y Hy. apply Hall. by right.
Qed.

Lemma list_find_delete_filter (k : string) (l : list SessionFile) i f :
  NoDup (sf_id <$> l) →
  list_find (λ g, sf_id g = k) l = Some (i, f) →
  delete i l = filter (λ g, sf_id g ≠ k) l.
Proof.
  revert i. induction l as [|x l IH]; intros i Hnd Hfind; [done|].
  rewrite fmap_cons in Hnd. apply NoDup_cons in Hnd as [Hx Hnd].
  cbn in Hfind. destruct (decide (sf_id x = k)) as [Hk|Hk].
  - injection Hfind as <- <-.
    rewrite filter_cons_False by (intros H; by apply H).
    change (delete 0%nat (x :: l)) with l.
    symmetry. apply filter_all_id. intros g Hg Hgk. apply Hx.
    rewrite Hk, <- Hgk. by apply list_elem_of_fmap_2.
  - destruct (list_find (λ g, sf_id g = k) l) as [[j g]|] eqn:E; [|done].
    injection Hfind as <- <-.
    rewrite filter_cons_True by done.
    change (delete (S j) (x :: l)) with (x :: delete j l).
    f_equal. by apply IH.
Qed.

(** X6: [deleteSessionFile] for a file id the session lists (ids being
    distinct) finds the file that carries the id. When the file's path
    holds a regular file or nothing, the request answers 200, unlinks that
    path, leaves in the session exactly the files with another id, in
    order, and sets [lastActivity] to the time of the request; the log and
    every other session are unchanged. When the path holds a directory,
    [unlinkSync] throws: the request answers 500 and changes nothing. *)
Theorem deleteSessionFile_removes_the_file
    (sid fileId : string) (now : Z) (w : World) (s : ChatSession) :
  sessions w !! sid = Some s →
  NoDup (sf_id <$> files s) →
  fileId ∈ sf_id <$> files s →
  ∃ f,
    f ∈ files s ∧ sf_id f = fileId ∧
    (is_Some (disk w !! sf_path f) ∨ directoryAt (sf_path f) w = None →
     ∃ s',
       (deleteSessionFile sid fileId now w).1 = Sent 200 "File deleted successfully" ∧
       disk (deleteSessionFile sid fileId now w).2 = delete (sf_path f) (disk w) ∧
       sessions (deleteSessionFile sid fileId now w).2 = <[sid := s']> (sessions w) ∧
       files s' = filter (λ g, sf_id g ≠ fileId) (files s) ∧
       lastActivity s' = now ∧ messages s' = messages s) ∧
    (disk w !! sf_path f = None → is_Some (directoryAt (sf_path f) w) →
     deleteSessionFile sid fileId now w = (NextError 500 "Error deleting file", w)).
Proof.
  intros Hs Hnd Hin.
  apply list_elem_of_fmap in Hin as (f0 & Hid & Hf0).
  destruct (list_find_elem_of (λ g, sf_id g = fileId) (files s) f0 Hf0)
    as [[i f] Hfind]; [done|].
  pose proof Hfind as Hspec. apply list_find_Some in Hspec as (Hi & Hf & _).
  exists f. split; [by eapply list_elem_of_lookup_2|]. split; [done|].
  unfold deleteSessionFile, respond.
  rewrite (bind_returned _ _ w (Some s) w) by (unfold gets; by rewrite Hs).
  rewrite Hfind. split.
  - intros Hfile.
    destruct (deleteFile_eval (sf_path f) now w)
      as (o & w1 & E1 & S1 & _ & D1 & _ & Hret).
    rewrite (Hret ltac:(tauto)) in E1.
    exists (set_lastActivity now (set_files (delete i (files s)) s)).
    rewrite (bind_returned _ _ w tt w1) by exact E1.
    unfold mbind, M_bind, modify, mret, M_ret. cbn.
    split; [done|]. split; [done|]. split.
    + rewrite S1. apply map_eq. intros k. rewrite lookup_alter.
      destruct (decide (sid = k)) as [<-|Hne].
      * by rewrite lookup_insert_eq, Hs.
      * by rewrite lookup_insert_ne.
    + split; [|done]. by apply (list_find_delete_filter _ _ i f).
  - intros Hnone [d Hdir].
    assert (E : ∃ e, deleteFile (sf_path f) now w = (Threw e, w)).
    { unfold deleteFile, tryCatch, existsSync, gets, mbind, M_bind, statOf.
      rewrite Hnone, Hdir, bool_decide_eq_true_2 by eauto.
      unfold unlinkSync. rewrite Hnone, Hdir. by eexists. }
    destruct E as [e E]. by rewrite (bind_threw _ _ _ _ _ E).
Qed.

Lemma deleteSessionFile_removes_the_file_witness :
  ∃ f s',
    f ∈ files Scenario.attachedSession ∧ sf_id f = sf_id Scenario.attachedFile ∧
    (deleteSessionFile "A" (sf_id Scenario.attachedFile) 9 Scenario.attachedWorld).1 =
      Sent 200 "File deleted successfully" ∧
    disk (deleteSessionFile "A" (sf_id Scenario.attachedFile) 9 Scenario.attachedWorld).2 =
      delete (sf_path f) (disk Scenario.attachedWorld) ∧
    sessions (deleteSessionFile "A" (sf_id Scenario.attachedFile) 9
                Scenario.attachedWorld).2 =
      <["A" := s']> (sessions Scenario.attachedWorld) ∧
    files s' = filter (λ g, sf_id g ≠ sf_id Scenario.attachedFile)
                 (files Scenario.attachedSession) ∧
    lastActivity s' = 9 ∧ messages s' = messages Scenario.attachedSession.
Proof.
  destruct (deleteSessionFile_removes_the_file "A" (sf_id Scenario.attachedFile) 9
              Scenario.attachedWorld Scenario.attachedSession)
    as (f & Hf & Hid & Hdone & _).
  - vm_compute. reflexivity.
  - vm_compute. apply NoDup_singleton.
  - vm_compute. apply list_elem_of_singleton. reflexivity.
  - destruct Hdone as (s' & H); [|by exists f, s'].
    left. cbn in Hf. apply list_elem_of_singleton in Hf. subst f.
    vm_compute. eauto.
Defined.

(** X7: [deleteSessionFile] never changes a pricing context: the context of
    every session and the shared model are after the request what they were
    before it, also when the deleted file is the one the session's context
    was read from, so the model stays grounded in the deleted document. *)
Theorem deleteSessionFile_keeps_every_context
    (sid fileId sid' : string) (now : Z) (w : World) :
  contextOf sid' (deleteSessionFile sid fileId now w).2 = contextOf sid' w ∧
  modelOfSession sid' (deleteSessionFile sid fileId now w).2 = modelOfSession sid' w.
Proof.
  assert (Hctx : contextOf sid' (deleteSessionFile sid fileId now w).2 =
                 contextOf sid' w).
  { unfold deleteSessionFile. apply (frame_respond (contextOf sid')).
    unfold deleteFile.
    frame; try (apply frame_modify; intros w0); try (intros w0); try done.
    by apply contextOf_update_session. }
  split; [done|]. unfold modelOfSession. rewrite Hctx.
  assert ((λ w, gs_model (geminiService w)) (deleteSessionFile sid fileId now w).2 =
          gs_model (geminiService w)) as Hm.
  { unfold deleteSessionFile. apply (frame_respond (λ w, gs_model (geminiService w))).
    unfold deleteFile.
    frame; try (apply frame_modify; intros w0); try (intros w0); done. }
  cbn beta in Hm. by rewrite Hm.
Qed.

(** * Creating a session *)

(** The model that serves a session, given its context and the shared one. *)
Lemma modelOfSession_eq sid w1 w2 :
  contextOf sid w1 = contextOf sid w2 →
  gs_model (geminiService w1) = gs_model (geminiService w2) →
  modelOfSession sid w1 = modelOfSession sid w2.
Proof. intros H1 H2. unfold modelOfSession. by rewrite H1, H2. Qed.

(** X8: creating a session, through either constructor, stores an empty
    session under the new id and resets the shared model to no document.
    So every other session that relies on the shared model (it has no
    pricing context of its own) is from then on served by a model without
    any document, while a session with its own context keeps its model. *)
Theorem new_session_resets_the_shared_model
    (env : Collaborators) (random : string) (now : Z) (w : World) (S : string) :
  let created := createSession random now w in
  let initialized := initializeSession env now w in
  let sid1 := generateSessionId now random in
  let sid2 := uuidv4 env (uuidCount w) in
  let served (sid : string) :=
    if decide (S = sid) then Some (createModelWithSessionContext None None)
    else match contextOf S w with
         | Some (Some pc) =>
             Some (createModelWithSessionContext
                     (Some (pc_content pc)) (Some (pc_fileName pc)))
         | Some None => Some (createModelWithSessionContext None None)
         | None => None
         end in
  created.1 = Sent 200 {| sc_sessionId := sid1; sc_createdAt := now |} ∧
  sessions created.2 = <[sid1 := emptySession sid1 now]> (sessions w) ∧
  modelOfSession S created.2 = served sid1 ∧
  initialized.1 = Sent 201 sid2 ∧
  sessions initialized.2 = <[sid2 := emptySession sid2 now]> (sessions w) ∧
  modelOfSession S initialized.2 = served sid2.
Proof.
  intros created initialized sid1 sid2 served.
  assert (Hserved : ∀ sid w',
    sessions w' = <[sid := emptySession sid now]> (sessions w) →
    gs_model (geminiService w') = createModelWithSessionContext None None →
    modelOfSession S w' = served sid).
  { intros sid w' Hsess Hmodel. unfold served, modelOfSession, contextOf.
    rewrite Hsess, Hmodel. destruct (decide (S = sid)) as [->|Hne].
    - by rewrite lookup_insert_eq.
    - rewrite lookup_insert_ne by done.
      destruct (sessions w !! S) as [s0|]; cbn; [by destruct (pricingContext s0)|done]. }
  split; [done|]. split; [done|]. split; [by apply Hserved|].
  split; [done|]. split; [done|]. by apply Hserved.
Qed.

(** * Messages and the sweep *)

(** X9: [sendMessage] answers 400 when the session id or the message is
    empty and 404 when the session is unknown, and in both cases leaves the
    state exactly as it was: nothing is logged and no activity is recorded. *)
Theorem sendMessage_rejections_change_nothing
    (env : Collaborators) (sid message : string)
    (context : option UploadedFileContext) (now : Z) (w : World) :
  (sid = "" ∨ message = "" →
     sendMessage env sid message context now w =
       (SentError 400 "Session ID and message are required", w)) ∧
  (sid ≠ "" → message ≠ "" → sessions w !! sid = None →
     sendMessage env sid message context now w =
       (SentError 404 "Session not found", w)).
Proof.
  split.
  - intros [->| ->]; unfold sendMessage, respond; [done|].
    by rewrite String.eqb_refl, orb_true_r.
  - intros Hsid Hmsg Hs. unfold sendMessage, respond.
    rewrite (eqb_empty_false _ Hsid), (eqb_empty_false _ Hmsg). cbn [orb].
    rewrite (bind_returned _ _ w None w); [done|]. unfold gets. by rewrite Hs.
Qed.

(** What an accepted [sendMessage] does to its session and to the others. *)
Lemma sendMessage_session env sid message context now w s :
  sid ≠ "" → message ≠ "" → sessions w !! sid = Some s →
  ∃ s', sessions (sendMessage env sid message context now w).2 !! sid = Some s' ∧
        lastActivity s' = now ∧ files s' = files s ∧
        pricingContext s' = pricingContext s ∧ createdAt s' = createdAt s.
Proof.
  intros Hsid Hmsg Hs.
  set (um := userMessageOf message context).
  set (w1 := update_session sid (set_lastActivity now) w).
  set (w2 := update_session sid (push_message um) w1).
  set (s2 := push_message um (set_lastActivity now s)).
  assert (Hs2 : sessions w2 !! sid = Some s2).
  { unfold w2, s2. apply lookup_update_session. unfold w1.
    by apply lookup_update_session. }
  unfold sendMessage, respond.
  rewrite (eqb_empty_false _ Hsid), (eqb_empty_false _ Hmsg). cbn [orb].
  rewrite (bind_returned _ _ w (Some s) w) by (unfold gets; by rewrite Hs).
  rewrite (bind_returned _ _ w tt w1) by done.
  rewrite (bind_returned _ _ w1 tt w2) by done.
  rewrite (bind_returned _ _ w2 s2 w2)
    by (unfold theSession, gets; by rewrite Hs2).
  pose proof (generateResponse_sessions env (messages s2)
    (Some {| ctx_sessionId := id s2; ctx_files := filesById (files s2);
             ctx_pricingContext := pricingContext s2 |}) now w2) as Hframe.
  destruct (generateResponse env (messages s2) _ now w2) as [[resp|e] w3] eqn:E.
  - simpl in Hframe.
    assert (Hs3 : sessions w3 !! sid = Some s2) by (by rewrite Hframe).
    rewrite (bind_returned _ _ w2 resp w3) by exact E.
    destruct (negb (String.eqb (gcr_content resp) "") ||
              bool_decide (is_Some (gcr_functionCalls resp))) eqn:Ec.
    + unfold mbind, M_bind, modify, mret, M_ret. cbn [fst snd].
      eexists. split; [by apply lookup_update_session|done].
    + unfold mbind, M_bind, mret, M_ret. cbn [fst snd]. by exists s2.
  - simpl in Hframe.
    assert (Hs3 : sessions w3 !! sid = Some s2) by (by rewrite Hframe).
    rewrite (bind_threw _ _ w2 e w3) by exact E. cbn [fst snd]. by exists s2.
Qed.

(** A session whose last activity is within the threshold survives a sweep. *)
Lemma cleanupInactiveSessions_keeps_active self now w S s :
  sessions w !! S = Some s →
  now - lastActivity s ≤ 24 * 60 * 60 * 1000 →
  sessions (cleanupInactiveSessions self now w).2 !! S = Some s.
Proof.
  intros Hs Hyoung.
  destruct (cleanupInactiveSessions_eval self now w) as (w1 & E1 & S1 & _ & _).
  rewrite E1. destruct self; cbn; [|by rewrite S1].
  rewrite lookup_foldl_delete, decide_False; [done|].
  intros (s' & Hin & E)%elem_of_reapedIds.
  apply elem_of_map_to_list in Hin. rewrite Hs in Hin. injection Hin as <-.
  unfold isInactive, inactiveThreshold in E. apply Z.ltb_lt in E. lia.
Qed.

(** X10: a message accepted at time [now] keeps its session alive: the
    session records [now] as its last activity, whether the turn ends in an
    answer or in an error, and a sweep run up to 24 hours later, on either
    controller, leaves the session in the store with the files and the
    pricing context it had. *)
Theorem message_keeps_session_alive
    (env : Collaborators) (self : Controller) (sid message : string)
    (context : option UploadedFileContext) (now sweepAt : Z) (w : World)
    (s : ChatSession) :
  sid ≠ "" → message ≠ "" → sessions w !! sid = Some s →
  sweepAt - now ≤ 24 * 60 * 60 * 1000 →
  ∃ s',
    sessions (cleanupInactiveSessions self sweepAt
                (sendMessage env sid message context now w).2).2 !! sid = Some s' ∧
    lastActivity s' = now ∧ files s' = files s ∧
    pricingContext s' = pricingContext s.
Proof.
  intros Hsid Hmsg Hs Hwithin.
  destruct (sendMessage_session env sid message context now w s Hsid Hmsg Hs)
    as (s' & Hs' & Hact & Hfiles & Hctx & _).
  exists s'. split; [|done].
  apply cleanupInactiveSessions_keeps_active; [done|]. by rewrite Hact.
Qed.

Lemma message_keeps_session_alive_witness :
  ∃ s',
    sessions (cleanupInactiveSessions RoutedController 86400005
                (sendMessage Scenario.env "A" "What plans are there?" None 5
                   Scenario.world).2).2 !! "A" = Some s' ∧
    lastActivity s' = 5 ∧ files s' = files (Scenario.newSession "A" 0) ∧
    pricingContext s' = pricingContext (Scenario.newSession "A" 0).
Proof.
  apply message_keeps_session_alive.
  - discriminate.
  - discriminate.
  - vm_compute. reflexivity.
  - vm_compute. discriminate.
Defined.

(** * Validation of pricing files *)

(** X11: [validateYamlFile] never throws and never changes the state. It
    reports a file as valid exactly when the file exists and parses to an
    object that has both keys [saasName] and [plans]; otherwise it gives a
    reason: the parser's or the file system's message, or the first missing
    key, [saasName] being checked before [plans]. *)
Theorem validateYamlFile_verdict (env : Collaborators) (p : string) (w : World) :
  ∃ v,
    validateYamlFile env p w = (Returned v, w) ∧
    (isValid v = true ↔
       ∃ data keys, disk w !! p = Some data ∧
                    yamlLoad env (content data) = Returned (YamlMapping keys) ∧
                    "saasName" ∈ keys ∧ "plans" ∈ keys) ∧
    (isValid v = true → validationError v = None) ∧
    (isValid v = false → ∃ reason, validationError v = Some reason) ∧
    (∀ data keys, disk w !! p = Some data →
       yamlLoad env (content data) = Returned (YamlMapping keys) →
       ("saasName" ∉ keys →
          validationError v = Some "Missing required field: saasName") ∧
       ("saasName" ∈ keys → "plans" ∉ keys →
          validationError v = Some "Missing required field: plans")) ∧
    (∀ data e, disk w !! p = Some data →
       yamlLoad env (content data) = Threw e → validationError v = Some e).
Proof.
  unfold validateYamlFile, tryCatch, mbind, M_bind, readFileSync, liftOutcome.
  destruct (disk w !! p) as [data|] eqn:Hd;
    [destruct (yamlLoad env (content data)) as [[|keys]|e] eqn:Hy;
       [|destruct (bool_decide ("saasName" ∈ keys)) eqn:Hs;
           [destruct (bool_decide ("plans" ∈ keys)) eqn:Hp|]|]
    |destruct (directoryAt p w)];
    rewrite ?bool_decide_eq_true, ?bool_decide_eq_false in *;
    (eexists; split; [reflexivity|]); cbn;
    repeat split; intros;
    repeat match goal with
           | H : ∃ _, _ |- _ => destruct H
           | H : _ ∧ _ |- _ => destruct H
           end;
    simplify_eq; try done; try congruence; try contradiction;
    try (by eexists _, _); eauto.
Qed.

(** * The files a tool call sees *)

Lemma filesById_snoc fs x :
  filesById (fs ++ [x]) = <[sf_id x := x]> (filesById fs).
Proof. unfold filesById. by rewrite foldl_app. Qed.

(** X12: the [Map] that [sendMessage] builds from the session's files for
    the tools resolves an id to the last file of the session that carries
    it, and to nothing when no file does. *)
Theorem filesById_last_wins (fs : list SessionFile) (k : string) :
  filesById fs !! k = last (filter (λ f, sf_id f = k) fs).
Proof.
  induction fs as [|x fs IH] using rev_ind; [done|].
  rewrite filesById_snoc, filter_app.
  destruct (decide (sf_id x = k)) as [<-|Hne].
  - rewrite lookup_insert_eq, filter_cons_True by done.
    by rewrite filter_nil, last_snoc.
  - rewrite lookup_insert_ne, filter_cons_False by done.
    by rewrite filter_nil, app_nil_r.
Qed.

Lemma validateYamlFile_eval env p w :
  ∃ v, validateYamlFile env p w = (Returned v, w).
Proof.
  unfold validateYamlFile, tryCatch, mbind, M_bind, readFileSync, liftOutcome.
  destruct (disk w !! p) as [data|];
    [|destruct (directoryAt p w); by eexists].
  destruct (yamlLoad env (content data)) as [[|keys]|e]; try by eexists.
  destruct (bool_decide ("saasName" ∈ keys)), (bool_decide ("plans" ∈ keys));
    by eexists.
Qed.

(** X13: the upload endpoint accepts a file whatever its content, and the
    check is made only when a tool reads the file: after the upload of a
    file that [validateYamlFile] rejects, the reply is 201 with a file id,
    and [getPricingSummary] on that id, with the session's files as
    [sendMessage] passes them, returns the failure outcome
    "Invalid YAML file: <reason>" without consulting the summary service. *)
Theorem upload_accepts_what_getPricingSummary_rejects
    (env : Collaborators) (sid : string) (file : MulterFile) (now : Z)
    (w : World) (s : ChatSession) (data : FileData) (reason : string) :
  sessions w !! sid = Some s →
  disk w !! mf_path file = Some data →
  mf_path file ≠ "" →
  uuidv4 env (uuidCount w) ≠ "" →
  (∀ w', disk w' = disk w →
     (validateYamlFile env (mf_path file) w').1 =
       Returned {| isValid := false; validationError := Some reason |}) →
  ∃ reply w' s',
    uploadFile env sid (Some file) now w = (Sent 201 reply, w') ∧
    sessions w' !! sid = Some s' ∧
    handleGetPricingSummary env [("pricingFileId", JString (up_fileId reply))]
      (FilesMap (filesById (files s'))) w' =
      (Returned (errorResult ("Invalid YAML file: " +:+ reason)), w').
Proof.
  intros Hs Hd Hp Hid Hbad.
  destruct (uploadFile_eval env sid file now w s data Hs Hd Hp)
    as (reply & w' & Hup & Hfid & Hs' & Hd').
  exists reply, w'. eexists. split; [exact Hup|]. split; [exact Hs'|].
  rewrite Hfid. unfold handleGetPricingSummary.
  cbn [getProp]. rewrite String.eqb_refl. cbn [truthy].
  rewrite (eqb_empty_false _ Hid). cbn [negb].
  rewrite (bind_returned _ _ w' _ w') by apply resolveSessionFile_eval.
  unfold sessionLookup. cbn [files set_lastActivity push_file set_files].
  rewrite filesById_snoc, lookup_insert_eq.
  unfold summarizeFile. cbn [sf_path].
  destruct (validateYamlFile_eval env (mf_path file) w') as (v & Ev).
  specialize (Hbad w' Hd'). rewrite Ev in Hbad. cbn in Hbad.
  injection Hbad as ->.
  rewrite (bind_returned _ _ w' _ w') by exact Ev.
  done.
Qed.

Lemma upload_accepts_what_getPricingSummary_rejects_witness :
  let env := withYamlLoad (λ _, Returned (YamlMapping ["saasName"; "version"]))
               Scenario.env in
  ∃ reply w' s',
    uploadFile env "A" (Some Scenario.upload2) 7 Scenario.world =
      (Sent 201 reply, w') ∧
    sessions w' !! "A" = Some s' ∧
    handleGetPricingSummary env
      [("pricingFileId", JString (up_fileId reply))]
      (FilesMap (filesById (files s'))) w' =
      (Returned (errorResult ("Invalid YAML file: " +:+
                              "Missing required field: plans")), w').
Proof.
  intros env.
  eapply (upload_accepts_what_getPricingSummary_rejects env "A"
            Scenario.upload2 7 Scenario.world).
  - vm_compute. reflexivity.
  - vm_compute. reflexivity.
  - discriminate.
  - vm_compute. discriminate.
  - intros w' Hd. unfold validateYamlFile, tryCatch, mbind, M_bind, readFileSync.
    rewrite Hd. vm_compute. reflexivity.
Defined.

(** * Transformations: from the page to the stored file *)


(** One poll of a completed task with content, by what
    [saveTransformationResult] does. *)
Lemma completed_poll_eval env self taskId content result now w :
  taskId ≠ "" → content ≠ "" →
  transformationConfigured env = true →
  getTransformationStatus env taskId = Returned result →
  t_status result = COMPLETED →
  t_yamlContent result = Some content →
  let url := match getTaskUrlMap self w !! taskId with
             | Some u => if String.eqb u "" then "transformation-" +:+ taskId else u
             | None => "transformation-" +:+ taskId
             end in
  let save := saveTransformationResult env taskId content url now w in
  handleGetTransformationTaskStatus env self [("taskId", JString taskId)] now w =
  match save.1 with
  | Returned saved =>
      (Returned (JObject
         [("success", JBool true);
          ("data", JObject (spread (spread (transformationResultFields result)
             (yamlPreviewFields content ++
              [("savedFile",
                  JObject [("fileId", JString (sf_id saved));
                           ("fileName", JString (sf_originalName saved));
                           ("path", JString (sf_path saved))]);
               ("contextAutoUpdated", JBool true)]))
             [("taskId", JString taskId)]));
          ("message", JString ("Transformation completed for " +:+ taskId +:+
             ". File saved and automatically set as pricing context for this conversation."))]),
       let w3 := putTaskUrlMap self (delete taskId (getTaskUrlMap self save.2)) save.2 in
       set_moduleGeminiService
         (gemini_updatePricingContext content (Some (sf_originalName saved))
            (moduleGeminiService w3)) w3)
  | Threw e =>
      (Returned (JObject
         [("success", JBool true);
          ("data", JObject (spread (spread (transformationResultFields result)
             (yamlPreviewFields content ++
              [("saveError", JString ("Failed to save file: " +:+ e));
               ("contextAutoUpdated", JBool false)]))
             [("taskId", JString taskId)]));
          ("message", JString ("Transformation completed for " +:+ taskId +:+ ""))]),
       save.2)
  end.
Proof.
  intros Htask Hcontent Hconf Hstatus Hdone Hyaml url save.
  unfold handleGetTransformationTaskStatus.
  cbn [getProp String.eqb Ascii.eqb Bool.eqb truthy jsToString].
  rewrite (eqb_empty_false _ Htask), Hconf. cbn [negb].
  unfold tryCatch, mbind, M_bind, liftOutcome, mret, M_ret, taskUrlMapGet,
    taskUrlMapDelete, gets, modify.
  rewrite Hstatus, Hdone, Hyaml, (eqb_empty_false _ Hcontent).
  fold url. fold save. by destruct save as [[saved|e] w2].
Qed.







(** X27: the output of a task whose id has a [/] goes to a path below the
    uploads directory; when the directory that path is in does not exist,
    nothing is stored: the poll reports the task as completed, with the
    file system's [ENOENT] message as [saveError] and
    [contextAutoUpdated: false], the file id it drew is used up, and the
    URL stays remembered, no context being changed. The same poll repeated
    fails in the same way. *)
Theorem poll_of_task_with_unwritable_output
    (env : Collaborators) (self : Orchestrator) (taskId content : string)
    (result : TransformationResult) (now : Z) (w : World) :
  taskId ≠ "" → content ≠ "" →
  transformationConfigured env = true →
  getTransformationStatus env taskId = Returned result →
  t_status result = COMPLETED →
  t_yamlContent result = Some content →
  let p := storedPath env (JString taskId) (uuidCount w) in
  statOf p w = None → statOf (parentDirectory p) w = None →
  let polled := handleGetTransformationTaskStatus env self
                  [("taskId", JString taskId)] now w in
  polled.1 = Returned (JObject
    [("success", JBool true);
     ("data", JObject (spread (spread (transformationResultFields result)
        (yamlPreviewFields content ++
         [("saveError", JString ("Failed to save file: " +:+
             "ENOENT: no such file or directory, open '" +:+ p +:+ "'"));
          ("contextAutoUpdated", JBool false)]))
        [("taskId", JString taskId)]));
     ("message", JString ("Transformation completed for " +:+ taskId +:+ ""))]) ∧
  polled.2 = set_uuidCount (S (uuidCount w)) w.
Proof.
  intros Htask Hcontent Hconf Hstatus Hdone Hyaml p Hp Hparent polled.
  subst polled.
  rewrite (completed_poll_eval env self taskId content result now w) by done.
  apply statOf_None in Hp as [Hfile Hdir].
  apply statOf_None in Hparent as [Hpfile Hpdir].
  assert (E : ∀ url, saveTransformationResult env taskId content url now w =
    (Threw ("ENOENT: no such file or directory, open '" +:+ p +:+ "'"),
     set_uuidCount (S (uuidCount w)) w)).
  { intros url. unfold saveTransformationResult.
    rewrite (bind_returned _ _ w _ (set_uuidCount (S (uuidCount w)) w)) by done.
    apply bind_threw. unfold writeFileSync.
    change (pathJoin uploadsDir _) with p.
    change (disk (set_uuidCount (S (uuidCount w)) w)) with (disk w).
    change (directoryAt p (set_uuidCount (S (uuidCount w)) w))
      with (directoryAt p w).
    change (directoryAt (parentDirectory p) (set_uuidCount (S (uuidCount w)) w))
      with (directoryAt (parentDirectory p) w).
    rewrite Hfile, Hdir, Hpdir, Hpfile.
    by rewrite bool_decide_eq_false_2 by (by intros [? ?]). }
  by rewrite E.
Qed.

Lemma poll_of_task_with_unwritable_output_witness :
  let env := Scenario.env in
  let polled := handleGetTransformationTaskStatus env OfGeminiService
                  [("taskId", JString "2024/acme")] 9 Scenario.world in
  reportedStatus polled.1 = JString "COMPLETED" ∧
  disk polled.2 = disk Scenario.world ∧
  transformationPool polled.2 = [].
Proof.
  intros env polled.
  destruct (poll_of_task_with_unwritable_output env OfGeminiService "2024/acme"
              Scenario.pricingYaml
              {| t_status := COMPLETED; t_yamlContent := Some Scenario.pricingYaml;
                 t_error := None; t_canBeUsedForAnalysis := Some true |}
              9 Scenario.world) as [Hreply Hstate];
    try reflexivity; try discriminate.
  subst polled. rewrite Hreply, Hstate. repeat split; vm_compute; reflexivity.
Defined.

(** * Ageing of the uploads directory *)









(** * The pool of transformation outputs *)

Lemma elem_of_insertByUploadedAt x l y :
  y ∈ insertByUploadedAt x l ↔ y = x ∨ y ∈ l.
Proof.
  induction l as [|z l IH]; cbn [insertByUploadedAt].
  - rewrite list_elem_of_singleton, elem_of_nil. tauto.
  - destruct (sf_uploadedAt z <=? sf_uploadedAt x).
    + by rewrite elem_of_cons.
    + rewrite !elem_of_cons, IH. tauto.
Qed.

Lemma elem_of_sortByUploadedAtDesc l y :
  y ∈ sortByUploadedAtDesc l ↔ y ∈ l.
Proof.
  induction l as [|x l IH]; [done|].
  unfold sortByUploadedAtDesc in *. cbn [foldr].
  by rewrite elem_of_insertByUploadedAt, IH, elem_of_cons.
Qed.

Lemma StronglySorted_insertByUploadedAt x l :
  StronglySorted newerFirst l → StronglySorted newerFirst (insertByUploadedAt x l).
Proof.
  induction 1 as [|z l Hl IH Hz]; cbn [insertByUploadedAt].
  - repeat constructor.
  - destruct (sf_uploadedAt z <=? sf_uploadedAt x) eqn:E.
    + apply Z.leb_le in E. constructor; [by constructor|].
      constructor; [done|]. eapply Forall_impl; [exact Hz|].
      unfold newerFirst. intros. lia.
    + apply Z.leb_gt in E. constructor; [done|].
      apply Forall_forall. intros y [->|Hy]%elem_of_insertByUploadedAt.
      * unfold newerFirst. lia.
      * by eapply Forall_forall in Hz.
Qed.

Lemma StronglySorted_sortByUploadedAtDesc l :
  StronglySorted newerFirst (sortByUploadedAtDesc l).
Proof.
  induction l as [|x l IH]; [constructor|].
  by apply StronglySorted_insertByUploadedAt.
Qed.

Lemma elem_of_transformationPool w f :
  f ∈ transformationPool w ↔
  ∃ name, name ∈ readdirSync uploadsDir w ∧
          transformationFileOf w name = Some f.
Proof.
  unfold transformationPool, getAvailableTransformationFiles, tryCatch,
    getTransformationFiles, gets. cbn [fst].
  by rewrite elem_of_sortByUploadedAtDesc, list_elem_of_omap.
Qed.

Lemma transformationFileOf_Some w name f :
  transformationFileOf w name = Some f →
  JsString.startsWith name "transformation_" = true ∧
  sf_filename f = name ∧ sf_path f = pathJoin uploadsDir name ∧
  ∃ stats, statOf (pathJoin uploadsDir name) w = Some stats ∧
           sf_size f = st_size stats ∧
           sf_uploadedAt f = st_mtime stats.
Proof.
  unfold transformationFileOf.
  destruct (JsString.startsWith name "transformation_"); [|done].
  destruct (statOf (pathJoin uploadsDir name) w) as [stats|]; [|done].
  intros [= <-]. cbn. eauto 10.
Qed.

Lemma isEntryName_transformation name :
  JsString.startsWith name "transformation_" = true → lacksChar "/" name →
  isEntryName name.
Proof.
  intros [r ->]%startsWith_inv Hl. by split_and!.
Qed.

(** X17: the pool of transformation outputs is sorted newest first; every
    entry is directly in the uploads directory under a name that starts
    with [transformation_], listed with the size and modification time the
    file system has for it; and every such entry of the directory has an
    entry in the pool. *)
Theorem transformationPool_lists_stored_outputs_newest_first (w : World) :
  StronglySorted newerFirst (transformationPool w) ∧
  (∀ f, f ∈ transformationPool w →
     JsString.startsWith (sf_filename f) "transformation_" = true ∧
     sf_path f = pathJoin uploadsDir (sf_filename f) ∧
     ∃ stats, statOf (sf_path f) w = Some stats ∧
              sf_size f = st_size stats ∧
              sf_uploadedAt f = st_mtime stats) ∧
  (∀ name,
     JsString.startsWith name "transformation_" = true →
     lacksChar "/" name →
     is_Some (statOf (pathJoin uploadsDir name) w) →
     ∃ f, f ∈ transformationPool w ∧ sf_filename f = name).
Proof.
  split; [|split].
  - unfold transformationPool, getAvailableTransformationFiles, tryCatch,
      getTransformationFiles, gets. cbn [fst].
    apply StronglySorted_sortByUploadedAtDesc.
  - intros f (name & _ & Hf)%elem_of_transformationPool.
    apply transformationFileOf_Some in Hf as (Hs & <- & Hp & stats & Hd & Hsz & Ht).
    rewrite Hp. eauto 10.
  - intros name Hs Hl [stats Hd].
    pose proof (isEntryName_transformation name Hs Hl) as Hentry.
    destruct (transformationFileOf w name) as [f|] eqn:Ef.
    + exists f. split.
      * apply elem_of_transformationPool. exists name. split; [|done].
        apply elem_of_readdirSync. split; [done|].
        rewrite pathJoin_uploads in Hd by done. unfold statOf in Hd.
        rewrite directoryAt_uploads_entry in Hd.
        destruct (disk w !! _); [eauto|].
        destruct (directories w !! _); [eauto|done].
      * by apply transformationFileOf_Some in Ef as (_ & ? & _).
    + unfold transformationFileOf in Ef. by rewrite Hs, Hd in Ef.
Qed.

(** * From a stored output back to its file id *)

Lemma transformationFileOf_stored (w : World)
    (taskId fileId : string) (stats : Stats) :
  let fileName := "transformation_" +:+ taskId +:+ "_" +:+ fileId +:+ ".yaml" in
  lacksChar "_" taskId → lacksChar "_" fileId → lacksChar "." fileId →
  statOf (pathJoin uploadsDir fileName) w = Some stats →
  transformationFileOf w fileName =
    Some {| sf_id := fileId; sf_fileId := fileId;
            sf_originalName := fileName; sf_filename := fileName;
            sf_path := pathJoin uploadsDir fileName;
            sf_size := st_size stats;
            sf_uploadedAt := st_mtime stats;
            sf_status := uploaded |}.
Proof.
  intros fileName HT Hu Hdot Hd. unfold transformationFileOf.
  assert (Hs : JsString.startsWith fileName "transformation_" = true)
    by apply startsWith_app.
  rewrite Hs, Hd.
  assert (Hparts : JsString.splitOn "_" fileName =
                   ["transformation"; taskId; fileId +:+ ".yaml"]).
  { unfold fileName.
    change ("transformation_" +:+ taskId +:+ "_" +:+ fileId +:+ ".yaml")
      with ("transformation" +:+ String "_" (taskId +:+ String "_" (fileId +:+ ".yaml"))).
    rewrite splitOn_app by done. rewrite splitOn_app by done.
    rewrite splitOn_lacks; [done|]. apply lacksChar_app. by split. }
  rewrite Hparts. cbn [lookup list_lookup].
  assert (String.eqb (fileId +:+ ".yaml") "" = false) as ->.
  { apply String.eqb_neq. by destruct fileId. }
  by rewrite removeFirst_suffix.
Qed.

Lemma transformationFileOf_ext (w w' : World) (name : string) :
  statOf (pathJoin uploadsDir name) w' = statOf (pathJoin uploadsDir name) w →
  transformationFileOf w' name = transformationFileOf w name.
Proof. intros H. unfold transformationFileOf. by rewrite H. Qed.

Lemma directoryAt_touchDirectory_ne q d now w :
  q ≠ d → directoryAt q (touchDirectory d now w) = directoryAt q w.
Proof.
  intros Hne. unfold touchDirectory, directoryAt.
  destruct (String.eqb d uploadsPath) eqn:Ed;
    destruct (String.eqb q uploadsPath) eqn:Eq; cbn; rewrite ?Eq; try done.
  - apply String.eqb_eq in Ed, Eq. congruence.
  - by rewrite lookup_alter_ne.
Qed.

Lemma writeFileSync_other p data now w q :
  q ≠ p → q ≠ parentDirectory p →
  disk (writeFileSync p data now w).2 !! q = disk w !! q ∧
  directoryAt q (writeFileSync p data now w).2 = directoryAt q w.
Proof.
  intros Hp Hparent. unfold writeFileSync.
  destruct (disk w !! p).
  { cbn [snd disk set_disk]. by rewrite lookup_insert_ne. }
  destruct (directoryAt p w); [done|].
  destruct (directoryAt (parentDirectory p) w).
  - cbn [snd]. rewrite disk_touchDirectory, directoryAt_touchDirectory_ne by done.
    cbn [disk set_disk]. by rewrite lookup_insert_ne.
  - by destruct (bool_decide _).
Qed.

(** A save leaves the entries beside the one it writes as they were. *)
Lemma saveTransformationResult_other env taskId yaml url now w name :
  let fileName := storedName taskId (uuidv4 env (uuidCount w)) in
  isEntryName fileName → isEntryName name → name ≠ fileName →
  let w' := (saveTransformationResult env taskId yaml url now w).2 in
  disk w' !! ("uploads/" +:+ name) = disk w !! ("uploads/" +:+ name) ∧
  directories w' !! ("uploads/" +:+ name) = directories w !! ("uploads/" +:+ name).
Proof.
  intros fileName Hfile Hname Hne w'.
  assert (Hp : "uploads/" +:+ name ≠ "uploads/" +:+ fileName)
    by (intros Heq%string_app_inj_l; done).
  set (w0 := set_uuidCount (S (uuidCount w)) w).
  destruct (writeFileSync_other ("uploads/" +:+ fileName) yaml now w0
              ("uploads/" +:+ name)) as [Hdisk Hdirs]; [done| |].
  { rewrite parentDirectory_uploads by done. discriminate. }
  rewrite !directoryAt_uploads_entry in Hdirs.
  assert (Hw' : w' = (writeFileSync ("uploads/" +:+ fileName) yaml now w0).2);
    [|by rewrite Hw'].
  subst w'. unfold saveTransformationResult.
  rewrite (bind_returned _ _ w _ w0) by done.
  fold (storedName taskId (uuidv4 env (uuidCount w))). fold fileName.
  rewrite (pathJoin_uploads fileName) by done.
  unfold mbind, M_bind, liftOutcome.
  destruct (writeFileSync ("uploads/" +:+ fileName) yaml now w0) as [[[]|e] w1];
    [|done].
  by destruct (urlHostname env url).
Qed.

(** X18: what [saveTransformationResult] stores can be found again by the
    file id it returned: when the task id and the drawn id contain no
    underscore and no slash, the drawn id contains no dot, and no pool
    entry carries the drawn id yet, looking the id up in the pool of the
    resulting state yields the stored file, with the content's size and the
    time of the save, whether or not the URL could be parsed. *)
Theorem stored_output_is_resolvable_by_its_id
    (env : Collaborators) (taskId yaml url : string) (now : Z) (w : World) :
  let fileId := uuidv4 env (uuidCount w) in
  let fileName := "transformation_" +:+ taskId +:+ "_" +:+ fileId +:+ ".yaml" in
  lacksChar "_" taskId → lacksChar "/" taskId →
  lacksChar "_" fileId → lacksChar "/" fileId → lacksChar "." fileId →
  poolLookup w (JString fileId) = None →
  poolLookup (saveTransformationResult env taskId yaml url now w).2 (JString fileId) =
    Some {| sf_id := fileId; sf_fileId := fileId;
            sf_originalName := fileName; sf_filename := fileName;
            sf_path := pathJoin uploadsDir fileName;
            sf_size := byteLength yaml;
            sf_uploadedAt := now;
            sf_status := uploaded |}.
Proof.
  intros fileId fileName HT HTs Hu Hus Hdot Hfresh.
  set (w' := (saveTransformationResult env taskId yaml url now w).2).
  set (new := {| sf_id := fileId; sf_fileId := fileId;
                 sf_originalName := fileName; sf_filename := fileName;
                 sf_path := pathJoin uploadsDir fileName;
                 sf_size := byteLength yaml; sf_uploadedAt := now;
                 sf_status := uploaded |}).
  assert (Hentry : isEntryName fileName) by (by apply isEntryName_storedName).
  assert (Hparent : parentDirectory (pathJoin uploadsDir fileName) = uploadsPath).
  { rewrite pathJoin_uploads by done. by apply parentDirectory_uploads. }
  (* nothing is held at the path yet: it would be in the pool *)
  assert (Hnone : statOf (pathJoin uploadsDir fileName) w = None).
  { destruct (statOf (pathJoin uploadsDir fileName) w) as [stats|] eqn:Est; [|done].
    exfalso.
    pose proof (transformationFileOf_stored w taskId fileId stats HT Hu Hdot Est)
      as Hf.
    assert (Hin : {| sf_id := fileId; sf_fileId := fileId;
                     sf_originalName := fileName; sf_filename := fileName;
                     sf_path := pathJoin uploadsDir fileName;
                     sf_size := st_size stats; sf_uploadedAt := st_mtime stats;
                     sf_status := uploaded |} ∈ transformationPool w).
    { apply elem_of_transformationPool. exists fileName. split; [|done].
      apply elem_of_readdirSync. split; [done|].
      rewrite pathJoin_uploads in Est by done. unfold statOf in Est.
      rewrite directoryAt_uploads_entry in Est.
      destruct (disk w !! _); [eauto|].
      destruct (directories w !! _); [eauto|done]. }
    unfold poolLookup in Hfresh.
    apply list_elem_of_In in Hin. apply (List.find_none _ _ Hfresh) in Hin.
    cbn in Hin. by rewrite String.eqb_refl in Hin. }
  assert (Hcan : canWrite (pathJoin uploadsDir fileName) w = true).
  { apply statOf_None in Hnone as [Hfile Hdir]. unfold canWrite.
    rewrite Hparent, Hdir.
    rewrite (bool_decide_eq_true_2 (None = None)) by done.
    rewrite (bool_decide_eq_true_2 (is_Some (directoryAt uploadsPath w)))
      by (by eexists).
    apply orb_true_r. }
  assert (Hd : disk w' = <[pathJoin uploadsDir fileName :=
                             {| content := yaml; mtime := now |}]> (disk w)).
  { destruct (saveTransformationResult_eval env taskId yaml url now w)
      as (o & w2 & E & Hd & _).
    cbv zeta in Hd. fold fileId in Hd.
    change (storedName taskId fileId) with fileName in Hd.
    rewrite Hcan in Hd. unfold w'. by rewrite E. }
  assert (Hst : statOf (pathJoin uploadsDir fileName) w' =
                Some {| st_size := byteLength yaml; st_mtime := now;
                        st_isDirectory := false |}).
  { apply (statOf_file _ _ {| content := yaml; mtime := now |}).
    by rewrite Hd, lookup_insert_eq. }
  assert (Hnew : transformationFileOf w' fileName = Some new).
  { by apply (transformationFileOf_stored w' taskId fileId _ HT Hu Hdot Hst). }
  assert (Hin : new ∈ transformationPool w').
  { apply elem_of_transformationPool. exists fileName. split; [|done].
    apply elem_of_readdirSync. split; [done|]. left.
    rewrite <- pathJoin_uploads by done. rewrite Hd, lookup_insert_eq. eauto. }
  assert (Honly : ∀ g, g ∈ transformationPool w' → sf_id g = fileId → g = new).
  { intros g (name & Hname & Hg)%elem_of_transformationPool Hid.
    destruct (decide (name = fileName)) as [->|Hne]; [congruence|].
    exfalso.
    pose proof (proj1 (statOf_listed _ _ Hname)) as Hnm.
    destruct (saveTransformationResult_other env taskId yaml url now w name
                Hentry Hnm Hne) as [Hdisk Hdirs].
    fold w' in Hdisk, Hdirs.
    assert (Hsame : statOf (pathJoin uploadsDir name) w' =
                    statOf (pathJoin uploadsDir name) w).
    { rewrite pathJoin_uploads by done. unfold statOf.
      by rewrite !directoryAt_uploads_entry, Hdisk, Hdirs. }
    assert (Hold : g ∈ transformationPool w).
    { apply elem_of_transformationPool. exists name. split.
      - apply elem_of_readdirSync. apply elem_of_readdirSync in Hname.
        by rewrite <- Hdisk, <- Hdirs.
      - by rewrite <- (transformationFileOf_ext _ _ _ Hsame). }
    unfold poolLookup in Hfresh.
    apply list_elem_of_In in Hold. apply (List.find_none _ _ Hfresh) in Hold.
    cbn in Hold. rewrite Hid, String.eqb_refl in Hold. done. }
  unfold poolLookup.
  destruct (List.find _ (transformationPool w')) as [h|] eqn:Efind.
  - apply List.find_some in Efind as [Hh Hid]. apply list_elem_of_In in Hh.
    cbn in Hid. apply String.eqb_eq in Hid. f_equal. by apply Honly.
  - apply list_elem_of_In in Hin. apply (List.find_none _ _ Efind) in Hin.
    cbn in Hin. by rewrite String.eqb_refl in Hin.
Qed.

(** X19: the pool reads a file's id from the third underscore-separated
    segment of its name. For a task id that itself contains an underscore
    that segment is part of the task id: the stored output is listed under
    an id taken from the task id, not under the file id that was drawn. *)
Theorem underscore_in_task_id_hides_the_file_id
    (w : World) (a b fileId : string) (stats : Stats) :
  let taskId := a +:+ "_" +:+ b in
  let fileName := "transformation_" +:+ taskId +:+ "_" +:+ fileId +:+ ".yaml" in
  lacksChar "_" a → lacksChar "_" b → b ≠ "" →
  statOf (pathJoin uploadsDir fileName) w = Some stats →
  ∃ f, transformationFileOf w fileName = Some f ∧
       sf_filename f = fileName ∧
       sf_id f = JsString.removeFirst ".yaml" b.
Proof.
  intros taskId fileName Ha Hb Hne Hd. unfold transformationFileOf.
  assert (Hs : JsString.startsWith fileName "transformation_" = true)
    by apply startsWith_app.
  rewrite Hs, Hd.
  assert (Hparts : ∃ rest, JsString.splitOn "_" fileName =
                           "transformation" :: a :: b :: rest).
  { unfold fileName, taskId. rewrite !string_app_assoc.
    change ("transformation_" +:+ a +:+ "_" +:+ b +:+ "_" +:+ fileId +:+ ".yaml")
      with ("transformation" +:+ String "_" (a +:+ String "_"
              (b +:+ String "_" (fileId +:+ ".yaml")))).
    rewrite !splitOn_app by done. eauto. }
  destruct Hparts as [rest ->]. cbn [lookup list_lookup].
  rewrite (eqb_empty_false _ Hne). eauto.
Qed.

Lemma stored_output_is_resolvable_by_its_id_witness :
  ∃ f, poolLookup (saveTransformationResult Scenario.env "task-1"
                     Scenario.pricingYaml "https://acme.example" 9
                     Scenario.world).2 (JString "uuid-0") = Some f ∧
       sf_id f = "uuid-0" ∧ sf_uploadedAt f = 9.
Proof.
  eexists. split.
  - apply (stored_output_is_resolvable_by_its_id Scenario.env "task-1"
             Scenario.pricingYaml "https://acme.example" 9 Scenario.world);
      vm_compute; reflexivity.
  - split; reflexivity.
Defined.

Lemma underscore_in_task_id_hides_the_file_id_witness :
  let w := set_disk
             {[ "uploads/transformation_job_7_uuid-0.yaml" :=
                  {| content := Scenario.pricingYaml; mtime := 9 |} ]}
             Scenario.world in
  ∃ f, transformationFileOf w "transformation_job_7_uuid-0.yaml" = Some f ∧
       sf_filename f = "transformation_job_7_uuid-0.yaml" ∧
       sf_id f = JsString.removeFirst ".yaml" "7".
Proof.
  intros w.
  apply (underscore_in_task_id_hides_the_file_id w "job" "7" "uuid-0"
           {| st_size := byteLength Scenario.pricingYaml; st_mtime := 9;
              st_isDirectory := false |});
    try reflexivity; try discriminate.
Defined.

(** * Resolving a file id *)

(** The pool has an entry for a stored output, under the id its name
    carries. *)
Lemma poolLookup_stored w taskId u stats :
  lacksChar "_" taskId → lacksChar "/" taskId →
  lacksChar "_" u → lacksChar "/" u → lacksChar "." u →
  statOf ("uploads/" +:+ storedName taskId u) w = Some stats →
  ∃ f, poolLookup w (JString u) = Some f ∧ sf_id f = u ∧
       JsString.startsWith (sf_filename f) "transformation_" = true ∧
       sf_path f = pathJoin uploadsDir (sf_filename f) ∧
       is_Some (statOf (sf_path f) w).
Proof.
  intros HT HTs Hu Hus Hdot Hst.
  pose proof (isEntryName_storedName taskId u HTs Hus) as Hentry.
  rewrite <- pathJoin_uploads in Hst by done.
  pose proof (transformationFileOf_stored w taskId u stats HT Hu Hdot Hst) as Hf.
  cbv zeta in Hf. fold (storedName taskId u) in Hf.
  match type of Hf with _ = Some ?g => set (stored := g) in * end.
  assert (Hin : stored ∈ transformationPool w).
  { apply elem_of_transformationPool. exists (storedName taskId u).
    split; [|done]. apply elem_of_readdirSync. split; [done|].
    rewrite pathJoin_uploads in Hst by done. unfold statOf in Hst.
    rewrite directoryAt_uploads_entry in Hst.
    destruct (disk w !! _); [eauto|].
    destruct (directories w !! _); [eauto|done]. }
  unfold poolLookup.
  destruct (List.find _ (transformationPool w)) as [f|] eqn:Efind.
  - apply List.find_some in Efind as [Hfin Hid].
    apply list_elem_of_In in Hfin. cbn in Hid. apply String.eqb_eq in Hid.
    exists f. split; [done|]. split; [done|].
    apply elem_of_transformationPool in Hfin as (name & _ & Hname).
    apply transformationFileOf_Some in Hname as (Hs & <- & Hp & st & Hd & _).
    rewrite Hp. eauto.
  - apply list_elem_of_In in Hin. apply (List.find_none _ _ Efind) in Hin.
    cbn in Hin. by rewrite String.eqb_refl in Hin.
Qed.

(** The pool has no entry under an id that no stored output carries. *)
Lemma poolLookup_none w fileId :
  (∀ name, isEntryName name →
     JsString.startsWith name "transformation_" = true →
     is_Some (statOf ("uploads/" +:+ name) w) →
     ∃ taskId v, name = storedName taskId v ∧
                 lacksChar "_" taskId ∧ lacksChar "_" v ∧ lacksChar "." v ∧
                 JString v ≠ fileId) →
  poolLookup w fileId = None.
Proof.
  intros Hall. unfold poolLookup.
  destruct (List.find _ (transformationPool w)) as [f|] eqn:Efind; [|done].
  exfalso. apply List.find_some in Efind as [Hfin Hid].
  apply list_elem_of_In, elem_of_transformationPool in Hfin as (name & Hname & Hf).
  pose proof (statOf_listed _ _ Hname) as [Hentry Hheld].
  pose proof Hf as (Hs & _ & _ & stats & Hst & _)%transformationFileOf_Some.
  destruct (Hall name Hentry Hs) as (taskId & v & -> & HT & Hv & Hdot & Hne).
  { by rewrite <- pathJoin_uploads. }
  unfold storedName in Hf, Hst.
  rewrite (transformationFileOf_stored w taskId v stats HT Hv Hdot Hst) in Hf.
  injection Hf as <-. cbn [sf_id] in Hid.
  destruct fileId; try done. cbn in Hid. apply String.eqb_eq in Hid.
  by subst.
Qed.

(** C8: a handler that takes a file id resolves it against the session's
    own files first: when the session has a file under the id, the handler
    goes on with that file, whatever the uploads directory holds. When the
    session has none, the handler looks among the completed transformation
    outputs: for an output stored as [transformation_<task>_<id>.yaml]
    directly in the uploads directory it goes on with an entry that
    carries the id, and whose path is that of an entry of the directory.
    When the session has no file under the id and no stored output carries
    it, the handler returns the failure outcome that asks for an upload or
    a completed transformation. This holds for both handlers that take a
    file id. *)
Theorem fileId_resolution
    (env : Collaborators) (m : gmap string SessionFile)
    (args : list (string * JsValue)) (w : World) :
  let fileId := getProp "pricingFileId" args in
  let summary := handleGetPricingSummary env args (FilesMap m) w in
  let job := handleStartPricingAnalysisJob env args (FilesMap m) w in
  let jobArguments := truthy (getProp "operation" args) = true ∧
                      truthy (getProp "solver" args) = true in
  truthy fileId = true →
  (∀ f, sessionLookup m fileId = Some f →
     summary = summarizeFile env fileId (FilesMap m) f w ∧
     (jobArguments → job = startJobOnFile env args (FilesMap m) f w)) ∧
  (∀ taskId u stats,
     sessionLookup m fileId = None → fileId = JString u →
     lacksChar "_" taskId → lacksChar "/" taskId →
     lacksChar "_" u → lacksChar "/" u → lacksChar "." u →
     statOf ("uploads/" +:+ storedName taskId u) w = Some stats →
     ∃ f, sf_id f = u ∧
          JsString.startsWith (sf_filename f) "transformation_" = true ∧
          sf_path f = pathJoin uploadsDir (sf_filename f) ∧
          is_Some (statOf (sf_path f) w) ∧
          summary = summarizeFile env fileId (FilesMap m) f w ∧
          (jobArguments → job = startJobOnFile env args (FilesMap m) f w)) ∧
  (sessionLookup m fileId = None →
   (∀ name, isEntryName name →
      JsString.startsWith name "transformation_" = true →
      is_Some (statOf ("uploads/" +:+ name) w) →
      ∃ taskId v, name = storedName taskId v ∧
                  lacksChar "_" taskId ∧ lacksChar "_" v ∧ lacksChar "." v ∧
                  JString v ≠ fileId) →
   summary = (Returned (errorResult (fileNotFoundMessage fileId)), w) ∧
   isFailureOutcome summary.1 ∧
   (jobArguments →
    job = (Returned (errorResult (fileNotFoundMessage fileId)), w) ∧
    isFailureOutcome job.1)).
Proof.
  intros fileId summary job jobArguments Hid.
  destruct (fileId_resolution_steps env m args w Hid) as (Hsum & Hjob & _).
  fold fileId summary in Hsum. fold fileId job in Hjob.
  split; [|split].
  - intros f Hf. rewrite Hf in Hsum, Hjob. split; [done|].
    intros [Hop Hsolver]. by apply Hjob.
  - intros taskId u stats Hnone Hu HT HTs Hus Huss Hdot Hst.
    destruct (poolLookup_stored w taskId u stats HT HTs Hus Huss Hdot Hst)
      as (f & Hpool & Hfid & Hs & Hp & Hheld).
    rewrite Hnone, Hu, Hpool in Hsum, Hjob. rewrite <- Hu in Hsum.
    exists f. split_and!; try done.
    intros [Hop Hsolver]. by apply Hjob.
  - intros Hnone Hall.
    rewrite Hnone, (poolLookup_none w fileId Hall) in Hsum, Hjob.
    split; [done|]. split; [rewrite Hsum; by eexists|].
    intros [Hop Hsolver]. rewrite (Hjob Hop Hsolver). split; [done|by eexists].
Qed.

Lemma fileId_resolution_witness :
  let w := (handleGetTransformationTaskStatus Scenario.env OfGeminiService
              [("taskId", JString "task-1")] 20 Scenario.world).2 in
  let own := Scenario.fileOf "uuid-0" "/srv/uploads/file-1.yaml" in
  let held : gmap string SessionFile := {["uuid-0" := own]} in
  let args := [("pricingFileId", JString "uuid-0")] in
  handleGetPricingSummary Scenario.env args (FilesMap held) w =
    summarizeFile Scenario.env (JString "uuid-0") (FilesMap held) own w ∧
  (∃ f, sf_id f = "uuid-0" ∧
        JsString.startsWith (sf_filename f) "transformation_" = true ∧
        handleGetPricingSummary Scenario.env args (FilesMap ∅) w =
          summarizeFile Scenario.env (JString "uuid-0") (FilesMap ∅) f w) ∧
  isFailureOutcome
    (handleGetPricingSummary Scenario.env
       [("pricingFileId", JString "no-such-file")] (FilesMap ∅) w).1.
Proof.
  intros w own held args. split; [|split].
  - destruct (fileId_resolution Scenario.env held args w) as (Hown & _ & _);
      [reflexivity|].
    apply (Hown own). vm_compute. reflexivity.
  - destruct (fileId_resolution Scenario.env ∅ args w) as (_ & Hpool & _);
      [reflexivity|].
    destruct (Hpool "task-1" "uuid-0"
                {| st_size := byteLength Scenario.pricingYaml; st_mtime := 20;
                   st_isDirectory := false |})
      as (f & Hf & Hs & _ & _ & Hsum & _);
      try (vm_compute; reflexivity).
    exists f. split; [exact Hf|]. split; [exact Hs|exact Hsum].
  - destruct (fileId_resolution Scenario.env ∅
                [("pricingFileId", JString "no-such-file")] w)
      as (_ & _ & Hnone); [reflexivity|].
    apply Hnone; [vm_compute; reflexivity|].
    intros name Hentry Hs Hheld.
    exists "task-1", "uuid-0".
    assert (Hname : name = "transformation_task-1_uuid-0.yaml");
      [|subst name; split_and!; try (vm_compute; reflexivity); discriminate].
    assert (Hd : disk w = <["uploads/transformation_task-1_uuid-0.yaml" :=
                              {| content := Scenario.pricingYaml; mtime := 20 |}]>
                            (disk Scenario.world)) by (vm_compute; reflexivity).
    assert (Hdirs : directories w = directories Scenario.world)
      by (vm_compute; reflexivity).
    destruct Hheld as [stats Hst]. unfold statOf in Hst.
    rewrite directoryAt_uploads_entry, Hd, Hdirs in Hst.
    destruct (decide ("uploads/" +:+ name =
                      "uploads/transformation_task-1_uuid-0.yaml")) as [Heq|Hne].
    { by apply (string_app_inj_l "uploads/") in Heq. }
    exfalso. rewrite lookup_insert_ne in Hst by done.
    unfold Scenario.world in Hst. cbn [disk directories] in Hst.
    rewrite !lookup_insert_ne, lookup_empty in Hst by (cbn; discriminate).
    by rewrite lookup_singleton_ne in Hst by (cbn; discriminate).
Defined.

(** * One model turn *)

Lemma bind_returned_inv {A C} (m : M A) (k : A → M C) w c w' :
  (m ≫= k) w = (Returned c, w') →
  ∃ a w1, m w = (Returned a, w1) ∧ k a w1 = (Returned c, w').
Proof.
  unfold mbind, M_bind. destruct (m w) as [[a|e] w1]; [eauto|discriminate].
Qed.

(** X20: [generateResponse] lets no exception out unwrapped: whatever fails
    inside it (the log's conversion, the model call, a tool, the second
    model call), the message thrown starts with
    "Failed to generate response: ". When it returns, it reports no tool
    call or exactly one. When the model answers with text and without a
    tool call, the state is unchanged. When the model asks for tool calls,
    the first of them is run, against the files of the session context,
    and no other: the state is the one that call leaves; its result goes
    back to the model and the answer is reported with that one call; a
    throw of the tool or of the second model call is wrapped. *)
Theorem generateResponse_wraps_failures_and_runs_one_tool
    (env : Collaborators) (chatHistory : list ChatMessage)
    (sessionContext : option SessionContext) (now : Z) (w : World) :
  (∀ e, (generateResponse env chatHistory sessionContext now w).1 = Threw e →
        ∃ cause, e = "Failed to generate response: " +:+ cause) ∧
  (∀ r, (generateResponse env chatHistory sessionContext now w).1 = Returned r →
        gcr_functionCalls r = None ∨ ∃ fc, gcr_functionCalls r = Some [fc]) ∧
  (∀ contents modelToUse response answer,
     convertToGeminiContent chatHistory = Returned contents →
     (modelFor (sessionContext ≫= ctx_pricingContext) w).1 = Returned modelToUse →
     generateContent env modelToUse contents = Returned response →
     resp_functionCalls response = None ∨ resp_functionCalls response = Some [] →
     resp_text response = Returned answer →
     generateResponse env chatHistory sessionContext now w =
       (Returned {| gcr_content := answer; gcr_functionCalls := None;
                    gcr_usage := usageOf response |}, w)) ∧
  (∀ contents modelToUse response requested others,
     convertToGeminiContent chatHistory = Returned contents →
     (modelFor (sessionContext ≫= ctx_pricingContext) w).1 = Returned modelToUse →
     generateContent env modelToUse contents = Returned response →
     resp_functionCalls response = Some (requested :: others) →
     let first := {| fc_name := gfc_name requested;
                     fc_arguments := default [] (gfc_args requested) |} in
     let held := match sessionContext with
                 | Some context => ctx_files context
                 | None => ∅
                 end in
     let tool := handleToolCall env OfGeminiService first (FilesMap held) now w in
     match tool.1 with
     | Threw e =>
         generateResponse env chatHistory sessionContext now w =
           (Threw ("Failed to generate response: " +:+ e), tool.2)
     | Returned toolResult =>
         let second := sendToolResultBackToGemini env first toolResult
                         chatHistory modelToUse tool.2 in
         generateResponse env chatHistory sessionContext now w =
           (match second.1 with
            | Returned answer =>
                Returned {| gcr_content := answer;
                            gcr_functionCalls := Some [first];
                            gcr_usage := usageOf response |}
            | Threw e => Threw ("Failed to generate response: " +:+ e)
            end, second.2)
     end).
Proof.
  split; [|split; [|split]].
  - intros e. unfold generateResponse, tryCatch.
    match goal with |- context [match ?body w with _ => _ end] =>
      destruct (body w) as [[r|cause] w'] end; [done|].
    unfold throw. cbn. intros [= <-]. eauto.
  - intros r. unfold generateResponse, tryCatch.
    match goal with |- context [match ?body w with _ => _ end] =>
      destruct (body w) as [[r'|cause] w'] eqn:E end; [|cbn; discriminate].
    cbn. intros [= <-].
    apply bind_returned_inv in E as (contents & w1 & _ & E).
    apply bind_returned_inv in E as (modelToUse & w2 & _ & E).
    apply bind_returned_inv in E as (response & w3 & _ & E).
    destruct (resp_functionCalls response) as [[|fc rest]|].
    + apply bind_returned_inv in E as (content & w4 & _ & E).
      injection E as <- _. by left.
    + apply bind_returned_inv in E as (results & w4 & _ & E).
      apply bind_returned_inv in E as (final & w5 & _ & E).
      injection E as <- _. right. eauto.
    + apply bind_returned_inv in E as (content & w4 & _ & E).
      injection E as <- _. by left.
  - intros contents modelToUse response answer Hconv Hmodel Hgen Hcalls Htext.
    assert (Hm : modelFor (sessionContext ≫= ctx_pricingContext) w =
                 (Returned modelToUse, w)).
    { unfold modelFor in *. destruct (sessionContext ≫= ctx_pricingContext);
        cbn in *; by injection Hmodel as <-. }
    unfold generateResponse, tryCatch.
    rewrite (bind_returned _ _ w contents w) by (unfold liftOutcome; by rewrite Hconv).
    rewrite (bind_returned _ _ w modelToUse w) by exact Hm.
    rewrite (bind_returned _ _ w response w) by (unfold liftOutcome; by rewrite Hgen).
    destruct Hcalls as [-> | ->];
      rewrite (bind_returned _ _ w answer w) by (unfold liftOutcome; by rewrite Htext);
      done.
  - intros contents modelToUse response requested others Hconv Hmodel Hgen Hcalls
      first held tool.
    assert (Hm : modelFor (sessionContext ≫= ctx_pricingContext) w =
                 (Returned modelToUse, w)).
    { unfold modelFor in *. destruct (sessionContext ≫= ctx_pricingContext);
        cbn in *; by injection Hmodel as <-. }
    assert (Hfiles : sessionFilesOf (ContextObject
              (default {| ctx_sessionId := "temp-session-for-tool";
                          ctx_files := ∅; ctx_pricingContext := None |}
                 sessionContext)) = FilesMap held)
      by (by destruct sessionContext).
    assert (Hstart : generateResponse env chatHistory sessionContext now w =
      tryCatch
        (toolResult ← executeFunctionCalls env OfGeminiService [first]
                        (ContextObject
                           (default {| ctx_sessionId := "temp-session-for-tool";
                                       ctx_files := ∅;
                                       ctx_pricingContext := None |}
                              sessionContext)) now;
         finalResponseText ← sendToolResultBackToGemini env first
                               (default JUndefined (head toolResult))
                               chatHistory modelToUse;
         mret {| gcr_content := finalResponseText;
                 gcr_functionCalls := Some [first];
                 gcr_usage := usageOf response |})
        (λ message, throw ("Failed to generate response: " +:+ message)) w).
    { unfold generateResponse, tryCatch.
      rewrite (bind_returned _ _ w contents w)
        by (unfold liftOutcome; by rewrite Hconv).
      rewrite (bind_returned _ _ w modelToUse w) by exact Hm.
      rewrite (bind_returned _ _ w response w)
        by (unfold liftOutcome; by rewrite Hgen).
      by rewrite Hcalls. }
    rewrite Hstart. cbn [executeFunctionCalls]. rewrite Hfiles.
    unfold tryCatch. subst tool.
    destruct (handleToolCall env OfGeminiService first (FilesMap held) now w)
      as [[toolResult|e] w1] eqn:Etool; cbn [fst snd].
    + rewrite (bind_returned _ _ w [toolResult] w1)
        by (by rewrite (bind_returned _ _ w toolResult w1 Etool)).
      cbn [head default].
      destruct (sendToolResultBackToGemini env first toolResult chatHistory
                  modelToUse w1) as [[answer|e] w2] eqn:Esecond; cbn [fst snd].
      * by rewrite (bind_returned _ _ w1 answer w2 Esecond).
      * by rewrite (bind_threw _ _ w1 e w2 Esecond).
    + rewrite (bind_threw _ _ w e w1); [done|].
      by rewrite (bind_threw _ _ w e w1 Etool).
Qed.

Lemma generateResponse_wraps_failures_and_runs_one_tool_witness :
  (∃ answer usage,
     generateResponse Scenario.env [userMessageOf "What plans are there?" None]
       None 5 Scenario.world =
     (Returned {| gcr_content := answer; gcr_functionCalls := None;
                  gcr_usage := usage |}, Scenario.world)) ∧
  (generateResponse Scenario.env [userMessageOf "I need advice on tiers" None]
     None 5 Scenario.world).1 =
    Returned {| gcr_content := "Here is my advice.";
                gcr_functionCalls := Some [Scenario.adviceCall];
                gcr_usage := {| promptTokens := 0; completionTokens := 0;
                                totalTokens := 0 |} |}.
Proof.
  split.
  - eexists _, _.
    destruct (generateResponse_wraps_failures_and_runs_one_tool Scenario.env
                [userMessageOf "What plans are there?" None] None 5 Scenario.world)
      as (_ & _ & H & _).
    eapply H; try (vm_compute; reflexivity).
    left. vm_compute. reflexivity.
  - destruct (generateResponse_wraps_failures_and_runs_one_tool Scenario.env
                [userMessageOf "I need advice on tiers" None] None 5 Scenario.world)
      as (_ & _ & _ & H).
    specialize (H [ {| c_role := "user"; c_parts := [PText "I need advice on tiers"] |} ]
                  (createModelWithSessionContext None None)
                  {| resp_functionCalls :=
                       Some [{| gfc_name := "getPricingStrategyAdvice";
                                gfc_args := Some [("topic", JString "tiers")] |}];
                     resp_text := Returned "";
                     resp_usageMetadata := None |}
                  {| gfc_name := "getPricingStrategyAdvice";
                     gfc_args := Some [("topic", JString "tiers")] |} []
                  eq_refl eq_refl eq_refl eq_refl).
    cbv zeta in H.
    match type of H with
    | match ?scrutinee with _ => _ end =>
        let v := eval vm_compute in scrutinee in
        change scrutinee with v in H
    end.
    cbv iota beta in H. rewrite H. vm_compute. reflexivity.
Defined.

(** * The error middleware *)

(** X21: what the error middleware discloses. An [AppError] is answered
    with its own status and message. For any other error the status is
    400, 503 or 500 and the message is one of four fixed texts, unless the
    error's message mentions "validation" (and none of the three keywords
    checked before it), in which case the message itself is sent with 400.
    In particular an error that mentions none of the four keywords is
    answered with 500 and "Internal Server Error", whatever its message. *)
Theorem globalErrorHandler_discloses_only_validation_messages (message : string) :
  (∀ statusCode,
     globalErrorHandler (AppError message statusCode) =
       {| er_error := "Error"; er_message := message; er_statusCode := statusCode |}) ∧
  (let response := globalErrorHandler (PlainError message) in
   er_statusCode response ∈ [400; 503; 500]%nat ∧
   (er_message response ∈
      ["File size too large. Please upload a file smaller than 10MB.";
       "Unexpected file field. Please use " +:+ dquote +:+ "pricingFile" +:+
         dquote +:+ " field for uploads.";
       "External service unavailable. Please try again later.";
       "Internal Server Error"] ∨
    (er_message response = message ∧ er_statusCode response = 400%nat ∧
     mentions message "validation" = true)) ∧
   (mentions message "LIMIT_FILE_SIZE" = false →
    mentions message "LIMIT_UNEXPECTED_FILE" = false →
    mentions message "ECONNREFUSED" = false →
    mentions message "validation" = false →
    response = {| er_error := "Error"; er_message := "Internal Server Error";
                  er_statusCode := 500 |}) ∧
   (mentions message "LIMIT_FILE_SIZE" = true → er_statusCode response = 400%nat)).
Proof.
  split; [done|]. cbv zeta. unfold globalErrorHandler.
  destruct (mentions message "LIMIT_FILE_SIZE") eqn:E1;
    [|destruct (mentions message "LIMIT_UNEXPECTED_FILE") eqn:E2;
      [|destruct (mentions message "ECONNREFUSED") eqn:E3;
        [|destruct (mentions message "validation") eqn:E4]]];
    cbn [er_statusCode er_message];
    (split; [rewrite !elem_of_cons; tauto|]);
    (split; [first [right; done | left; rewrite !elem_of_cons; tauto]|]);
    split; intros; congruence.
Qed.

(** * The endpoints that only read *)

(** X22: the five endpoints that report on a session ([getSession],
    [getSessionStatus], [getSessionFiles], [getMessages] and
    [getPricingContextInfo]) leave the state exactly as it was, so that
    reading a session is no activity and does not postpone its removal by
    the sweep; each answers an error for an unknown session and a
    success for a known one. *)
Theorem reading_a_session_changes_nothing (sid : string) (now : Z) (w : World) :
  (getSession sid w).2 = w ∧
  (getSessionStatus sid w).2 = w ∧
  (getSessionFiles sid w).2 = w ∧
  (getMessages sid w).2 = w ∧
  (getPricingContextInfo sid now w).2 = w ∧
  (sessions w !! sid = None ↔ sentData (getSession sid w).1 = None) ∧
  (sessions w !! sid = None ↔ sentData (getSessionStatus sid w).1 = None) ∧
  (sessions w !! sid = None ↔ sentData (getSessionFiles sid w).1 = None) ∧
  (sessions w !! sid = None ↔ sentData (getMessages sid w).1 = None) ∧
  (sessions w !! sid = None ↔ sentData (getPricingContextInfo sid now w).1 = None).
Proof.
  unfold getSession, getSessionStatus, getSessionFiles, getMessages,
    getPricingContextInfo, respond, mbind, M_bind, gets, mret, M_ret.
  destruct (sessions w !! sid) as [s|]; cbn; repeat split; done.
Qed.

(** * Tool calls on a whole session *)

(** X23: the dispatcher's file-taking tools need the session's files as a
    [Map]. Called through [executeFunctionCalls] with a whole session, whose
    [files] is an array (as [chat] does), a [getPricingSummary] or
    [startPricingAnalysisJob] call with its required arguments throws
    "currentSessionFiles.get is not a function" and leaves the state as it
    was, whatever the id and whatever files the session has. *)
Theorem file_tools_throw_on_a_whole_session
    (env : Collaborators) (self : Orchestrator) (s : ChatSession)
    (args : list (string * JsValue)) (now : Z) (w : World) :
  truthy (getProp "pricingFileId" args) = true →
  executeFunctionCalls env self
    [{| fc_name := "getPricingSummary"; fc_arguments := args |}]
    (WholeSession s) now w =
    (Threw "currentSessionFiles.get is not a function", w) ∧
  (truthy (getProp "operation" args) = true →
   truthy (getProp "solver" args) = true →
   executeFunctionCalls env self
     [{| fc_name := "startPricingAnalysisJob"; fc_arguments := args |}]
     (WholeSession s) now w =
     (Threw "currentSessionFiles.get is not a function", w)).
Proof.
  intros Hid. split; [|intros Hop Hsolver];
    unfold executeFunctionCalls, handleToolCall, handleGetPricingSummary,
      handleStartPricingAnalysisJob, resolveSessionFile, sessionFilesOf, filesGet,
      tryCatch, mbind, M_bind, throw;
    cbn [fc_name fc_arguments String.eqb Ascii.eqb Bool.eqb];
    rewrite ?Hid, ?Hop, ?Hsolver; done.
Qed.

Lemma file_tools_throw_on_a_whole_session_witness :
  executeFunctionCalls Scenario.env OfController
    [{| fc_name := "getPricingSummary";
        fc_arguments := [("pricingFileId", JString "uuid-0")] |}]
    (WholeSession Scenario.attachedSession) 9 Scenario.attachedWorld =
    (Threw "currentSessionFiles.get is not a function", Scenario.attachedWorld).
Proof.
  apply (file_tools_throw_on_a_whole_session Scenario.env OfController
           Scenario.attachedSession [("pricingFileId", JString "uuid-0")] 9
           Scenario.attachedWorld).
  reflexivity.
Defined.

(** * Reading and validating agree *)

(** X24: [readYamlFile] and [validateYamlFile] agree on every file, and
    neither changes the state. When reading returns an object, validation
    accepts it exactly when it has the keys [saasName] and [plans]; when
    reading returns a scalar, validation rejects the structure; and when
    reading throws, its message is "Failed to read YAML file: " followed by
    the very reason validation reports. *)
Theorem readYamlFile_agrees_with_validateYamlFile
    (env : Collaborators) (p : string) (w : World) :
  ∃ verdict,
    validateYamlFile env p w = (Returned verdict, w) ∧
    (readYamlFile env p w).2 = w ∧
    match (readYamlFile env p w).1 with
    | Returned (YamlMapping keys) =>
        isValid verdict = bool_decide ("saasName" ∈ keys) && bool_decide ("plans" ∈ keys)
    | Returned YamlScalar =>
        verdict = {| isValid := false; validationError := Some "Invalid YAML structure" |}
    | Threw e =>
        ∃ cause, e = "Failed to read YAML file: " +:+ cause ∧
                 verdict = {| isValid := false; validationError := Some cause |}
    end.
Proof.
  unfold validateYamlFile, readYamlFile, tryCatch, mbind, M_bind, readFileSync,
    liftOutcome, throw.
  destruct (disk w !! p) as [data|];
    [destruct (yamlLoad env (content data)) as [[|keys]|e];
       [| destruct (bool_decide ("saasName" ∈ keys)) eqn:E1;
          destruct (bool_decide ("plans" ∈ keys)) eqn:E2 |]
    |destruct (directoryAt p w)];
    eexists; (split; [reflexivity|]); cbn; rewrite ?E1, ?E2; eauto.
Qed.

(** * Uploads that are turned away *)

(** X25: what the upload endpoint does when it turns a request away.
    Without a file it answers 400 and changes nothing. For an unknown
    session it answers 404 and removes the file multer has saved, leaving
    every other path and every session as they were. For a known session
    whose file's path holds nothing it answers 500 with the file manager's
    message, and the session and the disk are unchanged. *)
Theorem uploadFile_rejections
    (env : Collaborators) (sid : string) (file : MulterFile) (now : Z) (w : World) :
  uploadFile env sid None now w = (NextError 400 "No file was provided", w) ∧
  (sessions w !! sid = None →
     (uploadFile env sid (Some file) now w).1 = NextError 404 "Session not found" ∧
     sessions (uploadFile env sid (Some file) now w).2 = sessions w ∧
     geminiService (uploadFile env sid (Some file) now w).2 = geminiService w ∧
     ∀ p, disk (uploadFile env sid (Some file) now w).2 !! p =
          if decide (p = mf_path file ∧ mf_path file ≠ "") then None
          else disk w !! p) ∧
  (is_Some (sessions w !! sid) → statOf (mf_path file) w = None →
     (uploadFile env sid (Some file) now w).1 =
       NextError 500 ("Error processing file: " +:+
         "Archivo no encontrado o no fue guardado correctamente por multer") ∧
     sessions (uploadFile env sid (Some file) now w).2 = sessions w ∧
     geminiService (uploadFile env sid (Some file) now w).2 = geminiService w ∧
     disk (uploadFile env sid (Some file) now w).2 = disk w).
Proof.
  split; [done|]. split.
  - intros Hs. unfold uploadFile, respond.
    rewrite (bind_returned _ _ w None w) by (unfold gets; by rewrite Hs).
    assert (E : ∃ w1,
      tryCatch
        (existsSync (mf_path file) ≫= λ present : bool,
         if negb (String.eqb (mf_path file) "") && present
         then unlinkSync (mf_path file) now else mret tt)
        (λ _, mret tt) w = (Returned tt, w1) ∧
      sessions w1 = sessions w ∧ geminiService w1 = geminiService w ∧
      ∀ p, disk w1 !! p =
           if decide (p = mf_path file ∧ mf_path file ≠ "") then None
           else disk w !! p).
    { unfold tryCatch, existsSync, gets, mbind, M_bind.
      destruct (String.eqb (mf_path file) "") eqn:Epath;
        [apply String.eqb_eq in Epath|apply String.eqb_neq in Epath];
        cbn [negb andb].
      { exists w. split_and!; try done. intros p.
        rewrite decide_False; [done|]. intros [_ H]. done. }
      destruct (disk w !! mf_path file) as [data|] eqn:Hd.
      - rewrite (statOf_file _ _ _ Hd), bool_decide_eq_true_2 by eauto.
        rewrite (unlinkSync_file _ _ _ _ Hd). eexists. split; [reflexivity|].
        rewrite sessions_touchDirectory, disk_touchDirectory,
          (obs_touchDirectory geminiService) by done.
        split_and!; try done. intros p. cbn [disk set_disk].
        destruct (decide (p = mf_path file)) as [->|Hp].
        + rewrite decide_True by done. apply lookup_delete_eq.
        + rewrite decide_False by (intros [? _]; done).
          by apply lookup_delete_ne.
      - assert (Hsame : ∀ p, disk w !! p =
                  if decide (p = mf_path file ∧ mf_path file ≠ "") then None
                  else disk w !! p).
        { intros p. destruct (decide (p = mf_path file)) as [->|Hp].
          - by rewrite decide_True.
          - by rewrite decide_False by (intros [? _]; done). }
        destruct (unlinkSync_threw _ now w Hd) as [e He].
        destruct (bool_decide (is_Some (statOf (mf_path file) w)));
          rewrite ?He; by exists w. }
    destruct E as (w1 & E & S1 & G1 & D1).
    rewrite (bind_returned _ _ _ _ _ E). by cbn.
  - intros [s Hs] Hd. unfold uploadFile, respond.
    rewrite (bind_returned _ _ w (Some s) w) by (unfold gets; by rewrite Hs).
    assert (Hd' : statOf (mf_path file) (set_uuidCount (S (uuidCount w)) w) = None)
      by exact Hd.
    unfold tryCatch, saveUploadedFile, drawUuid, mbind, M_bind, gets, throw,
      mret, M_ret.
    rewrite Hd'. done.
Qed.

Lemma uploadFile_rejections_witness :
  (uploadFile Scenario.env "nobody" (Some Scenario.upload1) 7 Scenario.world).1 =
    NextError 404 "Session not found" ∧
  disk (uploadFile Scenario.env "nobody" (Some Scenario.upload1) 7 Scenario.world).2
    !! mf_path Scenario.upload1 = None.
Proof.
  destruct (uploadFile_rejections Scenario.env "nobody" Scenario.upload1 7
              Scenario.world) as (_ & H & _).
  destruct H as (Hreply & _ & _ & Hdisk); [vm_compute; reflexivity|].
  split; [exact Hreply|]. rewrite Hdisk. rewrite decide_True; [done|].
  split; [done|discriminate].
Defined.
